(** * Ingest pipeline: job identity, idempotent intake, state history,
    folder validation and manifest writing.

  Shallow embedding of the four handlers

    - lambdas/ingest-on-done-create-job/handler.py   (Module Intake)
    - lambdas/ingest-update-job-state/handler.py     (Module UpdateState)
    - lambdas/ingest-validate-files/handler.py       (Module Validate)
    - lambdas/ingest-write-manifest/handler.py       (Module Manifest)

  together with the collaborators they call: SHA-256 (hashlib), the job
  table (DynamoDB), the object store (S3) and the orchestrator (Step
  Functions).

  Conventions.  A Python [str] is a [string]: the sequence of bytes of its
  UTF-8 form, so [s.encode("utf-8")] is the list of its bytes, [+] is
  [+:+], and the comparison of two strings is the comparison of their code
  points.  JSON payloads are [value]s, Python dicts that are used as maps
  are [gmap]s, and a handler is a function from its input and the state
  of the collaborators to an outcome and their new state. *)

From Stdlib Require Import ZArith String Ascii DecimalString Sorted Permutation.
From stdpp Require Import gmap strings list.

#[local] Set Warnings "-register-all".
#[local] Open Scope string_scope.
#[local] Open Scope list_scope.

(* ===================================================================== *)
(** * Part I.  Definitions                                                *)
(* ===================================================================== *)

(** ** SHA-256 (FIPS 180-4), as computed by [hashlib.sha256(b).hexdigest()] *)

Module SHA256.
#[local] Open Scope Z_scope.

Definition wrap32 (x : Z) : Z := x mod 2 ^ 32.
Definition add32 (x y : Z) : Z := wrap32 (x + y).
Definition rotr (n x : Z) : Z :=
  Z.lor (Z.shiftr x n) (wrap32 (Z.shiftl x (32 - n))).
Definition not32 (x : Z) : Z := Z.lxor x (2 ^ 32 - 1).

Definition Ch (x y z : Z) : Z := Z.lxor (Z.land x y) (Z.land (not32 x) z).
Definition Maj (x y z : Z) : Z :=
  Z.lxor (Z.lxor (Z.land x y) (Z.land x z)) (Z.land y z).
Definition bsig0 (x : Z) : Z := Z.lxor (Z.lxor (rotr 2 x) (rotr 13 x)) (rotr 22 x).
Definition bsig1 (x : Z) : Z := Z.lxor (Z.lxor (rotr 6 x) (rotr 11 x)) (rotr 25 x).
Definition ssig0 (x : Z) : Z := Z.lxor (Z.lxor (rotr 7 x) (rotr 18 x)) (Z.shiftr x 3).
Definition ssig1 (x : Z) : Z := Z.lxor (Z.lxor (rotr 17 x) (rotr 19 x)) (Z.shiftr x 10).

(** The sixty-four round constants. *)
Definition round_constants : list Z :=
  [ 0x428A2F98 ; 0x71374491 ; 0xB5C0FBCF ; 0xE9B5DBA5
  ; 0x3956C25B ; 0x59F111F1 ; 0x923F82A4 ; 0xAB1C5ED5
  ; 0xD807AA98 ; 0x12835B01 ; 0x243185BE ; 0x550C7DC3
  ; 0x72BE5D74 ; 0x80DEB1FE ; 0x9BDC06A7 ; 0xC19BF174
  ; 0xE49B69C1 ; 0xEFBE4786 ; 0x0FC19DC6 ; 0x240CA1CC
  ; 0x2DE92C6F ; 0x4A7484AA ; 0x5CB0A9DC ; 0x76F988DA
  ; 0x983E5152 ; 0xA831C66D ; 0xB00327C8 ; 0xBF597FC7
  ; 0xC6E00BF3 ; 0xD5A79147 ; 0x06CA6351 ; 0x14292967
  ; 0x27B70A85 ; 0x2E1B2138 ; 0x4D2C6DFC ; 0x53380D13
  ; 0x650A7354 ; 0x766A0ABB ; 0x81C2C92E ; 0x92722C85
  ; 0xA2BFE8A1 ; 0xA81A664B ; 0xC24B8B70 ; 0xC76C51A3
  ; 0xD192E819 ; 0xD6990624 ; 0xF40E3585 ; 0x106AA070
  ; 0x19A4C116 ; 0x1E376C08 ; 0x2748774C ; 0x34B0BCB5
  ; 0x391C0CB3 ; 0x4ED8AA4A ; 0x5B9CCA4F ; 0x682E6FF3
  ; 0x748F82EE ; 0x78A5636F ; 0x84C87814 ; 0x8CC70208
  ; 0x90BEFFFA ; 0xA4506CEB ; 0xBEF9A3F7 ; 0xC67178F2 ].

(** The eight working variables, also the chaining value. *)
Record state := mkState {
  sa : Z; sb : Z; sc : Z; sd : Z; se : Z; sf : Z; sg : Z; sh : Z }.

Definition initial_state : state :=
  mkState 0x6A09E667 0xBB67AE85 0x3C6EF372 0xA54FF53A
          0x510E527F 0x9B05688C 0x1F83D9AB 0x5BE0CD19.

Definition word_at (w : list Z) (i : nat) : Z := nth i w 0.

(** One step of the message schedule on the window of the last sixteen
    words: W(t) = ssig1 W(t-2) + W(t-7) + ssig0 W(t-15) + W(t-16). *)
Definition next_word (w : list Z) : Z :=
  add32 (add32 (ssig1 (word_at w 14)) (word_at w 9))
        (add32 (ssig0 (word_at w 1)) (word_at w 0)).

Definition round (k wt : Z) (s : state) : state :=
  let t1 := add32 (add32 (add32 (sh s) (bsig1 (se s))) (Ch (se s) (sf s) (sg s)))
                  (add32 k wt) in
  let t2 := add32 (bsig0 (sa s)) (Maj (sa s) (sb s) (sc s)) in
  mkState (add32 t1 t2) (sa s) (sb s) (sc s) (add32 (sd s) t1) (se s) (sf s) (sg s).

(** The sixty-four rounds, one per constant; the window slides by one
    word per round. *)
Fixpoint rounds (ks : list Z) (w : list Z) (s : state) : state :=
  match ks with
  | [] => s
  | k :: ks' => rounds ks' (tl w ++ [next_word w]) (round k (word_at w 0) s)
  end.

Definition add_state (x y : state) : state :=
  mkState (add32 (sa x) (sa y)) (add32 (sb x) (sb y)) (add32 (sc x) (sc y))
          (add32 (sd x) (sd y)) (add32 (se x) (se y)) (add32 (sf x) (sf y))
          (add32 (sg x) (sg y)) (add32 (sh x) (sh y)).

Definition compress (s : state) (block : list Z) : state :=
  add_state s (rounds round_constants block s).

(** Big-endian bytes of a number, [n] of them. *)
Fixpoint be_bytes (n : nat) (x : Z) : list Z :=
  match n with
  | O => []
  | S n' => Z.shiftr x (8 * Z.of_nat n') mod 256 :: be_bytes n' x
  end.

Definition pad (msg : list Z) : list Z :=
  let len := Z.of_nat (length msg) in
  msg ++ [0x80] ++ repeat 0 (Z.to_nat ((55 - len) mod 64)) ++ be_bytes 8 (8 * len).

(** Big-endian 32-bit words of a byte sequence (four bytes per word). *)
Fixpoint words_of (fuel : nat) (bs : list Z) : list Z :=
  match fuel, bs with
  | S fuel', b3 :: b2 :: b1 :: b0 :: rest =>
      (((b3 * 256 + b2) * 256 + b1) * 256 + b0) :: words_of fuel' rest
  | _, _ => []
  end.

(** The sixteen-word blocks of a word sequence. *)
Fixpoint blocks_of (fuel : nat) (ws : list Z) : list (list Z) :=
  match fuel, ws with
  | S fuel', _ :: _ => firstn 16 ws :: blocks_of fuel' (skipn 16 ws)
  | _, _ => []
  end.

Definition digest_state (msg : list Z) : state :=
  let padded := pad msg in
  let ws := words_of (length padded) padded in
  fold_left compress (blocks_of (length ws) ws) initial_state.

Definition hex_digit (n : Z) : ascii :=
  nth (Z.to_nat (n mod 16))
      (list_ascii_of_string "0123456789abcdef") "0"%char.

Definition hex_word (x : Z) (rest : string) : string :=
  String (hex_digit (Z.shiftr x 28)) (String (hex_digit (Z.shiftr x 24))
 (String (hex_digit (Z.shiftr x 20)) (String (hex_digit (Z.shiftr x 16))
 (String (hex_digit (Z.shiftr x 12)) (String (hex_digit (Z.shiftr x 8))
 (String (hex_digit (Z.shiftr x 4)) (String (hex_digit x) rest))))))).

Definition hex_state (s : state) : string :=
  hex_word (sa s) (hex_word (sb s) (hex_word (sc s) (hex_word (sd s)
 (hex_word (se s) (hex_word (sf s) (hex_word (sg s) (hex_word (sh s) ""))))))).

(** [hashlib.sha256(msg).hexdigest()] *)
Definition hexdigest (msg : list Z) : string := hex_state (digest_state msg).

(** Two different messages with one digest. *)
Definition collision (m1 m2 : list Z) : Prop :=
  m1 ≠ m2 ∧ hexdigest m1 = hexdigest m2.
End SHA256.

(** ** Python strings and JSON values *)

Module Py.

(** [s.encode("utf-8")] *)
Definition encode_utf8 (s : string) : list Z :=
  map (fun c => Z.of_N (N_of_ascii c)) (list_ascii_of_string s).

(** [s.endswith(suffix)] *)
Definition endswith (s suffix : string) : bool :=
  (String.length suffix <=? String.length s)%nat
  && String.eqb
       (substring (String.length s - String.length suffix)
                  (String.length suffix) s)
       suffix.

(** [c in s] for a one-character string [c] *)
Fixpoint contains (c : ascii) (s : string) : bool :=
  match s with
  | EmptyString => false
  | String x r => Ascii.eqb x c || contains c r
  end.

(** [s.split(sep)] for a one-character separator *)
Fixpoint split (sep : ascii) (s : string) : list string :=
  match s with
  | EmptyString => [EmptyString]
  | String x r =>
      if Ascii.eqb x sep then EmptyString :: split sep r
      else match split sep r with
           | p :: ps => String x p :: ps
           | [] => [String x EmptyString]
           end
  end.

(** [s.split(sep, 1)[0]]: what stands before the first separator, the
    whole string when there is none *)
Fixpoint split_first (sep : ascii) (s : string) : string :=
  match s with
  | EmptyString => EmptyString
  | String x r => if Ascii.eqb x sep then EmptyString
                  else String x (split_first sep r)
  end.

(** What stands before the last separator, when there is one. *)
Fixpoint before_last (sep : ascii) (s : string) : option string :=
  match s with
  | EmptyString => None
  | String x r =>
      match before_last sep r with
      | Some p => Some (String x p)
      | None => if Ascii.eqb x sep then Some EmptyString else None
      end
  end.

(** [s.rsplit(sep, 1)[0]] *)
Definition rsplit_first (sep : ascii) (s : string) : string :=
  match before_last sep s with Some p => p | None => s end.

(** JSON values as Python holds them after [json.loads]: [None], [bool],
    [int], [str], [list] and [dict] with string keys.  Numbers of the
    payloads here are integers (sizes and counts). *)
Inductive value :=
| VNull
| VBool (b : bool)
| VInt (z : Z)
| VStr (s : string)
| VList (l : list value)
| VMap (m : gmap string value).

(** A dict literal. *)
Definition dict (l : list (string * value)) : gmap string value :=
  list_to_map l.

(** Truth value of an object, as [if v:] and [not v] test it. *)
Definition truthy (v : value) : bool :=
  match v with
  | VNull => false
  | VBool b => b
  | VInt z => negb (z =? 0)%Z
  | VStr s => negb (String.eqb s "")
  | VList l => match l with [] => false | _ => true end
  | VMap m => negb (bool_decide (m = ∅))
  end.

(** [a or b] *)
Definition por (a b : value) : value := if truthy a then a else b.

(** [d.get(k)] *)
Definition get (d : gmap string value) (k : string) : value :=
  match d !! k with Some v => v | None => VNull end.

(** [get_nested(dct, path)] of ingest-update-job-state, with its
    default [None]:
<<
    cur = dct
    for p in path:
        if not isinstance(cur, dict) or p not in cur:
            return default
        cur = cur[p]
    return cur
>> *)
Fixpoint get_nested (cur : value) (path : list string) : value :=
  match path with
  | [] => cur
  | p :: rest =>
      match cur with
      | VMap m => match m !! p with
                  | Some v => get_nested v rest
                  | None => VNull
                  end
      | _ => VNull
      end
  end.

(** [get_in(d, "a.b.c")] of ingest-write-manifest: the same walk along
    [path.split(".")]. *)
Definition get_in (d : gmap string value) (path : string) : value :=
  get_nested (VMap d) (split "." path).

(** [f"{v}"], the text of [str(v)]; the one of a list or a dict is
    Python's own, taken as it is. *)
Definition format (repr : value -> string) (v : value) : string :=
  match v with
  | VStr s => s
  | VNull => "None"
  | VBool true => "True"
  | VBool false => "False"
  | VInt z => NilZero.string_of_int (Z.to_int z)
  | _ => repr v
  end.

(** Exceptions the handlers raise or let through.  [DecimalException] is
    a signal of the module [decimal] ([Inexact], [Rounded] or [Overflow]). *)
Inductive exn :=
| KeyError
| IndexError
| TypeError
| AttributeError
| DecimalException
| ValueError (msg : string)
| RuntimeError (msg : string)
| ClientError (code message : string).

(** The result of a call: a value, or an exception. *)
Inductive result (A : Type) :=
| Ok (a : A)
| Raise (e : exn).
Arguments Ok {A} a.
Arguments Raise {A} e.

(** [v[k]] for a string [k] *)
Definition getitem (v : value) (k : string) : result value :=
  match v with
  | VMap m => match m !! k with Some x => Ok x | None => Raise KeyError end
  | _ => Raise TypeError
  end.

(** [v[0]]; on a string the first character, which is all its callers
    need: they subscript it by a string next, a [TypeError]. *)
Definition getitem0 (v : value) : result value :=
  match v with
  | VList (x :: _) => Ok x
  | VList [] => Raise IndexError
  | VMap _ => Raise KeyError
  | VStr (String c _) => Ok (VStr (String c EmptyString))
  | VStr EmptyString => Raise IndexError
  | _ => Raise TypeError
  end.

End Py.

(** ** The job table (DynamoDB) *)

Module Dynamo.
Import Py.

(** A job record is a map from attribute names to values; the table maps
    the hash key [job_id], a string, to the record. *)
Abbreviation item := (gmap string value).
Abbreviation table := (gmap string item).

(** Errors a service answers with for reasons of its own, whatever the
    request says. *)
Inductive fault_code :=
| ProvisionedThroughputExceededException
| InternalServerError
| AccessDeniedException
| ResourceNotFoundException
| ServiceUnavailable.

Definition code_name (c : fault_code) : string :=
  match c with
  | ProvisionedThroughputExceededException => "ProvisionedThroughputExceededException"
  | InternalServerError => "InternalServerError"
  | AccessDeniedException => "AccessDeniedException"
  | ResourceNotFoundException => "ResourceNotFoundException"
  | ServiceUnavailable => "ServiceUnavailable"
  end.

Record service_fault := { fcode : fault_code; fmessage : string }.

Definition raise_fault {A} (f : service_fault) : result A :=
  Raise (ClientError (code_name (fcode f)) (fmessage f)).

(** Operands of a [SET] action of an update expression. *)
Inductive operand :=
| OVal (v : value)                         (* :placeholder *)
| OAttr (a : string)                       (* attribute of the item *)
| OIfNotExists (a : string) (d : operand)  (* if_not_exists(a, d) *)
| OListAppend (x y : operand).             (* list_append(x, y) *)

(** Operands are evaluated on the item as it is before the update;
    [None] is a validation error of the service. *)
Fixpoint eval_operand (old : item) (o : operand) : option value :=
  match o with
  | OVal v => Some v
  | OAttr a => old !! a
  | OIfNotExists a d =>
      match old !! a with Some v => Some v | None => eval_operand old d end
  | OListAppend x y =>
      match eval_operand old x, eval_operand old y with
      | Some (VList l1), Some (VList l2) => Some (VList (l1 ++ l2))
      | _, _ => None
      end
  end.

(** The [SET] actions of one update, applied to the record together. *)
Fixpoint apply_sets (old : item) (sets : list (string * operand)) (acc : item)
  : option item :=
  match sets with
  | [] => Some acc
  | (a, o) :: rest =>
      match eval_operand old o with
      | Some v => apply_sets old rest (<[a := v]> acc)
      | None => None
      end
  end.

(** What the table resource can turn into attribute values.  It does so
    for the key, the item and every placeholder before a request is sent:
    [None], [bool], [str], lists and dicts go through, an [int] goes
    through the decimal context of DynamoDB numbers, which has 38 digits
    and raises on an integer that needs more. *)
Fixpoint serializable (v : value) : bool :=
  match v with
  | VInt z => (Z.abs z <? 10 ^ 38)%Z
  | VList l => forallb serializable l
  | VMap m => map_fold (fun _ x rest => serializable x && rest) true m
  | _ => true
  end.

Fixpoint operand_serializable (o : operand) : bool :=
  match o with
  | OVal v => serializable v
  | OAttr _ => true
  | OIfNotExists _ d => operand_serializable d
  | OListAppend x y => operand_serializable x && operand_serializable y
  end.

Definition request_serializable (key : value) (sets : list (string * operand))
    : bool :=
  serializable key && forallb (fun s => operand_serializable s.2) sets.

(** The conditional write, once the item is serialised: what the service
    answers. *)
Definition put_item_request (fault : option service_fault) (it : item)
    (t : table) : result table :=
  match fault with
  | Some f => raise_fault f
  | None =>
      match it !! "job_id" with
      | Some (VStr k) =>
          match t !! k with
          | Some _ => Raise (ClientError "ConditionalCheckFailedException"
                                         "The conditional request failed")
          | None => Ok (<[k := it]> t)
          end
      | _ => Raise (ClientError "ValidationException"
                                "One of the required keys was not given a value")
      end
  end.

(** [table.put_item(Item=it, ConditionExpression="attribute_not_exists(job_id)")] *)
Definition put_item_if_absent (fault : option service_fault) (it : item)
    (t : table) : result table :=
  if serializable (VMap it) then put_item_request fault it t
  else Raise DecimalException.

(** The update, once key and placeholders are serialised: one atomic
    write of the record; a record that does not exist is created with its
    key. *)
Definition update_item_request (fault : option service_fault) (key : value)
    (sets : list (string * operand)) (t : table) : result table :=
  match fault with
  | Some f => raise_fault f
  | None =>
      match key with
      | VStr k =>
          let old : item :=
            match t !! k with Some r => r | None => {[ "job_id" := VStr k ]} end in
          match apply_sets old sets old with
          | Some new => Ok (<[k := new]> t)
          | None => Raise (ClientError "ValidationException"
                                       "The provided expression refers to an attribute of the wrong type")
          end
      | _ => Raise (ClientError "ValidationException"
                                "The provided key element does not match the schema")
      end
  end.

(** [table.update_item(Key={"job_id": key}, UpdateExpression="SET ...",
    ExpressionAttributeValues=...)] *)
Definition update_item (fault : option service_fault) (key : value)
    (sets : list (string * operand)) (t : table) : result table :=
  if request_serializable key sets then update_item_request fault key sets t
  else Raise DecimalException.

End Dynamo.

(** ** Intake Gateway: lambdas/ingest-on-done-create-job/handler.py *)

Module Intake.
Import Py Dynamo.

(** [generate_job_id]:
<<
    raw = f"{project_code}:{folder_path}"
    return hashlib.sha256(raw.encode("utf-8")).hexdigest()
>> *)
Definition generate_job_id (project_code folder_path : string) : string :=
  let raw := project_code +:+ ":" +:+ folder_path in
  SHA256.hexdigest (encode_utf8 raw).

(** What [sfn.start_execution] answers. *)
Inductive start_outcome :=
| Started (execution_arn : value)
| ExecutionAlreadyExists (message : string)
| StartFault (f : service_fault).

(** The environment of one invocation: configuration, the clock as the
    successive readings of [now_iso()], and what the collaborators answer. *)
Record env := {
  STATE_MACHINE_ARN : option string;
  now_iso : nat -> string;
  put_item_fault : option service_fault;
  update_item_fault : option service_fault;
  start_execution_outcome : start_outcome;
}.

(** The collaborators' state: the job table and the executions started,
    by name, with their input. *)
Record world := {
  jobs : table;
  executions : list (string * gmap string value);
}.

Section Handler.

(** Standard-library functions of Python taken as they are:
    [urllib.parse.unquote_plus], and the text Python prints for a list or
    a dict. *)
Variable unquote_plus : string -> string.
Variable repr : value -> string.

(** Step 1 of the handler, inside its [try]:
<<
    record = event["Records"][0]
    bucket = record["s3"]["bucket"]["name"]
    raw_key = record["s3"]["object"]["key"]
    object_key = unquote_plus(raw_key)
>> *)
Definition extract (event : value) : result (value * string) :=
  match getitem event "Records" with Raise e => Raise e | Ok records =>
  match getitem0 records with Raise e => Raise e | Ok record =>
  match getitem record "s3" with Raise e => Raise e | Ok s3 =>
  match getitem s3 "bucket" with Raise e => Raise e | Ok b =>
  match getitem b "name" with Raise e => Raise e | Ok bucket =>
  match getitem record "s3" with Raise e => Raise e | Ok s3' =>
  match getitem s3' "object" with Raise e => Raise e | Ok o =>
  match getitem o "key" with Raise e => Raise e | Ok raw_key =>
  match raw_key with
  | VStr k => Ok (bucket, unquote_plus k)
  | _ => Raise AttributeError
  end end end end end end end end end.

Definition job_item_of (bucket : value) (object_key folder_path project_code
    job_id current_ts : string) : item :=
  dict [ ("job_id", VStr job_id)
       ; ("project_code", VStr project_code)
       ; ("ingest_folder", VStr ("s3://" +:+ format repr bucket +:+ "/" +:+ folder_path))
       ; ("state", VStr "CREATED")
       ; ("trigger", VStr "_INGEST_DONE")
       ; ("created_at", VStr current_ts)
       ; ("last_seen_at", VStr current_ts)
       ; ("last_seen_object_key", VStr object_key)
       ; ("ruleset_version", VStr "v1.0") ].

(** Step 7, the duplicate path:
<<
    seen_ts = now_iso()
    table.update_item(Key={"job_id": job_id},
        UpdateExpression="SET last_seen_at = :t, last_seen_object_key = :k",
        ExpressionAttributeValues={":t": seen_ts, ":k": object_key})
    return {"status": "duplicate_ingest_done_ignored", "job_id": job_id,
            "ingest_folder": job_item["ingest_folder"]}
>> *)
Definition on_duplicate (e : env) (job_id object_key : string) (job_item : item)
    (w : world) : result (gmap string value) * world :=
  let seen_ts := now_iso e 1 in
  match update_item (update_item_fault e) (VStr job_id)
          [ ("last_seen_at", OVal (VStr seen_ts))
          ; ("last_seen_object_key", OVal (VStr object_key)) ] (jobs w) with
  | Raise x => (Raise x, w)
  | Ok jobs' =>
      (Ok (dict [ ("status", VStr "duplicate_ingest_done_ignored")
                ; ("job_id", VStr job_id)
                ; ("ingest_folder", get job_item "ingest_folder") ]),
       {| jobs := jobs'; executions := executions w |})
  end.

(** Step 8, the new job: start the execution named by the job id; when
    that fails for another reason than an execution of that name, mark
    the record and raise again. *)
Definition on_created (e : env) (bucket : value) (job_id object_key folder_path
    project_code : string) (job_item : item) (w : world)
    : result (gmap string value) * world :=
  let execution_input :=
    dict [ ("job_id", VStr job_id)
         ; ("project_code", VStr project_code)
         ; ("bucket", bucket)
         ; ("object_key", VStr object_key)
         ; ("folder_path", VStr folder_path)
         ; ("ingest_folder", get job_item "ingest_folder")
         ; ("trigger", get job_item "trigger")
         ; ("created_at", get job_item "created_at") ] in
  match start_execution_outcome e with
  | Started arn =>
      (Ok (dict [ ("status", VStr "job_created_and_execution_started")
                ; ("job_id", VStr job_id)
                ; ("execution_arn", arn) ]),
       {| jobs := jobs w;
          executions := executions w ++ [(job_id, execution_input)] |})
  | ExecutionAlreadyExists _ =>
      (Ok (dict [ ("status", VStr "job_created_but_execution_already_exists")
                ; ("job_id", VStr job_id) ]), w)
  | StartFault f =>
      let error := VMap (dict [ ("Code", VStr (code_name (fcode f)))
                              ; ("Message", VStr (fmessage f)) ]) in
      match update_item (update_item_fault e) (VStr job_id)
              [ ("state", OVal (VStr "ERROR_STARTING"))
              ; ("start_error", OVal error)
              ; ("last_seen_at", OVal (VStr (now_iso e 1))) ] (jobs w) with
      | Raise x => (Raise x, w)
      | Ok jobs' =>
          (raise_fault f, {| jobs := jobs'; executions := executions w |})
      end
  end.

Definition handler (e : env) (event : value) (w : world)
    : result (gmap string value) * world :=
  match STATE_MACHINE_ARN e with
  | None | Some EmptyString =>
      (Raise (RuntimeError "Missing required environment variable: STATE_MACHINE_ARN"), w)
  | Some _ =>
  (* 1) extract the location, decode the key *)
  match extract event with
  | Raise KeyError | Raise IndexError =>
      (Ok (dict [ ("status", VStr "error")
                ; ("message", VStr "Invalid event structure") ]), w)
  | Raise x => (Raise x, w)
  | Ok (bucket, object_key) =>
  (* 2) only the marker *)
  if negb (endswith object_key "_INGEST_DONE") then
    (Ok (dict [ ("status", VStr "ignored")
              ; ("reason", VStr "not_ingest_done_marker") ]), w)
  (* 3) inside a folder *)
  else if negb (contains "/" object_key) then
    (Ok (dict [ ("status", VStr "ignored"); ("reason", VStr "file_in_root") ]), w)
  else
    let folder_path := rsplit_first "/" object_key +:+ "/" in
    let project_code := split_first "/" folder_path in
    let job_id := generate_job_id project_code folder_path in
    let current_ts := now_iso e 0 in
    let job_item :=
      job_item_of bucket object_key folder_path project_code job_id current_ts in
    (* 6) create the job only if it does not exist *)
    match put_item_if_absent (put_item_fault e) job_item (jobs w) with
    | Ok jobs' =>
        on_created e bucket job_id object_key folder_path project_code job_item
          {| jobs := jobs'; executions := executions w |}
    | Raise (ClientError code msg) =>
        if String.eqb code "ConditionalCheckFailedException"
        then on_duplicate e job_id object_key job_item w
        else (Raise (ClientError code msg), w)
    | Raise x => (Raise x, w)
    end
  end end.

End Handler.
End Intake.

(** ** State Transition Recorder: lambdas/ingest-update-job-state/handler.py *)

Module UpdateState.
Import Py Dynamo.

Record env := {
  now_iso : string;
  update_item_fault : option service_fault;
}.

(** The entry appended to the history:
<<
    history_entry = {
        "at": ts, "to": new_state, "by": "stepfunctions",
        "project_code": project_code, "trigger": trigger,
        "execution_id": execution_id, "entered_time": entered_time,
        "ruleset_version": ruleset_version,
    }
>> *)
Definition history_entry_of (ts : string) (new_state project_code trigger
    execution_id entered_time ruleset_version : value) : gmap string value :=
  dict [ ("at", VStr ts)
       ; ("to", new_state)
       ; ("by", VStr "stepfunctions")
       ; ("project_code", project_code)
       ; ("trigger", trigger)
       ; ("execution_id", execution_id)
       ; ("entered_time", entered_time)
       ; ("ruleset_version", ruleset_version) ].

(** The entry the handler builds for an event, both payload shapes
    resolved. *)
Definition history_entry (e : env) (event : gmap string value) : gmap string value :=
  let new_state :=
    por (get_nested (VMap event) ["policy"; "state"; "next"]) (get event "new_state") in
  let ruleset_version :=
    por (get_nested (VMap event) ["policy"; "ruleset_version"]) (get event "ruleset_version") in
  let project_code :=
    por (get_nested (VMap event) ["policy"; "project_code"]) (get event "project_code") in
  let trigger :=
    por (get_nested (VMap event) ["impl"; "event"; "trigger"]) (get event "trigger") in
  let execution_id :=
    por (get_nested (VMap event) ["impl"; "orchestration"; "execution_id"])
        (get event "execution_id") in
  let entered_time :=
    por (get_nested (VMap event) ["impl"; "orchestration"; "entered_time"])
        (get event "entered_time") in
  history_entry_of (now_iso e) new_state project_code trigger execution_id
    entered_time ruleset_version.

(** The update expression of the handler, the one it sends:
<<
    SET #s = :s, updated_at = :u,
        state_history = list_append(if_not_exists(state_history, :empty), :h)
>>
    with [#s] the attribute [state], [:h] the one-entry list and [:empty]
    the empty list. *)
Definition update_expr (new_state : value) (ts : string)
    (entry : gmap string value) : list (string * operand) :=
  [ ("state", OVal new_state)
  ; ("updated_at", OVal (VStr ts))
  ; ("state_history",
      OListAppend (OIfNotExists "state_history" (OVal (VList [])))
                  (OVal (VList [VMap entry]))) ].

Definition handler (e : env) (event : gmap string value) (jobs : table)
    : result (gmap string value) * table :=
  let job_id :=
    por (get_nested (VMap event) ["policy"; "job_id"]) (get event "job_id") in
  let new_state :=
    por (get_nested (VMap event) ["policy"; "state"; "next"]) (get event "new_state") in
  if negb (truthy job_id) || negb (truthy new_state) then
    (Raise (ValueError "job_id and new_state are required."), jobs)
  else
    let ts := now_iso e in
    match update_item (update_item_fault e) job_id
            (update_expr new_state ts (history_entry e event)) jobs with
    | Raise x => (Raise x, jobs)
    | Ok jobs' =>
        (Ok (dict [ ("ok", VBool true)
                  ; ("job_id", job_id)
                  ; ("new_state", new_state)
                  ; ("updated_at", VStr ts) ]), jobs')
    end.

(** A sequence of calls, each with the environment it runs in: the
    results, in order, and the table after the last. *)
Fixpoint run (calls : list (env * gmap string value)) (jobs : table)
    : list (result (gmap string value)) * table :=
  match calls with
  | [] => ([], jobs)
  | (e, event) :: rest =>
      let '(r, jobs') := handler e event jobs in
      let '(rs, jobs'') := run rest jobs' in
      (r :: rs, jobs'')
  end.

(** The job id and the target state a call resolves to. *)
Definition job_id_of (event : gmap string value) : value :=
  por (get_nested (VMap event) ["policy"; "job_id"]) (get event "job_id").
Definition new_state_of (event : gmap string value) : value :=
  por (get_nested (VMap event) ["policy"; "state"; "next"]) (get event "new_state").

(** The history of a job as the table holds it; a record without the
    attribute has none. *)
Definition state_history (jobs : table) (job_id : string) : list value :=
  match jobs !! job_id with
  | Some r => match r !! "state_history" with
              | Some (VList l) => l
              | _ => []
              end
  | None => []
  end.

Definition state_of (jobs : table) (job_id : string) : option value :=
  match jobs !! job_id with
  | Some r => r !! "state"
  | None => None
  end.

End UpdateState.

(** ** Folder Validator: lambdas/ingest-validate-files/handler.py *)

Module Validate.
Import Py.

(** A [datetime], by its [isoformat()]. *)
Record datetime := { isoformat : string }.

(** One entry of [Contents] of a listing response; a field is [None] when
    the dict has no such key. *)
Record s3_object := {
  Key : option string;
  Size : option Z;
  ETag : option string;
  LastModified : option datetime;
}.

Record config := {
  MAX_KEYS : Z;
  ALLOW_ZERO_BYTE : bool;
}.

(** [items[:k]] *)
Definition slice_to {A} (items : list A) (k : Z) : list A :=
  if (0 <=? k)%Z then firstn (Z.to_nat k) items
  else firstn (length items - Z.to_nat (- k)) items.

(** [list_all_objects].  The listing of a prefix is served in pages, one
    per call of [s3.list_objects_v2]; a response carries the page as
    [Contents] and is [IsTruncated] when pages remain, the continuation
    token standing for them.  An empty list of pages is the one response
    without [Contents].
<<
    items = []
    while True:
        resp = s3.list_objects_v2(...)
        items.extend(resp.get("Contents", []))
        if len(items) >= max_keys:
            return items[:max_keys]
        if resp.get("IsTruncated"):
            token = resp.get("NextContinuationToken")
            continue
        return items
>> *)
Fixpoint list_loop (items : list s3_object) (contents : list s3_object)
    (remaining : list (list s3_object)) (max_keys : Z) : list s3_object :=
  let items := items ++ contents in
  if (max_keys <=? Z.of_nat (length items))%Z then slice_to items max_keys
  else match remaining with
       | next :: remaining' => list_loop items next remaining' max_keys
       | [] => items
       end.

Definition list_all_objects (pages : list (list s3_object)) (max_keys : Z)
    : list s3_object :=
  match pages with
  | [] => list_loop [] [] [] max_keys
  | first :: remaining => list_loop [] first remaining max_keys
  end.

(** [o.get("Key") == marker_key] *)
Definition key_is (k : option string) (marker_key : value) : bool :=
  match k, marker_key with
  | Some s, VStr m => String.eqb s m
  | None, VNull => true
  | _, _ => false
  end.

(** [not s] for an optional string *)
Definition missing (s : option string) : bool :=
  match s with
  | None | Some EmptyString => true
  | Some _ => false
  end.

(** The body of the loop of [validate_objects] for one payload object:
    the errors it appends. *)
Definition object_errors (allow_zero_byte : bool) (o : s3_object) : list string :=
  match Key o with
  | None | Some EmptyString => ["BAD_OBJECT: missing Key"]
  | Some key =>
      (match Size o with
       | None => ["BAD_OBJECT: missing Size (" +:+ key +:+ ")"]
       | Some size =>
           if negb allow_zero_byte && (size =? 0)%Z
           then ["ZERO_BYTE_OBJECT: " +:+ key]
           else []
       end)
      ++ (if missing (ETag o)
          then ["BAD_OBJECT: missing ETag (" +:+ key +:+ ")"]
          else [])
  end.

(** [validate_objects] *)
Definition validate_objects (allow_zero_byte : bool) (objects : list s3_object)
    (marker_key : value) : bool * list string :=
  let payload := List.filter (fun o => negb (key_is (Key o) marker_key)) objects in
  match payload with
  | [] => (false, ["EMPTY_FOLDER: no payload objects found (excluding _INGEST_DONE)"])
  | _ =>
      let errors :=
        fold_left (fun errors o => errors ++ object_errors allow_zero_byte o)
                  payload [] in
      (match errors with [] => true | _ => false end, errors)
  end.

Record inventory_item := {
  key : string;
  size : Z;
  etag : option string;
  last_modified : option string;
}.

(** The loop that builds the inventory:
<<
    for o in objects:
        k = o.get("Key")
        if not k or k == marker_key:
            continue
        inventory.append({"key": k, "size": int(o.get("Size", 0)),
            "etag": o.get("ETag"),
            "last_modified": o.get("LastModified").isoformat()
                             if o.get("LastModified") else None})
>> *)
Definition inventory_item_of (o : s3_object) : inventory_item :=
  {| key := match Key o with Some k => k | None => "" end;
     size := match Size o with Some n => n | None => 0%Z end;
     etag := ETag o;
     last_modified := option_map isoformat (LastModified o) |}.

Fixpoint collect (objects : list s3_object) (marker_key : value)
    : list inventory_item :=
  match objects with
  | [] => []
  | o :: rest =>
      if missing (Key o) || key_is (Key o) marker_key then collect rest marker_key
      else inventory_item_of o :: collect rest marker_key
  end.

(** [inventory.sort(key=lambda x: x["key"])]: a stable sort, keys compared
    as strings.  An item goes before the first one whose key is not
    smaller than its own. *)
Fixpoint insert_by_key (x : inventory_item) (l : list inventory_item)
    : list inventory_item :=
  match l with
  | [] => [x]
  | y :: l' =>
      if String.leb (key x) (key y) then x :: y :: l'
      else y :: insert_by_key x l'
  end.

Definition sort_by_key (l : list inventory_item) : list inventory_item :=
  foldr insert_by_key [] l.

Definition build_inventory (objects : list s3_object) (marker_key : value)
    : list inventory_item :=
  sort_by_key (collect objects marker_key).

Record stats := {
  object_count_including_marker : nat;
  payload_file_count : nat;
  max_keys_cap : Z;
}.

(** The dict the handler returns; the early returns carry neither
    statistics nor inventory. *)
Record outcome := {
  ok : bool;
  validated_at : string;
  reason : string;
  errors : list string;
  result_stats : option stats;
  inventory : option (list inventory_item);
}.

(** The environment: configuration, the clock, and the listing the object
    store serves for a bucket and a prefix. *)
Record env := {
  cfg : config;
  now_iso : string;
  listing : string -> string -> list (list s3_object);
}.

Definition handler (e : env) (event : gmap string value) : result outcome :=
  let bucket := get event "bucket" in
  let folder_path := get event "folder_path" in
  let marker_key := get event "object_key" in
  if negb (truthy bucket) || negb (truthy folder_path) || negb (truthy marker_key) then
    Ok {| ok := false; validated_at := now_iso e; reason := "INVALID_INPUT";
          errors := ["Missing required fields: bucket, folder_path, object_key"];
          result_stats := None; inventory := None |}
  else
    match folder_path with
    | VStr folder_path =>
        let prefix :=
          if endswith folder_path "/" then folder_path else folder_path +:+ "/" in
        match bucket with
        | VStr bucket =>
            (* 1) list the objects *)
            let objects :=
              list_all_objects (listing e bucket prefix) (MAX_KEYS (cfg e)) in
            match objects with
            | [] =>
                Ok {| ok := false; validated_at := now_iso e;
                      reason := "FOLDER_NOT_FOUND_OR_EMPTY";
                      errors := ["No objects found under prefix: " +:+ prefix];
                      result_stats := None; inventory := None |}
            | _ =>
                (* 2) validate *)
                let '(ok, errors) :=
                  validate_objects (ALLOW_ZERO_BYTE (cfg e)) objects marker_key in
                (* 3) the inventory, sorted *)
                let inventory := build_inventory objects marker_key in
                Ok {| ok := ok; validated_at := now_iso e;
                      reason := if ok then "OK" else "FAILED_VALIDATION";
                      errors := errors;
                      result_stats :=
                        Some {| object_count_including_marker := length objects;
                                payload_file_count := length inventory;
                                max_keys_cap := MAX_KEYS (cfg e) |};
                      inventory := Some inventory |}
            end
        | _ => Raise TypeError
        end
    | _ => Raise AttributeError
    end.

End Validate.

(** ** Manifest Writer: lambdas/ingest-write-manifest/handler.py *)

Module Manifest.
Import Py Dynamo.

(** The environment: the configuration, the clock, and what the calls of
    the two services do: [put_object_fault] is the [ClientError] that
    [s3.put_object] raises, [None] for a call that returns, and
    [update_item_fault] the one that the table service answers the update
    with, [None] when it serves it. *)
Record env := {
  MANIFEST_BUCKET : option string;
  RULESET_VERSION_DEFAULT : string;
  utc_now_iso : string;
  put_object_fault : option service_fault;
  update_item_fault : option service_fault;
}.

(** An object as [s3.put_object] stores it.  The body is kept as the
    document that [json.dumps] serialises. *)
Record stored_object := {
  Body : gmap string value;
  ContentType : string;
}.

(** The collaborators' state: the object store, by bucket and key, and
    the job table. *)
Record world := {
  objects : gmap (string * string) stored_object;
  jobs : table;
}.

(** [str(e)] of a [ClientError] *)
Definition client_error_text (operation code message : string) : string :=
  "An error occurred (" +:+ code +:+ ") when calling the " +:+ operation
  +:+ " operation: " +:+ message.

Section Handler.
Variable repr : value -> string.

(** The manifest document. *)
Definition manifest_of (job_id project_code ruleset_version : value)
    (ingest_folder_uri : string) (bucket : value) (prefix created_at : string)
    (validated_at inventory stats : value) : gmap string value :=
  dict [ ("manifest_version", VStr "v1.0")
       ; ("job_id", job_id)
       ; ("project_code", project_code)
       ; ("ruleset_version", ruleset_version)
       ; ("ingest_folder", VStr ingest_folder_uri)
       ; ("impl", VMap (dict [ ("s3", VMap (dict [ ("bucket", bucket)
                                                 ; ("prefix", VStr prefix) ])) ]))
       ; ("state", VMap (dict [ ("name", VStr "VALIDATED")
                              ; ("reason", VStr "validation_succeeded") ]))
       ; ("created_at", VStr created_at)
       ; ("validated_at", validated_at)
       ; ("inventory", inventory)
       ; ("stats", stats) ].

(** What the handler has resolved when it reaches the write: the
    document, where it goes, and the record it belongs to. *)
Record plan := {
  manifest : gmap string value;
  out_bucket : value;
  manifest_key : string;
  manifest_s3_uri : string;
  plan_job_id : value;
  created_at : string;
}.

(** The handler up to the write: the checks of the input, the fall-backs
    and the document. *)
Definition prepare (e : env) (event : gmap string value) : result plan :=
  let job_id := get event "job_id" in
  let project_code := get event "project_code" in
  if negb (truthy job_id) || negb (truthy project_code) then
    Raise (ValueError "Missing required fields: job_id and project_code")
  else
    let bucket := por (get_in event "impl.s3.bucket") (get event "bucket") in
    let prefix :=
      por (por (get_in event "impl.s3.prefix") (get event "folder_path"))
          (get_in event "impl.s3.folder_path") in
    match negb (truthy bucket), prefix with
    | true, _ | _, VNull =>
        Raise (ValueError "Missing required S3 location: impl.s3.bucket and impl.s3.prefix (or folder_path)")
    | false, VStr prefix =>
        (* the prefix ends with / *)
        let prefix :=
          if negb (String.eqb prefix "") && negb (endswith prefix "/")
          then prefix +:+ "/" else prefix in
        let ingest_folder_uri := "s3://" +:+ format repr bucket +:+ "/" +:+ prefix in
        let ruleset_version :=
          por (por (get_in event "policy.ruleset_version") (get event "ruleset_version"))
              (VStr (RULESET_VERSION_DEFAULT e)) in
        let inventory :=
          por (por (get_in event "validate_result.inventory") (get event "inventory"))
              (VList []) in
        let stats :=
          por (por (get_in event "validate_result.stats") (get event "stats"))
              (VMap ∅) in
        match inventory with
        | VList _ =>
            let created_at := utc_now_iso e in
            let validated_at :=
              por (por (get_in event "validate_result.validated_at")
                       (get event "validated_at"))
                  (VStr created_at) in
            let out_bucket :=
              match MANIFEST_BUCKET e with
              | None | Some EmptyString => bucket
              | Some b => VStr b
              end in
            let manifest_key :=
              format repr project_code +:+ "/_manifests/" +:+ format repr job_id
              +:+ ".json" in
            Ok {| manifest :=
                    manifest_of job_id project_code ruleset_version
                      ingest_folder_uri bucket prefix created_at validated_at
                      inventory stats;
                  out_bucket := out_bucket;
                  manifest_key := manifest_key;
                  manifest_s3_uri :=
                    "s3://" +:+ format repr out_bucket +:+ "/" +:+ manifest_key;
                  plan_job_id := job_id;
                  created_at := created_at |}
        | _ => Raise (ValueError "inventory must be a list")
        end
    | false, _ => Raise AttributeError
    end.

(** [s3.put_object(Bucket=..., Key=..., Body=..., ContentType=...)]; a
    bucket that is not a string fails in the check of the bucket name,
    before any request, with a [TypeError].  The call on a string either
    returns, the object stored, or raises the [ClientError] of the
    environment; a name that the client itself refuses is not among the
    buckets of the model. *)
Definition put_object (fault : option service_fault) (bucket : value)
    (k : string) (o : stored_object)
    (store : gmap (string * string) stored_object)
    : result (gmap (string * string) stored_object) :=
  match bucket with
  | VStr b =>
      match fault with
      | Some f => raise_fault f
      | None => Ok (<[(b, k) := o]> store)
      end
  | _ => Raise TypeError
  end.

(** The two failures the handler raises itself:
<<
    raise RuntimeError(f"Failed to write manifest to {manifest_s3_uri}: {e}") from e
    raise RuntimeError(f"Manifest written but DynamoDB update failed: {e}") from e
>> *)
Definition write_failed (p : plan) (code message : string) : exn :=
  RuntimeError ("Failed to write manifest to " +:+ manifest_s3_uri p +:+ ": "
                +:+ client_error_text "PutObject" code message).

Definition pointer_failed (code message : string) : exn :=
  RuntimeError ("Manifest written but DynamoDB update failed: "
                +:+ client_error_text "UpdateItem" code message).

(** The update that records the pointer:
<<
    SET manifest_s3_uri = :u, manifest_bucket = :b, manifest_key = :k, updated_at = :t
>> *)
Definition pointer_update (p : plan) : list (string * operand) :=
  [ ("manifest_s3_uri", OVal (VStr (manifest_s3_uri p)))
  ; ("manifest_bucket", OVal (out_bucket p))
  ; ("manifest_key", OVal (VStr (manifest_key p)))
  ; ("updated_at", OVal (VStr (created_at p))) ].

(** The object written. *)
Definition manifest_object (p : plan) : stored_object :=
  {| Body := manifest p; ContentType := "application/json" |}.

(** The handler: the write, then the pointer.
<<
    try:
        s3.put_object(Bucket=out_bucket, Key=manifest_key, Body=..., ContentType=...)
    except ClientError as e:
        raise RuntimeError(...) from e
    try:
        table.update_item(Key={"job_id": job_id}, UpdateExpression=..., ...)
    except ClientError as e:
        raise RuntimeError(...) from e
    return {"manifest_s3_uri": ..., "manifest_bucket": ..., "manifest_key": ...,
            "manifest_version": "v1.0"}
>> *)
Definition handler (e : env) (event : gmap string value) (w : world)
    : result (gmap string value) * world :=
  match prepare e event with
  | Raise x => (Raise x, w)
  | Ok p =>
      match put_object (put_object_fault e) (out_bucket p) (manifest_key p)
              (manifest_object p) (objects w) with
      | Raise (ClientError code msg) => (Raise (write_failed p code msg), w)
      | Raise x => (Raise x, w)
      | Ok objects' =>
          let w' := {| objects := objects'; jobs := jobs w |} in
          match update_item (update_item_fault e) (plan_job_id p)
                  (pointer_update p) (jobs w) with
          | Raise (ClientError code msg) => (Raise (pointer_failed code msg), w')
          | Raise x => (Raise x, w')
          | Ok jobs' =>
              (Ok (dict [ ("manifest_s3_uri", VStr (manifest_s3_uri p))
                        ; ("manifest_bucket", out_bucket p)
                        ; ("manifest_key", VStr (manifest_key p))
                        ; ("manifest_version", VStr "v1.0") ]),
               {| objects := objects'; jobs := jobs' |})
          end
      end
  end.

End Handler.
End Manifest.

(** ** Statements of the specification

    Definitions that the properties of Part II are stated with. *)

(** The sixteen hexadecimal digits. *)
Definition hex_alphabet : list ascii := list_ascii_of_string "0123456789abcdef".

(** The sentence of the specification on distinct pairs, as C1 states it. *)
Definition distinct_ids_unless_collision (p1 f1 p2 f2 : string) : Prop :=
  (p1, f1) ≠ (p2, f2) ->
  Intake.generate_job_id p1 f1 ≠ Intake.generate_job_id p2 f2
  \/ SHA256.collision (Py.encode_utf8 (p1 +:+ ":" +:+ f1))
                      (Py.encode_utf8 (p2 +:+ ":" +:+ f2)).


(** The folder and the job id the intake derives from a marker key. *)
Definition folder_path_of (object_key : string) : string :=
  Py.rsplit_first "/" object_key +:+ "/".

Definition job_id_of (object_key : string) : string :=
  Intake.generate_job_id (Py.split_first "/" (folder_path_of object_key))
                         (folder_path_of object_key).

(** *** Inputs that the statements are tried on *)

(** The marker of the scenario of the specification. *)
Definition marker_key_2024 : string := "proj1/2024/_INGEST_DONE".

(** The notification of one created object. *)
Definition notification (bucket key : string) : Py.value :=
  Py.VMap (Py.dict
    [ ("Records", Py.VList
        [ Py.VMap (Py.dict
            [ ("s3", Py.VMap (Py.dict
                [ ("bucket", Py.VMap (Py.dict [ ("name", Py.VStr bucket) ]))
                ; ("object", Py.VMap (Py.dict [ ("key", Py.VStr key) ])) ])) ]) ]) ]).

Definition intake_env : Intake.env :=
  {| Intake.STATE_MACHINE_ARN := Some "arn:aws:states:eu-west-1:1:stateMachine:ingest";
     Intake.now_iso := fun n => match n with
                                | O => "2024-05-01T10:00:00Z"
                                | _ => "2024-05-01T10:07:30Z"
                                end;
     Intake.put_item_fault := None;
     Intake.update_item_fault := None;
     Intake.start_execution_outcome := Intake.Started (Py.VStr "arn:execution") |}.

(** A job that has gone on to VALIDATING since its creation. *)
Definition known_job : gmap string Py.value :=
  Py.dict
    [ ("job_id", Py.VStr (job_id_of marker_key_2024))
    ; ("project_code", Py.VStr "proj1")
    ; ("state", Py.VStr "VALIDATING")
    ; ("last_seen_at", Py.VStr "2024-05-01T09:00:00Z")
    ; ("last_seen_object_key", Py.VStr marker_key_2024)
    ; ("state_history", Py.VList
        [ Py.VMap (Py.dict [ ("at", Py.VStr "2024-05-01T09:00:05Z")
                           ; ("to", Py.VStr "VALIDATING") ]) ]) ].

Definition world_with_known_job : Intake.world :=
  {| Intake.jobs := {[ job_id_of marker_key_2024 := known_job ]};
     Intake.executions := [] |}.

(** A percent-decoding that leaves keys without escapes as they are. *)
Definition unquote_plain (s : string) : string := s.

(** A text for lists and dicts. *)
Definition repr_plain (v : Py.value) : string := "[...]".

(** A call that returned. *)
Definition succeeded {A} (r : Py.result A) : Prop := exists a, r = Py.Ok a.

(** The attribute [updated_at] of a job. *)
Definition updated_at_of (jobs : gmap string (gmap string Py.value))
    (job_id : string) : option Py.value :=
  match jobs !! job_id with
  | Some r => r !! "updated_at"
  | None => None
  end.

(** One transition is all or nothing: either the call raises and the
    table is as before, or the record of the job has the new state, the
    new time and one more entry at the end of its history. *)
Definition transition_atomic (e : UpdateState.env) (event : gmap string Py.value)
    (jobs : gmap string (gmap string Py.value)) : Prop :=
  let r := (UpdateState.handler e event jobs).1 in
  let jobs' := (UpdateState.handler e event jobs).2 in
  (exists x, r = Py.Raise x /\ jobs' = jobs)
  \/ (exists jid,
        succeeded r
        /\ UpdateState.job_id_of event = Py.VStr jid
        /\ UpdateState.state_of jobs' jid = Some (UpdateState.new_state_of event)
        /\ updated_at_of jobs' jid = Some (Py.VStr (UpdateState.now_iso e))
        /\ UpdateState.state_history jobs' jid
           = UpdateState.state_history jobs jid
             ++ [Py.VMap (UpdateState.history_entry e event)]
        /\ forall k, k ≠ jid -> jobs' !! k = jobs !! k).

(** A transition request in the flat shape, without context fields. *)
Definition flat_event : gmap string Py.value :=
  Py.dict [ ("job_id", Py.VStr "job-1"); ("new_state", Py.VStr "VALIDATING") ].

(** A transition request in the nested shape, with every context field. *)
Definition nested_event : gmap string Py.value :=
  Py.dict
    [ ("policy", Py.VMap (Py.dict
        [ ("job_id", Py.VStr "job-1")
        ; ("state", Py.VMap (Py.dict [ ("next", Py.VStr "VALIDATED") ]))
        ; ("ruleset_version", Py.VStr "v1.0")
        ; ("project_code", Py.VStr "proj1") ]))
    ; ("impl", Py.VMap (Py.dict
        [ ("event", Py.VMap (Py.dict [ ("trigger", Py.VStr "_INGEST_DONE") ]))
        ; ("orchestration", Py.VMap (Py.dict
            [ ("execution_id", Py.VStr "exec-1")
            ; ("entered_time", Py.VStr "2024-05-01T10:00:01Z") ])) ])) ].

Definition update_env (ts : string) : UpdateState.env :=
  {| UpdateState.now_iso := ts; UpdateState.update_item_fault := None |}.

Definition two_calls : list (UpdateState.env * gmap string Py.value) :=
  [ (update_env "2024-05-01T10:00:02Z", flat_event)
  ; (update_env "2024-05-01T10:00:09Z", nested_event) ].

(** The context fields of a history entry. *)
Definition context_fields : list string :=
  [ "ruleset_version"; "project_code"; "trigger"; "execution_id"; "entered_time" ].

(** *** The validator *)

(** The payload set of [validate_objects]: the listing without the marker. *)
Definition payload_of (objects : list Validate.s3_object) (marker_key : Py.value)
    : list Validate.s3_object :=
  List.filter (fun o => negb (Validate.key_is (Validate.Key o) marker_key)) objects.

(** The objects the inventory is built from: those with a key that is not
    the marker's. *)
Definition inventoried (marker_key : Py.value) (o : Validate.s3_object) : bool :=
  negb (Validate.missing (Validate.Key o) || Validate.key_is (Validate.Key o) marker_key).

(** The order of the inventory: by key. *)
Definition key_le (x y : Validate.inventory_item) : Prop :=
  String.leb (Validate.key x) (Validate.key y) = true.

(** A payload object, as the specification has it: an object listed that
    has a key, other than the key of the marker. *)
Definition is_payload (marker_key : Py.value) (o : Validate.s3_object) : bool :=
  match Validate.Key o with
  | Some k =>
      negb (k =? "")%string
      && negb (match marker_key with
               | Py.VStr m => (k =? m)%string
               | _ => false
               end)
  | None => false
  end.

(** The key of a payload object. *)
Definition key_of (o : Validate.s3_object) : string :=
  match Validate.Key o with Some k => k | None => "" end.

(** The item of the inventory that describes an object: its key, its
    size, 0 for an object without one, its ETag, and the text of the time
    of its last change. *)
Definition describes (o : Validate.s3_object) (it : Validate.inventory_item) : Prop :=
  Validate.Key o = Some (Validate.key it)
  /\ Validate.size it = match Validate.Size o with Some n => n | None => 0%Z end
  /\ Validate.etag it = Validate.ETag o
  /\ Validate.last_modified it
     = match Validate.LastModified o with
       | Some d => Some (Validate.isoformat d)
       | None => None
       end.

(** The structural defects of one object, as the specification lists them. *)
Definition key_defect (o : Validate.s3_object) : nat :=
  if Validate.missing (Validate.Key o) then 1 else 0.

Definition size_defect (allow_zero_byte : bool) (o : Validate.s3_object) : nat :=
  match Validate.Size o with
  | None => 1
  | Some n => if negb allow_zero_byte && (n =? 0)%Z then 1 else 0
  end.

Definition etag_defect (o : Validate.s3_object) : nat :=
  if Validate.missing (Validate.ETag o) then 1 else 0.

(** Every defect counted. *)
Definition defects_claimed (allow_zero_byte : bool) (o : Validate.s3_object) : nat :=
  key_defect o + size_defect allow_zero_byte o + etag_defect o.

(** An object without a key counted once, its other fields left aside. *)
Definition defects_reported (allow_zero_byte : bool) (o : Validate.s3_object) : nat :=
  if Validate.missing (Validate.Key o) then 1
  else size_defect allow_zero_byte o + etag_defect o.

Definition total (count : Validate.s3_object -> nat) (l : list Validate.s3_object)
    : nat :=
  list_sum (map count l).

(** C6 as it is stated: as many errors as defects. *)
Definition errors_match_defects (allow_zero_byte : bool)
    (objects : list Validate.s3_object) (marker_key : Py.value) : Prop :=
  payload_of objects marker_key ≠ [] ->
  length (Validate.validate_objects allow_zero_byte objects marker_key).2
  = total (defects_claimed allow_zero_byte) (payload_of objects marker_key).

(** The prefix the validator lists for a folder path. *)
Definition prefix_of (folder_path : string) : string :=
  if Py.endswith folder_path "/" then folder_path else folder_path +:+ "/".

(** The objects the validator lists for an event. *)
Definition listed (e : Validate.env) (bucket folder_path : string)
    : list Validate.s3_object :=
  Validate.list_all_objects (Validate.listing e bucket (prefix_of folder_path))
                            (Validate.MAX_KEYS (Validate.cfg e)).

(** C4 as it is stated: a folder with the marker alone is reported with
    the reason EMPTY_FOLDER. *)
Definition reason_is_empty_folder (e : Validate.env) (event : gmap string Py.value)
    : Prop :=
  forall bucket folder_path,
    Py.get event "bucket" = Py.VStr bucket ->
    Py.get event "folder_path" = Py.VStr folder_path ->
    listed e bucket folder_path ≠ [] ->
    payload_of (listed e bucket folder_path) (Py.get event "object_key") = [] ->
    exists r, Validate.handler e event = Py.Ok r
              /\ Validate.ok r = false /\ Validate.reason r = "EMPTY_FOLDER".

(** C9 as it is stated: never more objects than the cap. *)
Definition at_most_cap (pages : list (list Validate.s3_object)) (max_keys : Z) : Prop :=
  (Z.of_nat (length (Validate.list_all_objects pages max_keys)) <= max_keys)%Z.

Definition object_of (k : string) (n : Z) : Validate.s3_object :=
  {| Validate.Key := Some k; Validate.Size := Some n;
     Validate.ETag := Some "9b2cf535f27731c974343645a3985328";
     Validate.LastModified := Some {| Validate.isoformat := "2024-05-01T09:58:00+00:00" |} |}.

(** An object without any of the fields. *)
Definition bare_object : Validate.s3_object :=
  {| Validate.Key := None; Validate.Size := None; Validate.ETag := None;
     Validate.LastModified := None |}.

(** The folder of the scenario: three payload objects and the marker, the
    listing not in the order of the keys. *)
Definition folder_2024 : list Validate.s3_object :=
  [ object_of "proj1/2024/c.csv" 30
  ; object_of marker_key_2024 0
  ; object_of "proj1/2024/a.csv" 10
  ; object_of "proj1/2024/b.csv" 20 ].

(** The same folder listed in the opposite order, in two pages. *)
Definition relisted_2024 : list (list Validate.s3_object) :=
  [ [ object_of "proj1/2024/b.csv" 20; object_of "proj1/2024/a.csv" 10 ]
  ; [ object_of marker_key_2024 0; object_of "proj1/2024/c.csv" 30 ] ].

Definition validate_env (pages : list (list Validate.s3_object)) : Validate.env :=
  {| Validate.cfg := {| Validate.MAX_KEYS := 5000; Validate.ALLOW_ZERO_BYTE := false |};
     Validate.now_iso := "2024-05-01T10:00:03Z";
     Validate.listing := fun _ _ => pages |}.

Definition validate_event : gmap string Py.value :=
  Py.dict [ ("bucket", Py.VStr "bkt")
          ; ("folder_path", Py.VStr "proj1/2024/")
          ; ("object_key", Py.VStr marker_key_2024) ].

(** What the validator returns for the folder of the scenario. *)
Definition result_2024 : Validate.outcome :=
  {| Validate.ok := true;
     Validate.validated_at := "2024-05-01T10:00:03Z";
     Validate.reason := "OK";
     Validate.errors := [];
     Validate.result_stats :=
       Some {| Validate.object_count_including_marker := 4;
               Validate.payload_file_count := 3;
               Validate.max_keys_cap := 5000 |};
     Validate.inventory :=
       Some (map Validate.inventory_item_of
               [ object_of "proj1/2024/a.csv" 10
               ; object_of "proj1/2024/b.csv" 20
               ; object_of "proj1/2024/c.csv" 30 ]) |}.

(** *** The manifest writer *)

(** The state a manifest declares. *)
Definition validated_state : Py.value :=
  Py.VMap (Py.dict [ ("name", Py.VStr "VALIDATED")
                   ; ("reason", Py.VStr "validation_succeeded") ]).

(** The pointer to a manifest is on the record of a job. *)
Definition has_pointer (r : gmap string Py.value) : Prop :=
  is_Some (r !! "manifest_s3_uri") \/ is_Some (r !! "manifest_bucket")
  \/ is_Some (r !! "manifest_key").

Definition manifest_env (put_fault update_fault : option Dynamo.service_fault)
    : Manifest.env :=
  {| Manifest.MANIFEST_BUCKET := None;
     Manifest.RULESET_VERSION_DEFAULT := "v1.0";
     Manifest.utc_now_iso := "2024-05-01T10:00:12Z";
     Manifest.put_object_fault := put_fault;
     Manifest.update_item_fault := update_fault |}.

Definition throttled : Dynamo.service_fault :=
  {| Dynamo.fcode := Dynamo.ProvisionedThroughputExceededException;
     Dynamo.fmessage := "Rate exceeded" |}.

(** The input of the writer after a validation that failed: the verdict
    is there, the inventory is not. *)
Definition event_after_failed_validation : gmap string Py.value :=
  Py.dict
    [ ("job_id", Py.VStr "job-1")
    ; ("project_code", Py.VStr "proj1")
    ; ("bucket", Py.VStr "bkt")
    ; ("folder_path", Py.VStr "proj1/2024")
    ; ("validate_result", Py.VMap (Py.dict
        [ ("ok", Py.VBool false)
        ; ("reason", Py.VStr "FAILED_VALIDATION")
        ; ("errors", Py.VList
            [ Py.VStr "EMPTY_FOLDER: no payload objects found (excluding _INGEST_DONE)" ]) ])) ].

Definition world_with_job_1 : Manifest.world :=
  {| Manifest.objects := ∅;
     Manifest.jobs := {[ "job-1" := Py.dict [ ("job_id", Py.VStr "job-1")
                                            ; ("state", Py.VStr "VALIDATING") ] ]} |}.

(** The input of the writer for a job whose id is a number of 39 digits. *)
Definition event_with_numeric_job_id : gmap string Py.value :=
  Py.dict
    [ ("job_id", Py.VInt 123456789012345678901234567890123456789)
    ; ("project_code", Py.VStr "proj1")
    ; ("bucket", Py.VStr "bkt")
    ; ("folder_path", Py.VStr "proj1/2024") ].

(** C7 as it is stated, for the pointer: the manifest written, whatever
    makes the update of the pointer fail, the failure surfaced tells that
    the manifest is written and the update failed. *)
Definition pointer_failure_told (repr : Py.value -> string) (e : Manifest.env)
    (event : gmap string Py.value) (w : Manifest.world) : Prop :=
  forall p b x,
    Manifest.prepare repr e event = Py.Ok p ->
    Manifest.out_bucket p = Py.VStr b ->
    Manifest.put_object_fault e = None ->
    Dynamo.update_item (Manifest.update_item_fault e) (Manifest.plan_job_id p)
      (Manifest.pointer_update p) (Manifest.jobs w) = Py.Raise x ->
    exists detail,
      (Manifest.handler repr e event w).1
      = Py.Raise (Py.RuntimeError
          ("Manifest written but DynamoDB update failed: " +:+ detail)).

(** ** Tactics *)

(** Computes the paths that [get_in] splits. *)
Ltac walk_paths :=
  unfold Py.get_in;
  repeat match goal with
         | |- context [Py.split ?c ?s] =>
             let path := eval vm_compute in (Py.split c s) in
             change (Py.split c s) with path
         end.

(** ** Statements on the rest of the handlers *)

(** *** The intake *)

(** The checks an invocation passes before it touches the job table: the
    state machine is configured, the notification decodes to a bucket and
    a key, the key ends with the marker and lies in a folder. *)
Definition intake_accepts (unquote_plus : string -> string) (e : Intake.env)
    (event : Py.value) (bucket : Py.value) (object_key : string) : Prop :=
  (exists arn, Intake.STATE_MACHINE_ARN e = Some arn /\ arn ≠ "")
  /\ Intake.extract unquote_plus event = Py.Ok (bucket, object_key)
  /\ Py.endswith object_key "_INGEST_DONE" = true
  /\ Py.contains "/" object_key = true.

(** The record the intake writes for a marker. *)
Definition job_item_for (repr : Py.value -> string) (e : Intake.env)
    (bucket : Py.value) (object_key : string) : gmap string Py.value :=
  Intake.job_item_of repr bucket object_key (folder_path_of object_key)
    (Py.split_first "/" (folder_path_of object_key)) (job_id_of object_key)
    (Intake.now_iso e 0).

(** One notification delivered again and again, each delivery in its own
    environment: the results, in order, and the world after the last. *)
Fixpoint deliver (unquote_plus : string -> string) (repr : Py.value -> string)
    (es : list Intake.env) (event : Py.value) (w : Intake.world)
    : list (Py.result (gmap string Py.value)) * Intake.world :=
  match es with
  | [] => ([], w)
  | e :: es' =>
      let out := Intake.handler unquote_plus repr e event w in
      let rest := deliver unquote_plus repr es' event out.2 in
      (out.1 :: rest.1, rest.2)
  end.

(** A delivery answered as a duplicate. *)
Definition is_duplicate (job_id : string) (r : Py.result (gmap string Py.value))
    : Prop :=
  exists d, r = Py.Ok d
    /\ d !! "status" = Some (Py.VStr "duplicate_ingest_done_ignored")
    /\ d !! "job_id" = Some (Py.VStr job_id).

(** An environment in which the job table answers every call. *)
Definition table_answers (e : Intake.env) : Prop :=
  Intake.put_item_fault e = None /\ Intake.update_item_fault e = None.

Definition intake_env_with (outcome : Intake.start_outcome) : Intake.env :=
  {| Intake.STATE_MACHINE_ARN := Some "arn:aws:states:eu-west-1:1:stateMachine:ingest";
     Intake.now_iso := fun n => match n with
                                | O => "2024-05-01T10:00:00Z"
                                | _ => "2024-05-01T10:00:01Z"
                                end;
     Intake.put_item_fault := None;
     Intake.update_item_fault := None;
     Intake.start_execution_outcome := outcome |}.

Definition fresh_world : Intake.world :=
  {| Intake.jobs := ∅; Intake.executions := [] |}.

(** ** The first intake: ingest_on_done_create_job.py

    The handler the intake gateway grew from (REF_ingest-on-done-create-job.py
    is the same code with comments): it creates the job record and stops
    there, without decoding the key, without the check for a folder and
    without an orchestrator. *)

Module CreateJob.
Import Py Dynamo.

(** [generate_job_id], the same as the gateway's. *)
Definition generate_job_id (project_code folder_path : string) : string :=
  let raw := project_code +:+ ":" +:+ folder_path in
  SHA256.hexdigest (encode_utf8 raw).

(** The environment: [datetime.utcnow().isoformat()] and what the table
    answers. *)
Record env := {
  utcnow_isoformat : string;
  put_item_fault : option service_fault;
}.

(** Step 1:
<<
    record = event["Records"][0]
    bucket = record["s3"]["bucket"]["name"]
    object_key = record["s3"]["object"]["key"]
>> *)
Definition extract (event : value) : result (value * value) :=
  match getitem event "Records" with Raise e => Raise e | Ok records =>
  match getitem0 records with Raise e => Raise e | Ok record =>
  match getitem record "s3" with Raise e => Raise e | Ok s3 =>
  match getitem s3 "bucket" with Raise e => Raise e | Ok b =>
  match getitem b "name" with Raise e => Raise e | Ok bucket =>
  match getitem record "s3" with Raise e => Raise e | Ok s3' =>
  match getitem s3' "object" with Raise e => Raise e | Ok o =>
  match getitem o "key" with Raise e => Raise e | Ok object_key =>
  Ok (bucket, object_key)
  end end end end end end end end.

(** [s.split(sep)[0]] *)
Definition split_head (sep : ascii) (s : string) : string :=
  match split sep s with
  | p :: _ => p
  | [] => EmptyString
  end.

Section Handler.
Variable repr : value -> string.

Definition job_item_of (bucket : value) (folder_path project_code job_id
    created_at : string) : item :=
  dict [ ("job_id", VStr job_id)
       ; ("project_code", VStr project_code)
       ; ("ingest_folder", VStr ("s3://" +:+ format repr bucket +:+ "/" +:+ folder_path))
       ; ("state", VStr "CREATED")
       ; ("trigger", VStr "_INGEST_DONE")
       ; ("created_at", VStr created_at) ].

Definition handler (e : env) (event : value) (jobs : table)
    : result (gmap string value) * table :=
  (* 1. the location *)
  match extract event with
  | Raise x => (Raise x, jobs)
  | Ok (bucket, VStr object_key) =>
      (* 2. only the marker *)
      if negb (endswith object_key "_INGEST_DONE") then
        (Ok (dict [ ("status", VStr "ignored") ]), jobs)
      else
        (* 3. the folder *)
        let folder_path := rsplit_first "/" object_key +:+ "/" in
        let project_code := split_head "/" folder_path in
        (* 4. the job id *)
        let job_id := generate_job_id project_code folder_path in
        (* 5. the record *)
        let job_item :=
          job_item_of bucket folder_path project_code job_id
            (utcnow_isoformat e +:+ "Z") in
        (* 6. the conditional write *)
        match put_item_if_absent (put_item_fault e) job_item jobs with
        | Ok jobs' =>
            (Ok (dict [ ("status", VStr "job_created"); ("job_id", VStr job_id) ]),
             jobs')
        | Raise (ClientError code msg) =>
            if String.eqb code "ConditionalCheckFailedException"
            then (Ok (dict [ ("status", VStr "job_already_exists")
                           ; ("job_id", VStr job_id) ]), jobs)
            else (Raise (ClientError code msg), jobs)
        | Raise x => (Raise x, jobs)
        end
  | Ok (_, _) => (Raise AttributeError, jobs)
  end.

End Handler.
End CreateJob.


Definition create_job_env : CreateJob.env :=
  {| CreateJob.utcnow_isoformat := "2024-05-01T10:00:00.000001";
     CreateJob.put_item_fault := None |}.

(** *** The recorder *)

(** A path written with dots, as [get_in] takes it. *)
Fixpoint dotted (path : list string) : string :=
  match path with
  | [] => ""
  | [p] => p
  | p :: rest => p +:+ "." +:+ dotted rest
  end.

(** The attributes a transition writes. *)
Definition transition_fields : list string :=
  [ "state"; "updated_at"; "state_history" ].

(** The time of a history entry. *)
Definition entry_at (entry : Py.value) : Py.value := Py.get_nested entry ["at"].

(** *** The validator *)

(** An object that passes every check of [validate_objects]. *)
Definition well_formed (allow_zero_byte : bool) (o : Validate.s3_object) : bool :=
  negb (Validate.missing (Validate.Key o))
  && match Validate.Size o with
     | Some n => allow_zero_byte || negb (n =? 0)%Z
     | None => false
     end
  && negb (Validate.missing (Validate.ETag o)).

(** The reasons a result of the validator can carry. *)
Definition known_reasons : list string :=
  [ "INVALID_INPUT"; "FOLDER_NOT_FOUND_OR_EMPTY"; "OK"; "FAILED_VALIDATION" ].

(** A required field of the input of the validator is missing or empty. *)
Definition field_missing (event : gmap string Py.value) : Prop :=
  Py.truthy (Py.get event "bucket") = false
  \/ Py.truthy (Py.get event "folder_path") = false
  \/ Py.truthy (Py.get event "object_key") = false.

(** The items of one key. *)
Definition has_key (k : string) (x : Validate.inventory_item) : bool :=
  String.eqb (Validate.key x) k.

(** *** The manifest writer *)

(** The fields of the input as the writer resolves them. *)
Definition source_bucket (event : gmap string Py.value) : Py.value :=
  Py.por (Py.get_in event "impl.s3.bucket") (Py.get event "bucket").

Definition source_prefix (event : gmap string Py.value) : Py.value :=
  Py.por (Py.por (Py.get_in event "impl.s3.prefix") (Py.get event "folder_path"))
         (Py.get_in event "impl.s3.folder_path").

(** The prefix with its final separator. *)
Definition normalized (prefix : string) : string :=
  if negb (String.eqb prefix "") && negb (Py.endswith prefix "/")
  then prefix +:+ "/" else prefix.

(** The bucket the manifest goes to. *)
Definition destination (e : Manifest.env) (event : gmap string Py.value) : Py.value :=
  match Manifest.MANIFEST_BUCKET e with
  | None | Some EmptyString => source_bucket event
  | Some b => Py.VStr b
  end.

(** The attributes the writer sets on the record. *)
Definition pointer_fields : list string :=
  [ "manifest_s3_uri"; "manifest_bucket"; "manifest_key"; "updated_at" ].

(** The failures of the checks of the input. *)
Definition input_failures : list Py.exn :=
  [ Py.ValueError "Missing required fields: job_id and project_code"
  ; Py.ValueError "Missing required S3 location: impl.s3.bucket and impl.s3.prefix (or folder_path)"
  ; Py.ValueError "inventory must be a list"
  ; Py.AttributeError ].

(** The input of the writer after a validation that passed. *)
Definition event_after_validation : gmap string Py.value :=
  Py.dict
    [ ("job_id", Py.VStr "job-1")
    ; ("project_code", Py.VStr "proj1")
    ; ("bucket", Py.VStr "bkt")
    ; ("folder_path", Py.VStr "proj1/2024")
    ; ("validate_result", Py.VMap (Py.dict
        [ ("ok", Py.VBool true)
        ; ("reason", Py.VStr "OK")
        ; ("validated_at", Py.VStr "2024-05-01T10:00:03Z")
        ; ("inventory", Py.VList
            [ Py.VMap (Py.dict [ ("key", Py.VStr "proj1/2024/a.csv")
                               ; ("size", Py.VInt 10) ]) ]) ])) ].
(* ===================================================================== *)
(** * Part II.  Properties                                                *)
(* ===================================================================== *)

(** ** SHA-256: test vectors of FIPS 180-4 and the shape of the digest *)

Example sha256_empty :
  SHA256.hexdigest []
  = "e3b0c44298fc1c149afbf4c8996fb92427ae41e4649b934ca495991b7852b855".
Proof. vm_compute. reflexivity. Qed.

Example sha256_abc :
  SHA256.hexdigest (Py.encode_utf8 "abc")
  = "ba7816bf8f01cfea414140de5dae2223b00361a396177a9cb410ff61f20015ad".
Proof. vm_compute. reflexivity. Qed.

Example sha256_two_blocks :
  SHA256.hexdigest
    (Py.encode_utf8 "abcdbcdecdefdefgefghfghighijhijkijkljklmklmnlmnomnopnopq")
  = "248d6a61d20638b8e5c026930c3e6039a33ce45964ff2167f6ecedd419db06c1".
Proof. vm_compute. reflexivity. Qed.

Lemma hex_digit_in_alphabet (n : Z) : In (SHA256.hex_digit n) hex_alphabet.
Proof.
  unfold SHA256.hex_digit, hex_alphabet.
  apply nth_In.
  assert (0 <= n mod 16 < 16)%Z by (apply Z.mod_pos_bound; lia).
  change (length (list_ascii_of_string "0123456789abcdef")) with 16%nat.
  lia.
Qed.

Lemma hex_word_length (x : Z) (rest : string) :
  String.length (SHA256.hex_word x rest) = 8 + String.length rest.
Proof. reflexivity. Qed.

Lemma hex_word_alphabet (x : Z) (rest : string) :
  Forall (fun c => In c hex_alphabet) (list_ascii_of_string rest) ->
  Forall (fun c => In c hex_alphabet)
         (list_ascii_of_string (SHA256.hex_word x rest)).
Proof.
  intros H. unfold SHA256.hex_word. cbn [list_ascii_of_string].
  repeat (apply Forall_cons_2; [apply hex_digit_in_alphabet |]).
  exact H.
Qed.

Lemma hexdigest_length (msg : list Z) :
  String.length (SHA256.hexdigest msg) = 64.
Proof.
  unfold SHA256.hexdigest, SHA256.hex_state.
  rewrite !hex_word_length. reflexivity.
Qed.

Lemma hexdigest_alphabet (msg : list Z) :
  Forall (fun c => In c hex_alphabet)
         (list_ascii_of_string (SHA256.hexdigest msg)).
Proof.
  unfold SHA256.hexdigest, SHA256.hex_state.
  repeat apply hex_word_alphabet. constructor.
Qed.

(** ** Strings *)

Lemma encode_utf8_inj (s1 s2 : string) :
  Py.encode_utf8 s1 = Py.encode_utf8 s2 -> s1 = s2.
Proof.
  unfold Py.encode_utf8. revert s2.
  induction s1 as [|c1 s1 IH]; intros [|c2 s2] H; simpl in H;
    try discriminate; [reflexivity |].
  injection H as Hc Hs.
  apply N2Z.inj in Hc.
  f_equal; [| now apply IH].
  rewrite <- (ascii_N_embedding c1), <- (ascii_N_embedding c2).
  now rewrite Hc.
Qed.

(** A separator that the left parts do not contain splits in one way. *)
Lemma separated_inj (sep : ascii) (p1 p2 f1 f2 : string) :
  Py.contains sep p1 = false ->
  Py.contains sep p2 = false ->
  p1 +:+ String sep f1 = p2 +:+ String sep f2 ->
  p1 = p2 /\ f1 = f2.
Proof.
  revert p2.
  induction p1 as [|c1 p1 IH]; intros [|c2 p2] H1 H2 H; simpl in *.
  - injection H as ->. split; reflexivity.
  - injection H as Hc _. subst c2.
    rewrite Ascii.eqb_refl in H2. discriminate.
  - injection H as Hc _. subst c1.
    rewrite Ascii.eqb_refl in H1. discriminate.
  - injection H as -> H.
    apply orb_false_elim in H1 as [_ H1].
    apply orb_false_elim in H2 as [_ H2].
    destruct (IH p2 H1 H2 H) as [-> ->]. split; reflexivity.
Qed.

(** ** C1: the job id *)

Example job_id_proj1 :
  Intake.generate_job_id "proj1" "proj1/2024/"
  = "c5e85f2d13f35fbbbdad8330d11fd523a0038829aa569e556e6777e5de142fd0".
Proof. vm_compute. reflexivity. Qed.

(** C1, as stated, fails: the pairs ("a:b", "c") and ("a", "b:c") are
    distinct and are joined to the one string "a:b:c", so they have one job
    id and no collision of SHA-256 is involved. *)
Lemma C1_counterexample :
  ~ distinct_ids_unless_collision "a:b" "c" "a" "b:c".
Proof.
  unfold distinct_ids_unless_collision. intros H.
  destruct H as [H | [H _]].
  - discriminate.
  - apply H. reflexivity.
  - apply H. reflexivity.
Qed.

(** C1, amended: the job id is the SHA-256 hex digest of
    project_code + ":" + folder_path, a string of 64 hexadecimal digits;
    equal inputs give equal ids; and two distinct pairs whose project codes
    contain no ":" give distinct ids unless the two joined strings are a
    collision of SHA-256. *)
Theorem C1_job_id (p1 f1 p2 f2 : string) :
  Intake.generate_job_id p1 f1
    = SHA256.hexdigest (Py.encode_utf8 (p1 +:+ ":" +:+ f1))
  /\ String.length (Intake.generate_job_id p1 f1) = 64
  /\ Forall (fun c => In c hex_alphabet)
            (list_ascii_of_string (Intake.generate_job_id p1 f1))
  /\ (p1 = p2 -> f1 = f2 ->
      Intake.generate_job_id p1 f1 = Intake.generate_job_id p2 f2)
  /\ (Py.contains ":" p1 = false -> Py.contains ":" p2 = false ->
      distinct_ids_unless_collision p1 f1 p2 f2).
Proof.
  split; [reflexivity |].
  split; [apply hexdigest_length |].
  split; [apply hexdigest_alphabet |].
  split; [intros -> ->; reflexivity |].
  intros H1 H2 Hne.
  destruct (string_dec (Intake.generate_job_id p1 f1)
                       (Intake.generate_job_id p2 f2)) as [Heq | Hd];
    [right | left; exact Hd].
  split; [| exact Heq].
  intros Henc. apply encode_utf8_inj in Henc.
  apply Hne.
  destruct (separated_inj ":" p1 p2 f1 f2 H1 H2 Henc) as [-> ->].
  reflexivity.
Qed.

(** Two folders of one project. *)
Lemma C1_job_id_witness :
  Intake.generate_job_id "proj1" "proj1/2024/"
  ≠ Intake.generate_job_id "proj1" "proj1/2025/"
  \/ SHA256.collision (Py.encode_utf8 ("proj1" +:+ ":" +:+ "proj1/2024/"))
                      (Py.encode_utf8 ("proj1" +:+ ":" +:+ "proj1/2025/")).
Proof.
  apply (C1_job_id "proj1" "proj1/2024/" "proj1" "proj1/2025/").
  - reflexivity.
  - reflexivity.
  - discriminate.
Defined.

(** *** The pairs of the intake

    The intake takes the project code from the folder path, its first
    segment; the string it hashes then determines the folder. *)

Lemma split_first_app (sep : ascii) (a b : string) :
  Py.contains sep a = false ->
  Py.split_first sep (a +:+ b) = a +:+ Py.split_first sep b.
Proof.
  induction a as [|c a IH]; simpl; [reflexivity |].
  intros H. apply orb_false_elim in H as [Hc Ha].
  rewrite Hc. now rewrite IH.
Qed.

Lemma split_first_no_sep (sep : ascii) (s : string) :
  Py.contains sep (Py.split_first sep s) = false.
Proof.
  induction s as [|c s IH]; cbn [Py.split_first]; [reflexivity |].
  destruct (Ascii.eqb c sep) eqn:E; [reflexivity |].
  cbn [Py.contains]. now rewrite E, IH.
Qed.

Lemma length_append (a b : string) :
  String.length (a +:+ b) = String.length a + String.length b.
Proof. induction a as [|c a IH]; simpl; [reflexivity | now f_equal]. Qed.

Lemma append_inj_length (a1 a2 b1 b2 : string) :
  String.length a1 = String.length a2 ->
  a1 +:+ b1 = a2 +:+ b2 ->
  a1 = a2 /\ b1 = b2.
Proof.
  revert a2. induction a1 as [|c1 a1 IH]; intros [|c2 a2] Hlen H;
    cbn in Hlen; try discriminate.
  - split; [reflexivity | exact H].
  - cbn [append] in H. injection H as -> H. injection Hlen as Hlen.
    destruct (IH a2 Hlen H) as [-> ->]. split; reflexivity.
Qed.

Lemma intake_joined_inj (f1 f2 : string) :
  Py.split_first "/" f1 +:+ ":" +:+ f1 = Py.split_first "/" f2 +:+ ":" +:+ f2 ->
  f1 = f2.
Proof.
  intros H.
  assert (Hp : Py.split_first "/" f1 +:+ ":" +:+ Py.split_first "/" f1
               = Py.split_first "/" f2 +:+ ":" +:+ Py.split_first "/" f2).
  { apply (f_equal (Py.split_first "/")) in H.
    rewrite (split_first_app "/" (Py.split_first "/" f1)) in H
      by apply split_first_no_sep.
    rewrite (split_first_app "/" (Py.split_first "/" f2)) in H
      by apply split_first_no_sep.
    exact H. }
  assert (Hlen : String.length (Py.split_first "/" f1)
                 = String.length (Py.split_first "/" f2)).
  { apply (f_equal String.length) in Hp.
    rewrite !length_append in Hp. cbn [String.length] in Hp. lia. }
  destruct (append_inj_length _ _ _ _ Hlen H) as [_ Hf].
  now injection Hf.
Qed.

(** Two folders have two job ids, unless the strings hashed for them are
    a collision. *)
Lemma intake_ids_distinct (f1 f2 : string) :
  f1 ≠ f2 ->
  distinct_ids_unless_collision (Py.split_first "/" f1) f1
                                (Py.split_first "/" f2) f2.
Proof.
  intros Hne _.
  destruct (string_dec (Intake.generate_job_id (Py.split_first "/" f1) f1)
                       (Intake.generate_job_id (Py.split_first "/" f2) f2))
    as [Heq | Hd]; [right | left; exact Hd].
  split; [| exact Heq].
  intros Henc. apply encode_utf8_inj in Henc.
  apply Hne. now apply intake_joined_inj.
Qed.

(** ** The job table: requests that are sent *)

Lemma update_item_sent fault key sets t :
  Dynamo.request_serializable key sets = true ->
  Dynamo.update_item fault key sets t
  = Dynamo.update_item_request fault key sets t.
Proof. intros H. unfold Dynamo.update_item. now rewrite H. Qed.

Lemma put_item_sent fault (it : gmap string Py.value) t :
  Dynamo.serializable (Py.VMap it) = true ->
  Dynamo.put_item_if_absent fault it t = Dynamo.put_item_request fault it t.
Proof. intros H. unfold Dynamo.put_item_if_absent. now rewrite H. Qed.

(** ** C2: a duplicate marker *)

Lemma job_item_key repr bucket object_key folder_path project_code job_id ts :
  Intake.job_item_of repr bucket object_key folder_path project_code job_id ts
    !! "job_id" = Some (Py.VStr job_id).
Proof. reflexivity. Qed.

Lemma job_item_ingest_folder repr bucket object_key folder_path project_code job_id ts :
  Py.get (Intake.job_item_of repr bucket object_key folder_path project_code job_id ts)
         "ingest_folder"
  = Py.VStr ("s3://" +:+ Py.format repr bucket +:+ "/" +:+ folder_path).
Proof. reflexivity. Qed.

(** The handler on a marker whose job record exists. *)
Lemma handler_on_existing unquote_plus repr e event w bucket object_key arn rec :
  Intake.STATE_MACHINE_ARN e = Some arn -> arn ≠ "" ->
  Intake.extract unquote_plus event = Py.Ok (bucket, object_key) ->
  Py.endswith object_key "_INGEST_DONE" = true ->
  Py.contains "/" object_key = true ->
  Intake.put_item_fault e = None ->
  Intake.jobs w !! job_id_of object_key = Some rec ->
  Intake.handler unquote_plus repr e event w
  = match Intake.update_item_fault e with
    | Some f => (Dynamo.raise_fault f, w)
    | None =>
        (Py.Ok (Py.dict
           [ ("status", Py.VStr "duplicate_ingest_done_ignored")
           ; ("job_id", Py.VStr (job_id_of object_key))
           ; ("ingest_folder",
               Py.VStr ("s3://" +:+ Py.format repr bucket +:+ "/"
                        +:+ folder_path_of object_key)) ]),
         {| Intake.jobs :=
              <[job_id_of object_key :=
                  <["last_seen_object_key" := Py.VStr object_key]>
                    (<["last_seen_at" := Py.VStr (Intake.now_iso e 1)]> rec)]>
                (Intake.jobs w);
            Intake.executions := Intake.executions w |})
    end.
Proof.
  intros Harn Hne Hex Hend Hin Hput Hrec.
  unfold Intake.handler.
  rewrite Harn, Hex, Hend, Hin. cbn [negb].
  destruct arn as [|c arn']; [congruence |].
  fold (folder_path_of object_key). fold (job_id_of object_key).
  set (jid := job_id_of object_key) in *. clearbody jid.
  rewrite put_item_sent by reflexivity.
  unfold Dynamo.put_item_request. rewrite Hput, job_item_key, Hrec.
  cbn [String.eqb]. 
  change ("ConditionalCheckFailedException" =? "ConditionalCheckFailedException")%string
    with true. cbv iota.
  unfold Intake.on_duplicate.
  rewrite update_item_sent by reflexivity. unfold Dynamo.update_item_request.
  destruct (Intake.update_item_fault e) as [f|]; [reflexivity |].
  rewrite Hrec. cbn [Dynamo.apply_sets Dynamo.eval_operand].
  rewrite job_item_ingest_folder. reflexivity.
Qed.

(** C2: when the record of the derived job id exists, the handler starts
    no execution, leaves every other record and every field of the record
    other than last_seen_at and last_seen_object_key as they are, state and
    state_history among them, and, the update done, sets these two fields
    and returns the duplicate status with the job id. *)
Theorem C2_duplicate_marker unquote_plus repr e event w bucket object_key arn rec :
  Intake.STATE_MACHINE_ARN e = Some arn -> arn ≠ "" ->
  Intake.extract unquote_plus event = Py.Ok (bucket, object_key) ->
  Py.endswith object_key "_INGEST_DONE" = true ->
  Py.contains "/" object_key = true ->
  Intake.put_item_fault e = None ->
  Intake.jobs w !! job_id_of object_key = Some rec ->
  let r := (Intake.handler unquote_plus repr e event w).1 in
  let w' := (Intake.handler unquote_plus repr e event w).2 in
  Intake.executions w' = Intake.executions w
  /\ (forall k, k ≠ job_id_of object_key ->
        Intake.jobs w' !! k = Intake.jobs w !! k)
  /\ (exists rec',
        Intake.jobs w' !! job_id_of object_key = Some rec'
        /\ (forall a, a ≠ "last_seen_at" -> a ≠ "last_seen_object_key" ->
              rec' !! a = rec !! a)
        /\ rec' !! "state" = rec !! "state"
        /\ rec' !! "state_history" = rec !! "state_history")
  /\ (Intake.update_item_fault e = None ->
        (exists d, r = Py.Ok d
           /\ d !! "status" = Some (Py.VStr "duplicate_ingest_done_ignored")
           /\ d !! "job_id" = Some (Py.VStr (job_id_of object_key)))
        /\ (exists rec',
              Intake.jobs w' !! job_id_of object_key = Some rec'
              /\ rec' !! "last_seen_at" = Some (Py.VStr (Intake.now_iso e 1))
              /\ rec' !! "last_seen_object_key" = Some (Py.VStr object_key))).
Proof.
  intros Harn Hne Hex Hend Hin Hput Hrec r w'. subst r w'.
  rewrite (handler_on_existing _ _ _ _ _ _ _ _ _ Harn Hne Hex Hend Hin Hput Hrec).
  set (jid := job_id_of object_key) in *. clearbody jid.
  destruct (Intake.update_item_fault e) as [f|]; cbn [fst snd Intake.jobs Intake.executions].
  - split; [reflexivity |]. split; [reflexivity |].
    split; [exists rec; repeat split; auto | discriminate].
  - split; [reflexivity |].
    split; [intros k Hk; now rewrite lookup_insert_ne |].
    split.
    + eexists. split; [apply lookup_insert_eq |].
      split; [| split].
      * intros a Ha Hb. now rewrite !lookup_insert_ne.
      * now rewrite !lookup_insert_ne.
      * now rewrite !lookup_insert_ne.
    + intros _. split.
      * eexists. split; [reflexivity |]. split; reflexivity.
      * eexists. split; [apply lookup_insert_eq |].
        split; [| apply lookup_insert_eq].
        rewrite lookup_insert_ne by discriminate. apply lookup_insert_eq.
Qed.

(** The marker of the scenario delivered again for a job that has gone on. *)
Lemma C2_duplicate_marker_witness :
  Intake.executions
    (Intake.handler unquote_plain repr_plain intake_env
       (notification "bkt" marker_key_2024) world_with_known_job).2 = []
  /\ exists rec',
       Intake.jobs
         (Intake.handler unquote_plain repr_plain intake_env
            (notification "bkt" marker_key_2024) world_with_known_job).2
         !! job_id_of marker_key_2024 = Some rec'
       /\ rec' !! "state" = Some (Py.VStr "VALIDATING").
Proof.
  destruct (C2_duplicate_marker unquote_plain repr_plain intake_env
              (notification "bkt" marker_key_2024) world_with_known_job
              (Py.VStr "bkt") marker_key_2024
              "arn:aws:states:eu-west-1:1:stateMachine:ingest" known_job)
    as (Hexec & _ & (rec' & Hrec & _ & Hstate & _) & _).
  - reflexivity.
  - discriminate.
  - reflexivity.
  - reflexivity.
  - reflexivity.
  - reflexivity.
  - apply lookup_singleton_eq.
  - split; [exact Hexec |].
    exists rec'. split; [exact Hrec |].
    rewrite Hstate. reflexivity.
Defined.

Example duplicate_marker_result :
  (Intake.handler unquote_plain repr_plain intake_env
     (notification "bkt" marker_key_2024) world_with_known_job).1
  = Py.Ok (Py.dict
      [ ("status", Py.VStr "duplicate_ingest_done_ignored")
      ; ("job_id", Py.VStr "c5e85f2d13f35fbbbdad8330d11fd523a0038829aa569e556e6777e5de142fd0")
      ; ("ingest_folder", Py.VStr "s3://bkt/proj1/2024/") ]).
Proof. vm_compute. reflexivity. Qed.

(** ** C3: the history of a job *)

Lemma transition_atomic_holds e event jobs : transition_atomic e event jobs.
Proof.
  unfold transition_atomic, UpdateState.handler.
  fold (UpdateState.job_id_of event). fold (UpdateState.new_state_of event).
  destruct (negb (Py.truthy (UpdateState.job_id_of event))
            || negb (Py.truthy (UpdateState.new_state_of event))).
  { left. eexists. split; reflexivity. }
  unfold Dynamo.update_item.
  destruct (Dynamo.request_serializable _ _);
    [| left; eexists; split; reflexivity].
  unfold Dynamo.update_item_request.
  destruct (UpdateState.update_item_fault e) as [f|].
  { left. eexists. split; reflexivity. }
  destruct (UpdateState.job_id_of event) as [| | | jid | |];
    try (left; eexists; split; reflexivity).
  unfold UpdateState.update_expr.
  cbn [Dynamo.apply_sets Dynamo.eval_operand].
  set (old := match jobs !! jid with
              | Some r => r
              | None => {[ "job_id" := Py.VStr jid ]}
              end).
  assert (Hhist : match old !! "state_history" with
                  | Some (Py.VList l) => l
                  | _ => []
                  end = UpdateState.state_history jobs jid).
  { unfold UpdateState.state_history, old.
    destruct (jobs !! jid); reflexivity. }
  destruct (old !! "state_history") as [[| | | | l |]|] eqn:Hold;
    try (left; eexists; split; reflexivity).
  - right. exists jid. cbn [fst snd].
    split; [eexists; reflexivity |]. split; [reflexivity |].
    unfold UpdateState.state_of, updated_at_of.
    unfold UpdateState.state_history at 1.
    rewrite !lookup_insert_eq.
    split; [now rewrite !lookup_insert_ne by discriminate; rewrite lookup_insert_eq |].
    split; [now rewrite lookup_insert_ne by discriminate; rewrite lookup_insert_eq |].
    split; [now rewrite Hhist |].
    intros k Hk. now rewrite lookup_insert_ne.
  - right. exists jid. cbn [fst snd].
    split; [eexists; reflexivity |]. split; [reflexivity |].
    unfold UpdateState.state_of, updated_at_of.
    unfold UpdateState.state_history at 1.
    rewrite !lookup_insert_eq.
    split; [now rewrite !lookup_insert_ne by discriminate; rewrite lookup_insert_eq |].
    split; [now rewrite lookup_insert_ne by discriminate; rewrite lookup_insert_eq |].
    split; [now rewrite <- Hhist |].
    intros k Hk. now rewrite lookup_insert_ne.
Qed.

(** A call that returned has added its entry, and its target is the state. *)
Lemma transition_done e event jobs jid :
  succeeded (UpdateState.handler e event jobs).1 ->
  UpdateState.job_id_of event = Py.VStr jid ->
  UpdateState.state_of (UpdateState.handler e event jobs).2 jid
    = Some (UpdateState.new_state_of event)
  /\ UpdateState.state_history (UpdateState.handler e event jobs).2 jid
     = UpdateState.state_history jobs jid
       ++ [Py.VMap (UpdateState.history_entry e event)].
Proof.
  intros [d Hd] Hjid.
  destruct (transition_atomic_holds e event jobs)
    as [(x & Hx & _) | (jid' & _ & Hjid' & Hst & _ & Hh & _)].
  - rewrite Hd in Hx. discriminate.
  - rewrite Hjid in Hjid'. injection Hjid' as <-. split; assumption.
Qed.

Lemma run_cons e event rest jobs :
  UpdateState.run ((e, event) :: rest) jobs
  = ((UpdateState.handler e event jobs).1
       :: (UpdateState.run rest (UpdateState.handler e event jobs).2).1,
     (UpdateState.run rest (UpdateState.handler e event jobs).2).2).
Proof.
  cbn [UpdateState.run].
  destruct (UpdateState.handler e event jobs) as [r jobs1]. cbn [fst snd].
  destruct (UpdateState.run rest jobs1). reflexivity.
Qed.

Lemma run_history calls : forall jobs jid,
  Forall (fun c => UpdateState.job_id_of c.2 = Py.VStr jid) calls ->
  Forall succeeded (UpdateState.run calls jobs).1 ->
  UpdateState.state_history (UpdateState.run calls jobs).2 jid
  = UpdateState.state_history jobs jid
    ++ map (fun c => Py.VMap (UpdateState.history_entry c.1 c.2)) calls.
Proof.
  induction calls as [|[e event] rest IH]; intros jobs jid Hid Hok.
  - cbn. now rewrite app_nil_r.
  - rewrite run_cons in *. cbn [fst snd] in *.
    apply Forall_cons_1 in Hid as [Hid Hids].
    apply Forall_cons_1 in Hok as [Hok Hoks].
    destruct (transition_done e event jobs jid Hok Hid) as [_ Hh].
    rewrite (IH _ jid Hids Hoks), Hh. cbn [map fst snd].
    now rewrite <- app_assoc.
Qed.

Lemma run_state calls : forall jobs jid c,
  Forall (fun c => UpdateState.job_id_of c.2 = Py.VStr jid) calls ->
  Forall succeeded (UpdateState.run calls jobs).1 ->
  last calls = Some c ->
  UpdateState.state_of (UpdateState.run calls jobs).2 jid
  = Some (UpdateState.new_state_of c.2).
Proof.
  induction calls as [|[e event] rest IH]; intros jobs jid c Hid Hok Hlast.
  - discriminate.
  - rewrite run_cons in *. cbn [fst snd] in *.
    apply Forall_cons_1 in Hid as [Hid Hids].
    apply Forall_cons_1 in Hok as [Hok Hoks].
    destruct rest as [|c' rest'].
    + cbn in Hlast. injection Hlast as <-. cbn [UpdateState.run snd].
      apply (transition_done e event jobs jid Hok Hid).
    + apply (IH _ jid c Hids Hoks). exact Hlast.
Qed.

(** C3: every call is one atomic update (state, updated_at and one entry
    appended, or nothing); after M calls for one job, all of which returned,
    the history is the one before followed by the M entries in the order of
    the calls, so M entries for a job that had none, and the state is the
    target of the last call. *)
Theorem C3_history_append_only :
  (forall e event jobs, transition_atomic e event jobs)
  /\ (forall calls jobs jid,
        Forall (fun c => UpdateState.job_id_of c.2 = Py.VStr jid) calls ->
        Forall succeeded (UpdateState.run calls jobs).1 ->
        UpdateState.state_history (UpdateState.run calls jobs).2 jid
        = UpdateState.state_history jobs jid
          ++ map (fun c => Py.VMap (UpdateState.history_entry c.1 c.2)) calls
        /\ (UpdateState.state_history jobs jid = [] ->
            length (UpdateState.state_history (UpdateState.run calls jobs).2 jid)
            = length calls)
        /\ (forall c, last calls = Some c ->
            UpdateState.state_of (UpdateState.run calls jobs).2 jid
            = Some (UpdateState.new_state_of c.2))).
Proof.
  split; [exact transition_atomic_holds |].
  intros calls jobs jid Hid Hok.
  split; [now apply run_history |].
  split.
  - intros Hempty. rewrite (run_history calls jobs jid Hid Hok), Hempty.
    cbn [app]. now rewrite length_map.
  - intros c Hlast. now apply run_state.
Qed.

(** Two calls, one in each shape, for a job without record. *)
Lemma C3_history_append_only_witness :
  length (UpdateState.state_history (UpdateState.run two_calls ∅).2 "job-1") = 2
  /\ UpdateState.state_of (UpdateState.run two_calls ∅).2 "job-1"
     = Some (Py.VStr "VALIDATED").
Proof.
  destruct C3_history_append_only as [_ H].
  destruct (H two_calls ∅ "job-1") as (_ & Hlen & Hstate).
  - repeat constructor.
  - repeat constructor; eexists; reflexivity.
  - split.
    + apply Hlen. reflexivity.
    + apply (Hstate (update_env "2024-05-01T10:00:09Z", nested_event)).
      reflexivity.
Defined.

(** ** C5: the context fields of a history entry *)

(** The entry has every context field, whatever the request holds. *)
Lemma history_entry_has_context e event k :
  In k context_fields -> is_Some (UpdateState.history_entry e event !! k).
Proof.
  unfold context_fields. cbn [In].
  intros [<- | [<- | [<- | [<- | [<- | []]]]]]; eexists; reflexivity.
Qed.

(** C5 fails on the code: a request without context fields is stored with
    the five fields present and null, in the entry the table holds. *)
Theorem C5_null_placeholders :
  (forall e event k, In k context_fields ->
     is_Some (UpdateState.history_entry e event !! k))
  /\ exists entry,
       UpdateState.state_history
         (UpdateState.handler (update_env "2024-05-01T10:00:02Z") flat_event ∅).2
         "job-1" = [Py.VMap entry]
       /\ Forall (fun k => entry !! k = Some Py.VNull) context_fields.
Proof.
  split; [exact history_entry_has_context |].
  eexists. split; [reflexivity |].
  repeat constructor.
Qed.

(** Fields that the request holds are carried into the entry. *)
Example nested_event_entry :
  UpdateState.history_entry (update_env "2024-05-01T10:00:09Z") nested_event
  = Py.dict
      [ ("at", Py.VStr "2024-05-01T10:00:09Z")
      ; ("to", Py.VStr "VALIDATED")
      ; ("by", Py.VStr "stepfunctions")
      ; ("project_code", Py.VStr "proj1")
      ; ("trigger", Py.VStr "_INGEST_DONE")
      ; ("execution_id", Py.VStr "exec-1")
      ; ("entered_time", Py.VStr "2024-05-01T10:00:01Z")
      ; ("ruleset_version", Py.VStr "v1.0") ].
Proof. reflexivity. Qed.

(** ** C9: the listing and its cap *)

Lemma slice_to_nonneg {A} (items : list A) (k : Z) :
  (0 <= k)%Z -> Validate.slice_to items k = firstn (Z.to_nat k) items.
Proof.
  intros Hk. unfold Validate.slice_to.
  destruct (0 <=? k)%Z eqn:E; [reflexivity |].
  apply Z.leb_gt in E. lia.
Qed.

(** The loop returns the first [max_keys] objects of what it has and of
    what the remaining pages hold. *)
Lemma list_loop_firstn remaining : forall items contents max_keys,
  (0 <= max_keys)%Z ->
  Validate.list_loop items contents remaining max_keys
  = firstn (Z.to_nat max_keys) (items ++ contents ++ concat remaining).
Proof.
  induction remaining as [|next remaining IH]; intros items contents max_keys Hk;
    cbn [Validate.list_loop concat].
  - rewrite app_nil_r.
    destruct (max_keys <=? Z.of_nat (length (items ++ contents)))%Z eqn:E.
    + now apply slice_to_nonneg.
    + apply Z.leb_gt in E. symmetry. apply firstn_all2. lia.
  - destruct (max_keys <=? Z.of_nat (length (items ++ contents)))%Z eqn:E.
    + apply Z.leb_le in E. rewrite slice_to_nonneg by exact Hk.
      rewrite (app_assoc items contents).
      rewrite (firstn_app _ (items ++ contents)).
      replace (Z.to_nat max_keys - length (items ++ contents)) with 0 by lia.
      cbn [firstn]. now rewrite app_nil_r.
    + rewrite IH by exact Hk. now rewrite <- !app_assoc.
Qed.

Lemma list_all_objects_firstn pages max_keys :
  (0 <= max_keys)%Z ->
  Validate.list_all_objects pages max_keys
  = firstn (Z.to_nat max_keys) (concat pages).
Proof.
  intros Hk. destruct pages as [|first remaining];
    cbn [Validate.list_all_objects]; rewrite list_loop_firstn by exact Hk;
    reflexivity.
Qed.

(** C9, as stated, fails for a negative cap: of three objects listed under
    the cap -1 the slice [items[:-1]] keeps two. *)
Lemma C9_counterexample :
  ~ at_most_cap [[ object_of "f/a" 1; object_of "f/b" 2; object_of "f/c" 3 ]] (-1).
Proof. unfold at_most_cap. cbn. lia. Qed.

(** C9, amended: for a cap that is not negative the result has at most
    [max_keys] objects; it is the first [max_keys] objects of the listing,
    exactly that many, when the listing has as many or more, whatever the
    pages after the one that reached the cap hold; and it is the whole
    listing otherwise. *)
Theorem C9_listing_cap (pages : list (list Validate.s3_object)) (max_keys : Z) :
  (0 <= max_keys)%Z ->
  at_most_cap pages max_keys
  /\ ((max_keys <= Z.of_nat (length (concat pages)))%Z ->
      Validate.list_all_objects pages max_keys
        = firstn (Z.to_nat max_keys) (concat pages)
      /\ Z.of_nat (length (Validate.list_all_objects pages max_keys)) = max_keys
      /\ forall later,
           Validate.list_all_objects (pages ++ later) max_keys
           = Validate.list_all_objects pages max_keys)
  /\ ((Z.of_nat (length (concat pages)) < max_keys)%Z ->
      Validate.list_all_objects pages max_keys = concat pages).
Proof.
  intros Hk. unfold at_most_cap.
  rewrite list_all_objects_firstn by exact Hk.
  split; [rewrite length_firstn; lia |].
  split.
  - intros Hcap. split; [reflexivity |].
    split; [rewrite length_firstn; lia |].
    intros later. rewrite list_all_objects_firstn by exact Hk.
    rewrite concat_app, firstn_app.
    replace (Z.to_nat max_keys - length (concat pages)) with 0 by lia.
    cbn [firstn]. now rewrite app_nil_r.
  - intros Hall. apply firstn_all2. lia.
Qed.

(** Three objects in two pages under the cap 2. *)
Lemma C9_listing_cap_witness :
  Validate.list_all_objects
    [ [ object_of "f/a" 1; object_of "f/b" 2 ]; [ object_of "f/c" 3 ] ] 2
  = [ object_of "f/a" 1; object_of "f/b" 2 ].
Proof.
  destruct (C9_listing_cap
              [ [ object_of "f/a" 1; object_of "f/b" 2 ]; [ object_of "f/c" 3 ] ] 2)
    as (_ & Hcap & _).
  - lia.
  - destruct Hcap as [H _].
    + cbn. lia.
    + rewrite H. reflexivity.
Defined.

(** ** C6: one error per defect *)

(** The loop that appends to [errors] gathers the errors of the objects
    in their order. *)
Lemma errors_loop (f : Validate.s3_object -> list string) payload : forall acc,
  fold_left (fun errors o => errors ++ f o) payload acc
  = acc ++ flat_map f payload.
Proof.
  induction payload as [|o payload IH]; intros acc; cbn [fold_left flat_map].
  - now rewrite app_nil_r.
  - rewrite IH. now rewrite <- app_assoc.
Qed.

Lemma object_errors_count allow o :
  length (Validate.object_errors allow o) = defects_reported allow o.
Proof.
  unfold Validate.object_errors, defects_reported, size_defect, etag_defect.
  destruct (Validate.Key o) as [[|c k]|]; cbn [Validate.missing]; try reflexivity.
  rewrite length_app.
  destruct (Validate.Size o) as [n|];
    [destruct (negb allow && (n =? 0)%Z) |];
    destruct (Validate.missing (Validate.ETag o)); reflexivity.
Qed.

Lemma flat_map_errors_count allow payload :
  length (flat_map (Validate.object_errors allow) payload)
  = total (defects_reported allow) payload.
Proof.
  unfold total, list_sum.
  induction payload as [|o payload IH]; cbn [flat_map map fold_right];
    [reflexivity |].
  now rewrite length_app, object_errors_count, IH.
Qed.

Lemma validate_objects_payload allow objects marker_key :
  payload_of objects marker_key ≠ [] ->
  Validate.validate_objects allow objects marker_key
  = (match flat_map (Validate.object_errors allow) (payload_of objects marker_key) with
     | [] => true
     | _ => false
     end,
     flat_map (Validate.object_errors allow) (payload_of objects marker_key)).
Proof.
  intros Hne. unfold Validate.validate_objects. fold (payload_of objects marker_key).
  destruct (payload_of objects marker_key) as [|o payload]; [congruence |].
  now rewrite errors_loop.
Qed.

Lemma defects_with_key allow o :
  Validate.missing (Validate.Key o) = false ->
  defects_reported allow o = defects_claimed allow o.
Proof.
  intros H. unfold defects_reported, defects_claimed, key_defect.
  now rewrite H.
Qed.

Lemma total_with_keys allow payload :
  Forall (fun o => Validate.missing (Validate.Key o) = false) payload ->
  total (defects_reported allow) payload = total (defects_claimed allow) payload.
Proof.
  unfold total, list_sum.
  induction 1 as [|o l Ho _ IH]; cbn [map fold_right]; [reflexivity |].
  now rewrite IH, (defects_with_key allow o Ho).
Qed.

(** C6, as stated, fails: an object without key, size and fingerprint has
    three of the defects and is reported with one error. *)
Lemma C6_counterexample :
  ~ errors_match_defects false [bare_object] (Py.VStr marker_key_2024).
Proof.
  unfold errors_match_defects. intros H.
  assert (Hp : payload_of [bare_object] (Py.VStr marker_key_2024) ≠ [])
    by discriminate.
  specialize (H Hp). cbn in H. discriminate.
Qed.

(** C6, amended: count one defect for an object without a key, whose
    other fields are not examined, and for an object with a key one for a
    missing size or a zero size that is not allowed and one for a missing
    fingerprint.  For a payload that is not empty, [validate_objects]
    returns exactly as many errors as this count K, and [ok] is false
    unless K is 0; when every payload object has a key, K counts every
    defect. *)
Theorem C6_errors_itemized allow objects marker_key :
  payload_of objects marker_key ≠ [] ->
  let K := total (defects_reported allow) (payload_of objects marker_key) in
  length (Validate.validate_objects allow objects marker_key).2 = K
  /\ (Validate.validate_objects allow objects marker_key).1 = Nat.eqb K 0
  /\ (Forall (fun o => Validate.missing (Validate.Key o) = false)
             (payload_of objects marker_key) ->
      errors_match_defects allow objects marker_key).
Proof.
  intros Hne K. subst K.
  rewrite (validate_objects_payload allow objects marker_key Hne). cbn [fst snd].
  rewrite <- flat_map_errors_count.
  split; [reflexivity |]. split.
  - destruct (flat_map _ _); reflexivity.
  - intros Hkeys _.
    rewrite (validate_objects_payload allow objects marker_key Hne). cbn [snd].
    rewrite flat_map_errors_count. now apply total_with_keys.
Qed.

(** Three objects with four defects counted. *)
Lemma C6_errors_itemized_witness :
  length (Validate.validate_objects false
            [ object_of "f/a" 0; bare_object
            ; {| Validate.Key := Some "f/b"; Validate.Size := None;
                 Validate.ETag := None; Validate.LastModified := None |} ]
            (Py.VStr "f/_INGEST_DONE")).2 = 4.
Proof.
  destruct (C6_errors_itemized false
              [ object_of "f/a" 0; bare_object
              ; {| Validate.Key := Some "f/b"; Validate.Size := None;
                   Validate.ETag := None; Validate.LastModified := None |} ]
              (Py.VStr "f/_INGEST_DONE")) as (H & _ & _).
  - discriminate.
  - rewrite H. reflexivity.
Defined.

Example validate_objects_itemized :
  Validate.validate_objects false
    [ object_of "f/a" 0; bare_object
    ; {| Validate.Key := Some "f/b"; Validate.Size := None;
         Validate.ETag := None; Validate.LastModified := None |} ]
    (Py.VStr "f/_INGEST_DONE")
  = (false, [ "ZERO_BYTE_OBJECT: f/a"; "BAD_OBJECT: missing Key"
            ; "BAD_OBJECT: missing Size (f/b)"; "BAD_OBJECT: missing ETag (f/b)" ]).
Proof. reflexivity. Qed.

(** ** C4: the folder with the marker alone, and the folder not found *)

Lemma handler_listed e event bucket folder_path :
  Py.get event "bucket" = Py.VStr bucket -> bucket ≠ "" ->
  Py.get event "folder_path" = Py.VStr folder_path -> folder_path ≠ "" ->
  Py.truthy (Py.get event "object_key") = true ->
  Validate.handler e event
  = match listed e bucket folder_path with
    | [] =>
        Py.Ok {| Validate.ok := false; Validate.validated_at := Validate.now_iso e;
                 Validate.reason := "FOLDER_NOT_FOUND_OR_EMPTY";
                 Validate.errors :=
                   ["No objects found under prefix: " +:+ prefix_of folder_path];
                 Validate.result_stats := None; Validate.inventory := None |}
    | _ =>
        let objects := listed e bucket folder_path in
        let marker_key := Py.get event "object_key" in
        let v := Validate.validate_objects
                   (Validate.ALLOW_ZERO_BYTE (Validate.cfg e)) objects marker_key in
        let inventory := Validate.build_inventory objects marker_key in
        Py.Ok {| Validate.ok := v.1; Validate.validated_at := Validate.now_iso e;
                 Validate.reason := if v.1 then "OK" else "FAILED_VALIDATION";
                 Validate.errors := v.2;
                 Validate.result_stats :=
                   Some {| Validate.object_count_including_marker := length objects;
                           Validate.payload_file_count := length inventory;
                           Validate.max_keys_cap := Validate.MAX_KEYS (Validate.cfg e) |};
                 Validate.inventory := Some inventory |}
    end.
Proof.
  intros Hb Hbne Hf Hfne Hm.
  unfold Validate.handler. rewrite Hb, Hf, Hm.
  cbn [Py.truthy].
  apply String.eqb_neq in Hbne, Hfne. rewrite Hbne, Hfne. cbn [negb orb].
  fold (prefix_of folder_path). fold (listed e bucket folder_path).
  destruct (listed e bucket folder_path) as [|o objects]; [reflexivity |].
  cbv zeta.
  destruct (Validate.validate_objects _ _ _) as [ok errors]. reflexivity.
Qed.

Example marker_alone :
  Validate.handler (validate_env [[object_of marker_key_2024 0]]) validate_event
  = Py.Ok {| Validate.ok := false; Validate.validated_at := "2024-05-01T10:00:03Z";
             Validate.reason := "FAILED_VALIDATION";
             Validate.errors :=
               ["EMPTY_FOLDER: no payload objects found (excluding _INGEST_DONE)"];
             Validate.result_stats :=
               Some {| Validate.object_count_including_marker := 1;
                       Validate.payload_file_count := 0;
                       Validate.max_keys_cap := 5000 |};
             Validate.inventory := Some [] |}.
Proof. reflexivity. Qed.

(** C4, as stated, fails: for the folder that holds the marker alone the
    reason returned is FAILED_VALIDATION. *)
Lemma C4_counterexample :
  ~ reason_is_empty_folder (validate_env [[object_of marker_key_2024 0]]) validate_event.
Proof.
  intros H.
  destruct (H "bkt" "proj1/2024/") as (r & Hr & _ & Hreason);
    try reflexivity; try discriminate.
  rewrite marker_alone in Hr. injection Hr as <-. discriminate.
Qed.

(** C4, amended: when the listing is not empty and nothing is left of it
    without the marker, the result has ok=false, the reason
    FAILED_VALIDATION and the one error that starts with EMPTY_FOLDER; when
    the listing is empty, the result has ok=false and the reason
    FOLDER_NOT_FOUND_OR_EMPTY. *)
Theorem C4_empty_folder e event bucket folder_path :
  Py.get event "bucket" = Py.VStr bucket -> bucket ≠ "" ->
  Py.get event "folder_path" = Py.VStr folder_path -> folder_path ≠ "" ->
  Py.truthy (Py.get event "object_key") = true ->
  (listed e bucket folder_path ≠ [] ->
   payload_of (listed e bucket folder_path) (Py.get event "object_key") = [] ->
   exists r, Validate.handler e event = Py.Ok r
     /\ Validate.ok r = false
     /\ Validate.reason r = "FAILED_VALIDATION"
     /\ Validate.errors r
        = ["EMPTY_FOLDER: no payload objects found (excluding _INGEST_DONE)"])
  /\ (listed e bucket folder_path = [] ->
      exists r, Validate.handler e event = Py.Ok r
        /\ Validate.ok r = false
        /\ Validate.reason r = "FOLDER_NOT_FOUND_OR_EMPTY").
Proof.
  intros Hb Hbne Hf Hfne Hm.
  rewrite (handler_listed e event bucket folder_path Hb Hbne Hf Hfne Hm).
  split.
  - intros Hne Hpayload.
    destruct (listed e bucket folder_path) as [|o objects] eqn:Hl; [congruence |].
    cbv zeta. unfold Validate.validate_objects.
    fold (payload_of (o :: objects) (Py.get event "object_key")).
    rewrite Hpayload. cbn [fst snd].
    eexists. split; [reflexivity |]. repeat split.
  - intros ->. eexists. split; [reflexivity |]. split; reflexivity.
Qed.

(** The folder with the marker alone, and the folder without objects. *)
Lemma C4_empty_folder_witness :
  (exists r, Validate.handler (validate_env [[object_of marker_key_2024 0]])
                              validate_event = Py.Ok r
             /\ Validate.reason r = "FAILED_VALIDATION")
  /\ (exists r, Validate.handler (validate_env []) validate_event = Py.Ok r
                /\ Validate.reason r = "FOLDER_NOT_FOUND_OR_EMPTY").
Proof.
  split.
  - destruct (C4_empty_folder (validate_env [[object_of marker_key_2024 0]])
                validate_event "bkt" "proj1/2024/") as [H _];
      try reflexivity; try discriminate.
    destruct H as (r & Hr & _ & Hreason & _);
      try reflexivity; try discriminate.
    exists r. split; assumption.
  - destruct (C4_empty_folder (validate_env []) validate_event "bkt" "proj1/2024/")
      as [_ H]; try reflexivity; try discriminate.
    destruct H as (r & Hr & _ & Hreason); try reflexivity.
    exists r. split; assumption.
Defined.

(** ** C8: the inventory *)

(** *** The order of strings *)

Lemma ascii_compare_lt_trans (a b c : ascii) :
  Ascii.compare a b = Lt -> Ascii.compare b c = Lt -> Ascii.compare a c = Lt.
Proof.
  unfold Ascii.compare. rewrite !N.compare_lt_iff. lia.
Qed.

Lemma string_leb_trans (s1 s2 s3 : string) :
  String.leb s1 s2 = true -> String.leb s2 s3 = true -> String.leb s1 s3 = true.
Proof.
  unfold String.leb. revert s2 s3.
  induction s1 as [|c1 s1 IH]; intros [|c2 s2] [|c3 s3];
    cbn [String.compare]; try (intros; reflexivity); try discriminate.
  destruct (Ascii.compare c1 c2) eqn:E12; try discriminate;
    destruct (Ascii.compare c2 c3) eqn:E23; try discriminate.
  - apply Ascii.compare_eq_iff in E12, E23. subst c2 c3.
    replace (Ascii.compare c1 c1) with Eq
      by (symmetry; unfold Ascii.compare; apply N.compare_refl).
    apply IH.
  - apply Ascii.compare_eq_iff in E12. subst c2. rewrite E23. reflexivity.
  - apply Ascii.compare_eq_iff in E23. subst c3. rewrite E12. reflexivity.
  - rewrite (ascii_compare_lt_trans c1 c2 c3 E12 E23). reflexivity.
Qed.

#[local] Instance key_le_trans : Transitive key_le.
Proof. intros x y z. unfold key_le. apply string_leb_trans. Qed.

Lemma key_le_total x y : key_le x y \/ key_le y x.
Proof. unfold key_le. apply String.leb_total. Qed.

(** *** The sort *)

Lemma insert_by_key_perm x l :
  Permutation (Validate.insert_by_key x l) (x :: l).
Proof.
  induction l as [|y l IH]; cbn [Validate.insert_by_key]; [reflexivity |].
  destruct (String.leb (Validate.key x) (Validate.key y)); [reflexivity |].
  rewrite IH. apply perm_swap.
Qed.

Lemma sort_by_key_perm l : Permutation (Validate.sort_by_key l) l.
Proof.
  unfold Validate.sort_by_key.
  induction l as [|x l IH]; cbn [foldr]; [reflexivity |].
  rewrite insert_by_key_perm. now apply perm_skip.
Qed.

Lemma insert_by_key_sorted x l :
  Sorted key_le l -> Sorted key_le (Validate.insert_by_key x l).
Proof.
  induction 1 as [|y l Hl IH Hhd]; cbn [Validate.insert_by_key].
  - repeat constructor.
  - destruct (String.leb (Validate.key x) (Validate.key y)) eqn:E.
    + constructor; [constructor; assumption |]. constructor. exact E.
    + constructor; [exact IH |].
      assert (Hyx : key_le y x).
      { destruct (key_le_total x y) as [H | H]; [| exact H].
        unfold key_le in H. congruence. }
      destruct Hhd as [|z l' Hyz]; cbn [Validate.insert_by_key].
      * constructor. exact Hyx.
      * destruct (String.leb (Validate.key x) (Validate.key z));
          constructor; assumption.
Qed.

Lemma sort_by_key_sorted l : StronglySorted key_le (Validate.sort_by_key l).
Proof.
  apply Sorted_StronglySorted; [exact key_le_trans |].
  unfold Validate.sort_by_key.
  induction l as [|x l IH]; cbn [foldr]; [constructor |].
  now apply insert_by_key_sorted.
Qed.

(** *** What is collected *)

Lemma collect_filter objects marker_key :
  Validate.collect objects marker_key
  = map Validate.inventory_item_of (List.filter (inventoried marker_key) objects).
Proof.
  unfold inventoried.
  induction objects as [|o objects IH]; cbn [Validate.collect List.filter map];
    [reflexivity |].
  destruct (Validate.missing (Validate.Key o)
            || Validate.key_is (Validate.Key o) marker_key);
    cbn [negb map]; now rewrite IH.
Qed.

(** The result carries an inventory only when the handler has listed the
    folder and found objects; the inventory is then built from them. *)
Lemma handler_inventory e event r inv :
  Validate.handler e event = Py.Ok r ->
  Validate.inventory r = Some inv ->
  exists bucket folder_path,
    Py.get event "bucket" = Py.VStr bucket /\ bucket ≠ ""
    /\ Py.get event "folder_path" = Py.VStr folder_path /\ folder_path ≠ ""
    /\ Py.truthy (Py.get event "object_key") = true
    /\ listed e bucket folder_path ≠ []
    /\ inv = Validate.build_inventory (listed e bucket folder_path)
                                      (Py.get event "object_key").
Proof.
  intros H Hinv.
  destruct (Py.truthy (Py.get event "object_key")) eqn:Hm.
  2: { unfold Validate.handler in H. rewrite Hm in H.
       cbn [negb] in H. rewrite orb_true_r in H.
       injection H as <-. discriminate Hinv. }
  destruct (Py.get event "bucket") as [| | | bucket | |] eqn:Hb;
    destruct (Py.get event "folder_path") as [| | | folder_path | |] eqn:Hf;
    try (unfold Validate.handler in H; rewrite Hb, Hf, Hm in H;
         cbn [Py.truthy negb orb] in H;
         repeat match type of H with
                | context [if ?c then _ else _] => destruct c
                end;
         first [discriminate H | injection H as <-; discriminate Hinv]).
  exists bucket, folder_path.
  assert (Hbne : bucket ≠ "").
  { intros ->. unfold Validate.handler in H. rewrite Hb, Hf, Hm in H.
    cbn in H. injection H as <-. discriminate Hinv. }
  assert (Hfne : folder_path ≠ "").
  { intros ->. unfold Validate.handler in H. rewrite Hb, Hf, Hm in H.
    cbn [Py.truthy negb orb String.eqb] in H.
    destruct (negb (negb (bucket =? ""))%string);
      cbn in H; injection H as <-; discriminate Hinv. }
  rewrite (handler_listed e event bucket folder_path Hb Hbne Hf Hfne Hm) in H.
  repeat split; try assumption.
  - intros Hnil. rewrite Hnil in H. injection H as <-. discriminate Hinv.
  - destruct (listed e bucket folder_path) as [|o objects].
    + injection H as <-. discriminate Hinv.
    + cbv zeta in H. injection H as <-.
      cbn [Validate.inventory] in Hinv. now injection Hinv as <-.
Qed.

(** *** The payload objects and their items *)

Lemma is_payload_inventoried marker_key o :
  is_payload marker_key o = inventoried marker_key o.
Proof.
  unfold is_payload, inventoried, Validate.missing, Validate.key_is.
  destruct (Validate.Key o) as [[|a k]|]; [reflexivity | | reflexivity].
  destruct marker_key; reflexivity.
Qed.

(** The item built from an object with a key is the one that describes
    it, and no other. *)
Lemma describes_item_of marker_key o it :
  is_payload marker_key o = true ->
  describes o it <-> it = Validate.inventory_item_of o.
Proof.
  unfold is_payload, describes, Validate.inventory_item_of.
  destruct (Validate.Key o) as [k|]; [| discriminate].
  intros _. split.
  - intros (Hk & Hs & He & Hl). destruct it as [k' s' e' l'].
    cbn [Validate.key Validate.size Validate.etag Validate.last_modified] in *.
    injection Hk as ->. subst s' e' l'.
    now destruct (Validate.LastModified o).
  - intros ->.
    cbn [Validate.key Validate.size Validate.etag Validate.last_modified].
    repeat split; now destruct (Validate.LastModified o).
Qed.

Lemma build_inventory_perm objects marker_key :
  Permutation (Validate.build_inventory objects marker_key)
    (map Validate.inventory_item_of (List.filter (inventoried marker_key) objects)).
Proof.
  unfold Validate.build_inventory. rewrite <- collect_filter.
  apply sort_by_key_perm.
Qed.

Lemma build_inventory_items objects marker_key it :
  In it (Validate.build_inventory objects marker_key)
  <-> exists o, In o objects /\ is_payload marker_key o = true /\ describes o it.
Proof.
  split.
  - intros Hin.
    apply (Permutation_in it (build_inventory_perm objects marker_key)) in Hin.
    apply in_map_iff in Hin as (o & <- & Ho).
    apply filter_In in Ho as [Ho Hp].
    rewrite <- is_payload_inventoried in Hp.
    exists o. split; [exact Ho |]. split; [exact Hp |].
    now apply (describes_item_of marker_key).
  - intros (o & Ho & Hp & Hd).
    apply (describes_item_of marker_key o it Hp) in Hd. subst it.
    apply (Permutation_in _
             (Permutation_sym (build_inventory_perm objects marker_key))).
    apply in_map, filter_In. split; [exact Ho |].
    now rewrite <- is_payload_inventoried.
Qed.

Lemma build_inventory_length objects marker_key :
  length (Validate.build_inventory objects marker_key)
  = length (List.filter (is_payload marker_key) objects).
Proof.
  rewrite (Permutation_length (build_inventory_perm objects marker_key)).
  rewrite length_map.
  now rewrite (List.filter_ext _ _ (is_payload_inventoried marker_key)).
Qed.

Lemma build_inventory_keys objects marker_key :
  Permutation (map Validate.key (Validate.build_inventory objects marker_key))
    (map key_of (List.filter (is_payload marker_key) objects)).
Proof.
  rewrite (Permutation_map Validate.key (build_inventory_perm objects marker_key)).
  rewrite map_map.
  now rewrite (List.filter_ext _ _ (is_payload_inventoried marker_key)).
Qed.

(** *** The inventory does not depend on the order of the listing *)

Lemma key_le_antisym x y :
  key_le x y -> key_le y x -> Validate.key x = Validate.key y.
Proof. unfold key_le. apply String.leb_antisym. Qed.

(** Two sorted lists with the same items, no two of one key, are one list. *)
Lemma sorted_unique l1 : forall l2,
  StronglySorted key_le l1 -> StronglySorted key_le l2 ->
  Permutation l1 l2 ->
  List.NoDup (map Validate.key l1) ->
  l1 = l2.
Proof.
  induction l1 as [|x l1 IH]; intros l2 Hs1 Hs2 Hperm Hnd.
  - apply Permutation_nil in Hperm. now subst.
  - destruct l2 as [|y l2].
    { apply Permutation_sym, Permutation_nil in Hperm. discriminate. }
    apply StronglySorted_inv in Hs1 as [Hs1 Hx].
    apply StronglySorted_inv in Hs2 as [Hs2 Hy].
    rewrite List.Forall_forall in Hx, Hy.
    assert (Hxy : x = y).
    { assert (Hin_y : In y (x :: l1))
        by (apply (Permutation_in y (Permutation_sym Hperm)); now left).
      assert (Hin_x : In x (y :: l2))
        by (apply (Permutation_in x Hperm); now left).
      destruct Hin_y as [Heq | Hin_y]; [exact Heq |].
      destruct Hin_x as [Heq | Hin_x]; [now symmetry |].
      assert (Hk : Validate.key x = Validate.key y)
        by (apply key_le_antisym; [apply Hx | apply Hy]; assumption).
      cbn [map] in Hnd. apply List.NoDup_cons_iff in Hnd as [Hnotin _].
      exfalso. apply Hnotin. rewrite Hk. now apply in_map. }
    subst y. f_equal.
    apply IH; try assumption.
    + now apply Permutation_cons_inv in Hperm.
    + cbn [map] in Hnd. now apply List.NoDup_cons_iff in Hnd as [_ Hnd].
Qed.

Lemma filter_perm {A} (f : A -> bool) (l1 l2 : list A) :
  Permutation l1 l2 -> Permutation (List.filter f l1) (List.filter f l2).
Proof.
  induction 1 as [| x l1 l2 _ IH | x y l | l1 l2 l3 _ IH1 _ IH2];
    cbn [List.filter].
  - constructor.
  - destruct (f x); [now apply perm_skip | exact IH].
  - destruct (f x), (f y); try reflexivity. apply perm_swap.
  - now rewrite IH1.
Qed.

(** The inventories of two listings of the same objects, the keys of the
    one distinct. *)
Lemma build_inventory_of_permuted objects1 objects2 marker_key :
  Permutation objects1 objects2 ->
  List.NoDup (map Validate.key (Validate.build_inventory objects1 marker_key)) ->
  Validate.build_inventory objects1 marker_key
  = Validate.build_inventory objects2 marker_key.
Proof.
  intros Hperm Hnd.
  apply sorted_unique; try apply sort_by_key_sorted; [| exact Hnd].
  rewrite !build_inventory_perm.
  apply Permutation_map. now apply filter_perm.
Qed.

(** C8: the inventory of a result holds one item for every object listed
    that has a key, not empty and not the marker's, and nothing else; the
    item has the key of its object, its size, or 0 when the object has
    none, its ETag and the text of the time of its last change; the items
    are as many as these objects, their keys are the keys of these objects,
    each as often as it is listed, and they are in ascending order of the
    keys.  A second run served the same pages under the same cap returns
    the same inventory, whatever its clock and its other settings; and so
    does a run that lists the same objects in another order or in other
    pages, when no two items have one key. *)
Theorem C8_inventory e event r inv :
  Validate.handler e event = Py.Ok r ->
  Validate.inventory r = Some inv ->
  exists bucket folder_path,
    Py.get event "bucket" = Py.VStr bucket
    /\ Py.get event "folder_path" = Py.VStr folder_path
    /\ (forall it,
          In it inv
          <-> exists o,
                In o (listed e bucket folder_path)
                /\ is_payload (Py.get event "object_key") o = true
                /\ describes o it)
    /\ length inv
       = length (List.filter (is_payload (Py.get event "object_key"))
                             (listed e bucket folder_path))
    /\ Permutation (map Validate.key inv)
         (map key_of (List.filter (is_payload (Py.get event "object_key"))
                                  (listed e bucket folder_path)))
    /\ Permutation inv
         (map Validate.inventory_item_of
              (List.filter (inventoried (Py.get event "object_key"))
                           (listed e bucket folder_path)))
    /\ StronglySorted key_le inv
    /\ (forall e',
          Validate.listing e' bucket (prefix_of folder_path)
            = Validate.listing e bucket (prefix_of folder_path) ->
          Validate.MAX_KEYS (Validate.cfg e') = Validate.MAX_KEYS (Validate.cfg e) ->
          exists r', Validate.handler e' event = Py.Ok r'
                     /\ Validate.inventory r' = Some inv)
    /\ (forall e',
          Permutation (listed e' bucket folder_path) (listed e bucket folder_path) ->
          List.NoDup (map Validate.key inv) ->
          exists r', Validate.handler e' event = Py.Ok r'
                     /\ Validate.inventory r' = Some inv).
Proof.
  intros H Hinv.
  destruct (handler_inventory e event r inv H Hinv)
    as (bucket & folder_path & Hb & Hbne & Hf & Hfne & Hm & Hne & ->).
  exists bucket, folder_path.
  split; [exact Hb |]. split; [exact Hf |].
  split; [intros it; apply build_inventory_items |].
  split; [apply build_inventory_length |].
  split; [apply build_inventory_keys |].
  split; [apply build_inventory_perm |].
  split; [apply sort_by_key_sorted |].
  split.
  - intros e' Hlist Hcap.
    rewrite (handler_listed e' event bucket folder_path Hb Hbne Hf Hfne Hm).
    assert (Hsame : listed e' bucket folder_path = listed e bucket folder_path).
    { unfold listed. now rewrite Hlist, Hcap. }
    rewrite Hsame.
    destruct (listed e bucket folder_path) as [|o objects]; [congruence |].
    eexists. split; reflexivity.
  - intros e' Hperm Hnd.
    rewrite (handler_listed e' event bucket folder_path Hb Hbne Hf Hfne Hm).
    rewrite (build_inventory_of_permuted _ _ _ (Permutation_sym Hperm)) by exact Hnd.
    destruct (listed e' bucket folder_path) as [|o objects].
    + apply Permutation_nil in Hperm. congruence.
    + eexists. split; reflexivity.
Qed.

Example validate_folder_2024 :
  Validate.handler (validate_env [folder_2024]) validate_event = Py.Ok result_2024.
Proof. reflexivity. Qed.

(** The inventory of the folder of the scenario: the three payload
    objects, each with its fields, in the order of the keys; and the same
    inventory from the listing served in the opposite order, in two pages. *)
Lemma C8_inventory_witness :
  (forall it,
     In it (map Validate.inventory_item_of
              [ object_of "proj1/2024/a.csv" 10
              ; object_of "proj1/2024/b.csv" 20
              ; object_of "proj1/2024/c.csv" 30 ])
     <-> exists o,
           In o folder_2024
           /\ is_payload (Py.VStr marker_key_2024) o = true
           /\ describes o it)
  /\ StronglySorted key_le
       (map Validate.inventory_item_of
          [ object_of "proj1/2024/a.csv" 10
          ; object_of "proj1/2024/b.csv" 20
          ; object_of "proj1/2024/c.csv" 30 ])
  /\ exists r',
       Validate.handler (validate_env (relisted_2024)) validate_event = Py.Ok r'
       /\ Validate.inventory r'
          = Some (map Validate.inventory_item_of
                    [ object_of "proj1/2024/a.csv" 10
                    ; object_of "proj1/2024/b.csv" 20
                    ; object_of "proj1/2024/c.csv" 30 ]).
Proof.
  destruct (C8_inventory (validate_env [folder_2024]) validate_event result_2024
              (map Validate.inventory_item_of
                 [ object_of "proj1/2024/a.csv" 10
                 ; object_of "proj1/2024/b.csv" 20
                 ; object_of "proj1/2024/c.csv" 30 ]))
    as (bucket & folder_path & Hb & Hf & Hitems & _ & _ & _ & Hsorted & _ & Hfree).
  - reflexivity.
  - reflexivity.
  - assert (Hbucket : bucket = "bkt")
      by (vm_compute in Hb; now injection Hb as <-).
    assert (Hfolder : folder_path = "proj1/2024/")
      by (vm_compute in Hf; now injection Hf as <-).
    subst bucket folder_path.
    split; [exact Hitems |]. split; [exact Hsorted |].
    apply (Hfree (validate_env relisted_2024)).
    + apply Permutation_sym.
      change (Permutation folder_2024 (rev folder_2024)).
      apply Permutation_rev.
    + vm_compute.
      repeat (apply List.NoDup_cons; [cbn [In]; intuition discriminate |]).
      apply List.NoDup_nil.
Defined.

(** Two listings of the same objects, in whatever order each, whose keys
    are distinct as the keys of a folder are, have one inventory. *)
Lemma build_inventory_order_free objects1 objects2 marker_key :
  Permutation objects1 objects2 ->
  List.NoDup (map Validate.key (Validate.collect objects1 marker_key)) ->
  Validate.build_inventory objects1 marker_key
  = Validate.build_inventory objects2 marker_key.
Proof.
  intros Hperm Hnd. unfold Validate.build_inventory.
  apply sorted_unique; try apply sort_by_key_sorted.
  - rewrite !sort_by_key_perm, !collect_filter.
    apply Permutation_map. now apply filter_perm.
  - eapply Permutation_NoDup; [| exact Hnd].
    apply Permutation_map. symmetry. apply sort_by_key_perm.
Qed.

(** ** C7: the manifest and its pointer *)

Lemma failures_distinct p c1 m1 c2 m2 :
  Manifest.write_failed p c1 m1 ≠ Manifest.pointer_failed c2 m2.
Proof. unfold Manifest.write_failed, Manifest.pointer_failed. discriminate. Qed.

(** The handler on an input it accepts, by what the two collaborators
    answer. *)
Lemma handler_cases repr e event w p b :
  Manifest.prepare repr e event = Py.Ok p ->
  Manifest.out_bucket p = Py.VStr b ->
  Manifest.handler repr e event w
  = match Manifest.put_object_fault e with
    | Some f =>
        (Py.Raise (Manifest.write_failed p (Dynamo.code_name (Dynamo.fcode f))
                                         (Dynamo.fmessage f)), w)
    | None =>
        let objects' :=
          <[(b, Manifest.manifest_key p) := Manifest.manifest_object p]>
            (Manifest.objects w) in
        match Dynamo.update_item (Manifest.update_item_fault e)
                (Manifest.plan_job_id p) (Manifest.pointer_update p)
                (Manifest.jobs w) with
        | Py.Raise (Py.ClientError code msg) =>
            (Py.Raise (Manifest.pointer_failed code msg),
             {| Manifest.objects := objects'; Manifest.jobs := Manifest.jobs w |})
        | Py.Raise x =>
            (Py.Raise x,
             {| Manifest.objects := objects'; Manifest.jobs := Manifest.jobs w |})
        | Py.Ok jobs' =>
            (Py.Ok (Py.dict
               [ ("manifest_s3_uri", Py.VStr (Manifest.manifest_s3_uri p))
               ; ("manifest_bucket", Manifest.out_bucket p)
               ; ("manifest_key", Py.VStr (Manifest.manifest_key p))
               ; ("manifest_version", Py.VStr "v1.0") ]),
             {| Manifest.objects := objects'; Manifest.jobs := jobs' |})
        end
    end.
Proof.
  intros Hp Hb. unfold Manifest.handler, Manifest.put_object.
  rewrite Hp, Hb.
  destruct (Manifest.put_object_fault e) as [f|]; reflexivity.
Qed.

(** The input is accepted and the bucket a string, or the handler raises
    and nothing is touched. *)
Lemma handler_reaches_write repr e event w :
  (exists p b, Manifest.prepare repr e event = Py.Ok p
               /\ Manifest.out_bucket p = Py.VStr b)
  \/ exists x, Manifest.handler repr e event w = (Py.Raise x, w).
Proof.
  destruct (Manifest.prepare repr e event) as [p | x] eqn:Hp.
  - destruct (Manifest.out_bucket p) as [| | | b | |] eqn:Hb;
      try (right; unfold Manifest.handler, Manifest.put_object;
           rewrite Hp, Hb; eexists; reflexivity).
    left. now exists p, b.
  - right. unfold Manifest.handler. rewrite Hp. now exists x.
Qed.

Lemma append_assoc (a b c : string) : (a +:+ b) +:+ c = a +:+ (b +:+ c).
Proof.
  induction a as [|x a IH]; [reflexivity |].
  change (String x ((a +:+ b) +:+ c) = String x (a +:+ (b +:+ c))).
  now rewrite IH.
Qed.

(** The address of the manifest in the plan of an accepted input. *)
Lemma prepare_uri repr e event p b :
  Manifest.prepare repr e event = Py.Ok p ->
  Manifest.out_bucket p = Py.VStr b ->
  Manifest.manifest_s3_uri p = "s3://" +:+ b +:+ "/" +:+ Manifest.manifest_key p.
Proof.
  unfold Manifest.prepare.
  destruct (negb (Py.truthy (Py.get event "job_id"))
            || negb (Py.truthy (Py.get event "project_code"))); [discriminate |].
  destruct (negb (Py.truthy _)); [discriminate |].
  destruct (Py.por (Py.por (Py.get_in event "impl.s3.prefix") _) _);
    try discriminate.
  destruct (Py.por (Py.por (Py.get_in event "validate_result.inventory") _) _);
    try discriminate.
  intros H. injection H as <-.
  cbn [Manifest.out_bucket Manifest.manifest_s3_uri Manifest.manifest_key].
  now intros ->.
Qed.

(** An update that is done is one the service was sent and did not
    refuse: the record of the key takes the values set together. *)
Lemma update_item_done fault key sets t t' :
  Dynamo.update_item fault key sets t = Py.Ok t' ->
  Dynamo.update_item None key sets t = Py.Ok t'
  /\ exists k new,
       key = Py.VStr k
       /\ t' = <[k := new]> t
       /\ Dynamo.apply_sets
            (match t !! k with Some r => r | None => {[ "job_id" := Py.VStr k ]} end)
            sets
            (match t !! k with Some r => r | None => {[ "job_id" := Py.VStr k ]} end)
          = Some new.
Proof.
  unfold Dynamo.update_item.
  destruct (Dynamo.request_serializable key sets); [| discriminate].
  unfold Dynamo.update_item_request.
  destruct fault as [f|]; [discriminate |].
  intros H. split; [exact H |].
  destruct key as [| | | k | |]; try discriminate.
  cbv zeta in H.
  destruct (Dynamo.apply_sets _ sets _) as [new|] eqn:Hnew; [| discriminate].
  injection H as <-. now exists k, new.
Qed.

(** The record after the update of the pointer. *)
Lemma pointer_update_sets old p new :
  Dynamo.apply_sets old (Manifest.pointer_update p) old = Some new ->
  new !! "manifest_s3_uri" = Some (Py.VStr (Manifest.manifest_s3_uri p))
  /\ new !! "manifest_bucket" = Some (Manifest.out_bucket p)
  /\ new !! "manifest_key" = Some (Py.VStr (Manifest.manifest_key p))
  /\ new !! "updated_at" = Some (Py.VStr (Manifest.created_at p)).
Proof.
  unfold Manifest.pointer_update.
  cbn [Dynamo.apply_sets Dynamo.eval_operand].
  intros H. injection H as <-.
  repeat split;
    repeat first [ apply lookup_insert_eq
                 | rewrite lookup_insert_ne by discriminate ].
Qed.

(** The service refuses the write or the update: the handler with a
    store that fails, and with a table that fails. *)
Example pointer_update_refused :
  let out := Manifest.handler repr_plain (manifest_env None (Some throttled))
               event_after_failed_validation world_with_job_1 in
  out.1 = Py.Raise (Py.RuntimeError
            "Manifest written but DynamoDB update failed: An error occurred (ProvisionedThroughputExceededException) when calling the UpdateItem operation: Rate exceeded")
  /\ Manifest.jobs out.2 = Manifest.jobs world_with_job_1
  /\ is_Some (Manifest.objects out.2 !! ("bkt", "proj1/_manifests/job-1.json")).
Proof.
  cbv zeta. split; [vm_compute; reflexivity |].
  split; [reflexivity |]. eexists. vm_compute. reflexivity.
Qed.

(** C7 as it is stated does not hold: the id of the job a number of 39
    digits, the manifest is written, the update of the pointer fails
    before a request is sent, and the failure surfaced is the one of the
    number, which tells nothing of the manifest. *)
Lemma C7_counterexample :
  let out := Manifest.handler repr_plain (manifest_env None None)
               event_with_numeric_job_id world_with_job_1 in
  out.1 = Py.Raise Py.DecimalException
  /\ is_Some (Manifest.objects out.2
                !! ("bkt", "proj1/_manifests/123456789012345678901234567890123456789.json"))
  /\ Manifest.jobs out.2 = Manifest.jobs world_with_job_1
  /\ ~ pointer_failure_told repr_plain (manifest_env None None)
         event_with_numeric_job_id world_with_job_1.
Proof.
  cbv zeta. split; [vm_compute; reflexivity |].
  split; [eexists; vm_compute; reflexivity |].
  split; [vm_compute; reflexivity |].
  intros H. unfold pointer_failure_told in H.
  eassert (Hp : Manifest.prepare repr_plain (manifest_env None None)
                  event_with_numeric_job_id = Py.Ok _)
    by (vm_compute; reflexivity).
  destruct (H _ "bkt" Py.DecimalException Hp eq_refl eq_refl eq_refl)
    as [detail Hd].
  vm_compute in Hd. discriminate Hd.
Qed.

(** C7: a record of the job table changes only by the update of the
    pointer, made after the manifest is in the object store, and a record
    that has changed holds the pointer to the manifest stored.  When the
    object store refuses the write, the handler raises a RuntimeError
    that starts with Failed to write manifest to, names the address and
    ends with the text of the error, and leaves table and store as they
    were.  When the write is done and the update fails, the manifest is
    in the store at its key and the table is as it was; an error of the
    table service is raised as a RuntimeError that starts with Manifest
    written but DynamoDB update failed: and ends with the text of the
    error, and any other failure of the update, such as the one of a value
    that cannot be sent, is raised as it is.  No text of the first failure
    is one of the second. *)
Theorem C7_manifest_failures repr e event w :
  let r := (Manifest.handler repr e event w).1 in
  let w' := (Manifest.handler repr e event w).2 in
  (Manifest.jobs w' = Manifest.jobs w
   \/ exists p b,
        Manifest.prepare repr e event = Py.Ok p
        /\ Manifest.out_bucket p = Py.VStr b
        /\ Manifest.objects w' !! (b, Manifest.manifest_key p)
           = Some (Manifest.manifest_object p)
        /\ Dynamo.update_item None (Manifest.plan_job_id p)
             (Manifest.pointer_update p) (Manifest.jobs w)
           = Py.Ok (Manifest.jobs w'))
  /\ (forall k rec,
        Manifest.jobs w' !! k = Some rec ->
        Manifest.jobs w !! k ≠ Some rec ->
        exists p b,
          Manifest.prepare repr e event = Py.Ok p
          /\ Manifest.out_bucket p = Py.VStr b
          /\ Manifest.plan_job_id p = Py.VStr k
          /\ Manifest.objects w' !! (b, Manifest.manifest_key p)
             = Some {| Manifest.Body := Manifest.manifest p;
                       Manifest.ContentType := "application/json" |}
          /\ rec !! "manifest_s3_uri"
             = Some (Py.VStr ("s3://" +:+ b +:+ "/" +:+ Manifest.manifest_key p))
          /\ rec !! "manifest_bucket" = Some (Py.VStr b)
          /\ rec !! "manifest_key" = Some (Py.VStr (Manifest.manifest_key p)))
  /\ forall p b,
       Manifest.prepare repr e event = Py.Ok p ->
       Manifest.out_bucket p = Py.VStr b ->
       (forall f, Manifest.put_object_fault e = Some f ->
          r = Py.Raise (Py.RuntimeError
                ("Failed to write manifest to s3://" +:+ b +:+ "/"
                 +:+ Manifest.manifest_key p +:+ ": An error occurred ("
                 +:+ Dynamo.code_name (Dynamo.fcode f)
                 +:+ ") when calling the PutObject operation: "
                 +:+ Dynamo.fmessage f))
          /\ w' = w)
       /\ (Manifest.put_object_fault e = None ->
           forall x,
             Dynamo.update_item (Manifest.update_item_fault e)
               (Manifest.plan_job_id p) (Manifest.pointer_update p)
               (Manifest.jobs w) = Py.Raise x ->
             r = Py.Raise
                   match x with
                   | Py.ClientError code msg =>
                       Py.RuntimeError
                         ("Manifest written but DynamoDB update failed: An error occurred ("
                          +:+ code +:+ ") when calling the UpdateItem operation: "
                          +:+ msg)
                   | _ => x
                   end
             /\ Manifest.jobs w' = Manifest.jobs w
             /\ Manifest.objects w'
                = <[(b, Manifest.manifest_key p) :=
                      {| Manifest.Body := Manifest.manifest p;
                         Manifest.ContentType := "application/json" |}]>
                    (Manifest.objects w))
       /\ (forall detail1 detail2,
             "Failed to write manifest to " +:+ detail1
             ≠ "Manifest written but DynamoDB update failed: " +:+ detail2).
Proof.
  intros r w'. subst r w'. split; [| split].
  - destruct (handler_reaches_write repr e event w)
      as [(p & b & Hp & Hb) | [x ->]]; [| now left].
    rewrite (handler_cases repr e event w p b Hp Hb).
    destruct (Manifest.put_object_fault e) as [f|]; [now left |].
    cbv zeta.
    destruct (Dynamo.update_item (Manifest.update_item_fault e) _ _ _)
      as [jobs' | x] eqn:Hu.
    + right. exists p, b. cbn [snd Manifest.objects Manifest.jobs].
      split; [exact Hp |]. split; [exact Hb |].
      split; [apply lookup_insert_eq |].
      now apply update_item_done in Hu as [Hu _].
    + left. destruct x; reflexivity.
  - intros k rec.
    destruct (handler_reaches_write repr e event w)
      as [(p & b & Hp & Hb) | [x ->]]; [| cbn [snd]; congruence].
    rewrite (handler_cases repr e event w p b Hp Hb).
    destruct (Manifest.put_object_fault e) as [f|]; [cbn [snd]; congruence |].
    cbv zeta.
    destruct (Dynamo.update_item (Manifest.update_item_fault e) _ _ _)
      as [jobs' | x] eqn:Hu.
    2: { destruct x; cbn [snd Manifest.jobs]; congruence. }
    cbn [snd Manifest.jobs Manifest.objects].
    apply update_item_done in Hu as (_ & jid & new & Hjid & -> & Hnew).
    intros Hrec Hold.
    destruct (decide (jid = k)) as [-> | Hne];
      [| rewrite lookup_insert_ne in Hrec by exact Hne; congruence].
    rewrite lookup_insert_eq in Hrec. injection Hrec as ->.
    apply pointer_update_sets in Hnew as (Huri & Hbucket & Hkey & _).
    exists p, b.
    split; [exact Hp |]. split; [exact Hb |]. split; [exact Hjid |].
    split; [apply lookup_insert_eq |].
    rewrite <- (prepare_uri repr e event p b Hp Hb), <- Hb.
    now repeat split.
  - intros p b Hp Hb.
    rewrite (handler_cases repr e event w p b Hp Hb).
    split; [| split].
    + intros f ->. cbn [fst snd]. split; [| reflexivity].
      unfold Manifest.write_failed.
      rewrite (prepare_uri repr e event p b Hp Hb), !append_assoc.
      reflexivity.
    + intros -> x Hx. rewrite Hx. cbv zeta.
      split; [destruct x; reflexivity |].
      destruct x; split; reflexivity.
    + intros d1 d2. discriminate.
Qed.

(** The two failures of the service: the store refuses the write, and
    the manifest written, the table refuses the update. *)
Lemma C7_manifest_failures_witness :
  ((Manifest.handler repr_plain (manifest_env (Some throttled) None)
      event_after_failed_validation world_with_job_1).1
   = Py.Raise (Py.RuntimeError
       "Failed to write manifest to s3://bkt/proj1/_manifests/job-1.json: An error occurred (ProvisionedThroughputExceededException) when calling the PutObject operation: Rate exceeded")
   /\ (Manifest.handler repr_plain (manifest_env (Some throttled) None)
         event_after_failed_validation world_with_job_1).2
      = world_with_job_1)
  /\ ((Manifest.handler repr_plain (manifest_env None (Some throttled))
         event_after_failed_validation world_with_job_1).1
      = Py.Raise (Py.RuntimeError
          "Manifest written but DynamoDB update failed: An error occurred (ProvisionedThroughputExceededException) when calling the UpdateItem operation: Rate exceeded")
      /\ Manifest.jobs
           (Manifest.handler repr_plain (manifest_env None (Some throttled))
              event_after_failed_validation world_with_job_1).2
         = Manifest.jobs world_with_job_1
      /\ is_Some
           (Manifest.objects
              (Manifest.handler repr_plain (manifest_env None (Some throttled))
                 event_after_failed_validation world_with_job_1).2
            !! ("bkt", "proj1/_manifests/job-1.json"))).
Proof.
  split.
  - destruct (C7_manifest_failures repr_plain (manifest_env (Some throttled) None)
                event_after_failed_validation world_with_job_1) as (_ & _ & H).
    eassert (Hp : Manifest.prepare repr_plain (manifest_env (Some throttled) None)
                    event_after_failed_validation = Py.Ok _)
      by (vm_compute; reflexivity).
    destruct (H _ "bkt" Hp eq_refl) as (Hwrite & _ & _).
    destruct (Hwrite throttled eq_refl) as [Hr Hw].
    split; [exact Hr | exact Hw].
  - destruct (C7_manifest_failures repr_plain (manifest_env None (Some throttled))
                event_after_failed_validation world_with_job_1) as (_ & _ & H).
    eassert (Hp : Manifest.prepare repr_plain (manifest_env None (Some throttled))
                    event_after_failed_validation = Py.Ok _)
      by (vm_compute; reflexivity).
    destruct (H _ "bkt" Hp eq_refl) as (_ & Hupdate & _).
    destruct (Hupdate eq_refl
                (Py.ClientError "ProvisionedThroughputExceededException"
                                "Rate exceeded") eq_refl)
      as (Hr & Hj & Ho).
    split; [exact Hr |]. split; [exact Hj |].
    rewrite Ho. eexists. apply lookup_insert_eq.
Defined.

(** ** C10: the state a manifest declares *)

Lemma get_insert_ne (d : gmap string Py.value) k k' v :
  k ≠ k' -> Py.get (<[k := v]> d) k' = Py.get d k'.
Proof. intros H. unfold Py.get. now rewrite lookup_insert_ne. Qed.

(** A walk that does not start at the key changed sees no change. *)
Lemma get_nested_insert_ne (d : gmap string Py.value) k v k' rest :
  k ≠ k' ->
  Py.get_nested (Py.VMap (<[k := v]> d)) (k' :: rest)
  = Py.get_nested (Py.VMap d) (k' :: rest).
Proof. intros H. cbn [Py.get_nested]. now rewrite lookup_insert_ne. Qed.

(** A walk into a dict that goes on by another key than the one changed
    in it sees no change. *)
Lemma get_nested_inner_insert_ne (d inner : gmap string Py.value) k k2 v field rest :
  d !! k = Some (Py.VMap inner) ->
  k2 ≠ field ->
  Py.get_nested (Py.VMap (<[k := Py.VMap (<[k2 := v]> inner)]> d)) (k :: field :: rest)
  = Py.get_nested (Py.VMap d) (k :: field :: rest).
Proof.
  intros Hk Hne. cbn [Py.get_nested].
  now rewrite lookup_insert_eq, Hk, lookup_insert_ne.
Qed.

(** The verdict at the top of the input is not read. *)
Lemma prepare_ignores_flat_verdict repr e (event : gmap string Py.value) v :
  Manifest.prepare repr e (<["ok" := v]> event) = Manifest.prepare repr e event.
Proof.
  unfold Manifest.prepare. walk_paths.
  rewrite !get_nested_insert_ne by discriminate.
  rewrite !get_insert_ne by discriminate.
  reflexivity.
Qed.

(** The verdict in the result of the validation is not read. *)
Lemma prepare_ignores_nested_verdict repr e (event vr : gmap string Py.value) v :
  event !! "validate_result" = Some (Py.VMap vr) ->
  Manifest.prepare repr e (<["validate_result" := Py.VMap (<["ok" := v]> vr)]> event)
  = Manifest.prepare repr e event.
Proof.
  intros Hvr. unfold Manifest.prepare. walk_paths.
  rewrite !(get_nested_inner_insert_ne event vr "validate_result" "ok" v)
    by (exact Hvr || discriminate).
  rewrite !get_nested_insert_ne by discriminate.
  rewrite !get_insert_ne by discriminate.
  reflexivity.
Qed.

(** What the document of an accepted input holds. *)
Lemma prepare_manifest repr e event p :
  Manifest.prepare repr e event = Py.Ok p ->
  Manifest.manifest p !! "state" = Some validated_state
  /\ Manifest.manifest p !! "inventory"
     = Some (Py.por (Py.por (Py.get_in event "validate_result.inventory")
                            (Py.get event "inventory"))
                    (Py.VList [])).
Proof.
  unfold Manifest.prepare.
  destruct (negb (Py.truthy (Py.get event "job_id"))
            || negb (Py.truthy (Py.get event "project_code"))); [discriminate |].
  destruct (negb (Py.truthy _)); [destruct (Py.por _ _); discriminate |].
  destruct (Py.por (Py.por (Py.get_in event "impl.s3.prefix") _) _);
    try discriminate.
  destruct (Py.por (Py.por (Py.get_in event "validate_result.inventory") _) _);
    try discriminate.
  intros H. injection H as <-. split; reflexivity.
Qed.

(** What the handler adds to the store is the manifest of the input. *)
Lemma handler_objects repr e event w loc o :
  Manifest.objects (Manifest.handler repr e event w).2 !! loc = Some o ->
  Manifest.objects w !! loc ≠ Some o ->
  exists p b,
    Manifest.prepare repr e event = Py.Ok p
    /\ Manifest.out_bucket p = Py.VStr b
    /\ loc = (b, Manifest.manifest_key p)
    /\ o = Manifest.manifest_object p.
Proof.
  destruct (handler_reaches_write repr e event w)
    as [(p & b & Hp & Hb) | [x ->]]; [| cbn [snd]; congruence].
  rewrite (handler_cases repr e event w p b Hp Hb).
  destruct (Manifest.put_object_fault e) as [f|]; [cbn [snd]; congruence |].
  cbv zeta.
  assert (Hstore :
    <[(b, Manifest.manifest_key p) := Manifest.manifest_object p]>
      (Manifest.objects w) !! loc = Some o ->
    Manifest.objects w !! loc ≠ Some o ->
    exists p0 b0,
      Py.Ok p = Py.Ok p0 /\ Manifest.out_bucket p0 = Py.VStr b0
      /\ loc = (b0, Manifest.manifest_key p0)
      /\ o = Manifest.manifest_object p0).
  { intros Hnew Hold.
    destruct (decide ((b, Manifest.manifest_key p) = loc)) as [<- | Hne];
      [| rewrite lookup_insert_ne in Hnew by exact Hne; congruence].
    rewrite lookup_insert_eq in Hnew. injection Hnew as <-.
    now exists p, b. }
  rewrite <- Hp in Hstore.
  destruct (Dynamo.update_item _ _ _ _) as [jobs' | x]; [| destruct x];
    exact Hstore.
Qed.

(** C10: the manifest of every accepted input declares the state
    VALIDATED with the reason validation_succeeded, and an input without
    inventory gets the empty one; the object the handler stores at the key
    of the manifest has that document for its body, so the state VALIDATED
    and, without inventory, the empty inventory, and the content type
    application/json; whenever the handler returns, the object at the
    bucket and the key it returns is that manifest; every object the
    handler adds to the store, or replaces in it, is such a manifest; the
    verdict of the validation, at the top of the input or in the result of
    the validation, is not read.  An input is accepted when job id, project
    code and bucket are there, the prefix is a string and the inventory, if
    there is one, is a list. *)
Theorem C10_always_validated repr e event :
  (forall p, Manifest.prepare repr e event = Py.Ok p ->
     Manifest.manifest p !! "state" = Some validated_state
     /\ (Py.truthy (Py.get_in event "validate_result.inventory") = false ->
         Py.truthy (Py.get event "inventory") = false ->
         Manifest.manifest p !! "inventory" = Some (Py.VList []))
     /\ (forall w b,
           Manifest.out_bucket p = Py.VStr b ->
           Manifest.put_object_fault e = None ->
           exists o,
             Manifest.objects (Manifest.handler repr e event w).2
               !! (b, Manifest.manifest_key p) = Some o
             /\ Manifest.Body o = Manifest.manifest p
             /\ Manifest.ContentType o = "application/json"
             /\ Manifest.Body o !! "state" = Some validated_state
             /\ (Py.truthy (Py.get_in event "validate_result.inventory") = false ->
                 Py.truthy (Py.get event "inventory") = false ->
                 Manifest.Body o !! "inventory" = Some (Py.VList []))))
  /\ (forall w d,
        (Manifest.handler repr e event w).1 = Py.Ok d ->
        exists p b o,
          Manifest.prepare repr e event = Py.Ok p
          /\ d !! "manifest_bucket" = Some (Py.VStr b)
          /\ d !! "manifest_key" = Some (Py.VStr (Manifest.manifest_key p))
          /\ Manifest.objects (Manifest.handler repr e event w).2
               !! (b, Manifest.manifest_key p) = Some o
          /\ Manifest.Body o = Manifest.manifest p
          /\ Manifest.Body o !! "state" = Some validated_state)
  /\ (forall w loc o,
        Manifest.objects (Manifest.handler repr e event w).2 !! loc = Some o ->
        Manifest.objects w !! loc ≠ Some o ->
        Manifest.Body o !! "state" = Some validated_state
        /\ Manifest.ContentType o = "application/json"
        /\ exists p b,
             Manifest.prepare repr e event = Py.Ok p
             /\ Manifest.out_bucket p = Py.VStr b
             /\ loc = (b, Manifest.manifest_key p)
             /\ Manifest.Body o = Manifest.manifest p)
  /\ (forall v,
        Manifest.prepare repr e (<["ok" := v]> event) = Manifest.prepare repr e event)
  /\ (forall vr v,
        event !! "validate_result" = Some (Py.VMap vr) ->
        Manifest.prepare repr e
          (<["validate_result" := Py.VMap (<["ok" := v]> vr)]> event)
        = Manifest.prepare repr e event)
  /\ (Py.truthy (Py.get event "job_id") = true ->
      Py.truthy (Py.get event "project_code") = true ->
      Py.truthy (Py.por (Py.get_in event "impl.s3.bucket") (Py.get event "bucket"))
        = true ->
      (exists prefix,
         Py.por (Py.por (Py.get_in event "impl.s3.prefix") (Py.get event "folder_path"))
                (Py.get_in event "impl.s3.folder_path") = Py.VStr prefix) ->
      (exists l,
         Py.por (Py.por (Py.get_in event "validate_result.inventory")
                        (Py.get event "inventory"))
                (Py.VList []) = Py.VList l) ->
      exists p, Manifest.prepare repr e event = Py.Ok p).
Proof.
  split; [| split; [| split; [| split; [| split]]]].
  - intros p Hp.
    destruct (prepare_manifest repr e event p Hp) as [Hstate Hinv].
    assert (Hempty :
      Py.truthy (Py.get_in event "validate_result.inventory") = false ->
      Py.truthy (Py.get event "inventory") = false ->
      Manifest.manifest p !! "inventory" = Some (Py.VList [])).
    { intros H1 H2. rewrite Hinv. unfold Py.por. now rewrite H1, H2. }
    split; [exact Hstate |]. split; [exact Hempty |].
    intros w b Hb Hput.
    exists (Manifest.manifest_object p).
    split.
    + rewrite (handler_cases repr e event w p b Hp Hb), Hput. cbv zeta.
      destruct (Dynamo.update_item _ _ _ _) as [jobs' | x];
        [| destruct x]; apply lookup_insert_eq.
    + cbn [Manifest.manifest_object Manifest.Body Manifest.ContentType].
      repeat split; assumption.
  - intros w d.
    destruct (handler_reaches_write repr e event w) as [(p & b & Hp & Hb) | Hw].
    2: { destruct Hw as [x ->]. discriminate. }
    rewrite (handler_cases repr e event w p b Hp Hb).
    destruct (Manifest.put_object_fault e) as [f|]; [discriminate |].
    cbv zeta.
    destruct (Dynamo.update_item _ _ _ _) as [jobs' | x];
      [| destruct x; discriminate].
    cbn [fst snd Manifest.objects]. intros Hd. injection Hd as <-.
    destruct (prepare_manifest repr e event p Hp) as [Hstate _].
    exists p, b, (Manifest.manifest_object p).
    split; [exact Hp |]. rewrite Hb.
    split; [reflexivity |]. split; [reflexivity |].
    split; [apply lookup_insert_eq |]. split; [reflexivity | exact Hstate].
  - intros w loc o Hnew Hold.
    destruct (handler_objects repr e event w loc o Hnew Hold)
      as (p & b & Hp & Hb & -> & ->).
    destruct (prepare_manifest repr e event p Hp) as [Hstate _].
    split; [exact Hstate |]. split; [reflexivity |].
    now exists p, b.
  - apply prepare_ignores_flat_verdict.
  - apply prepare_ignores_nested_verdict.
  - intros Hj Hc Hb [prefix Hprefix] [l Hl].
    unfold Manifest.prepare.
    rewrite Hj, Hc, Hb, Hprefix, Hl. cbn [negb orb].
    eexists. reflexivity.
Qed.

(** The input after a validation that failed: the object stored at the
    key of the manifest declares the state VALIDATED and the empty
    inventory. *)
Lemma C10_always_validated_witness :
  exists o,
    Manifest.objects
      (Manifest.handler repr_plain (manifest_env None None)
         event_after_failed_validation world_with_job_1).2
      !! ("bkt", "proj1/_manifests/job-1.json") = Some o
    /\ Manifest.Body o !! "state"
       = Some (Py.VMap (Py.dict [ ("name", Py.VStr "VALIDATED")
                                ; ("reason", Py.VStr "validation_succeeded") ]))
    /\ Manifest.Body o !! "inventory" = Some (Py.VList [])
    /\ Manifest.ContentType o = "application/json".
Proof.
  destruct (C10_always_validated repr_plain (manifest_env None None)
              event_after_failed_validation) as (Hdoc & _ & _ & _ & _ & Haccepted).
  destruct Haccepted as [p Hp].
  - reflexivity.
  - reflexivity.
  - reflexivity.
  - exists "proj1/2024". reflexivity.
  - exists []. reflexivity.
  - destruct (Hdoc p Hp) as (_ & _ & Hstored).
    assert (Hkey : Manifest.manifest_key p = "proj1/_manifests/job-1.json"
                   /\ Manifest.out_bucket p = Py.VStr "bkt").
    { vm_compute in Hp. injection Hp as <-. split; reflexivity. }
    destruct Hkey as [Hkey Hb].
    destruct (Hstored world_with_job_1 "bkt" Hb eq_refl)
      as (o & Ho & _ & Htype & Hstate & Hinv).
    rewrite Hkey in Ho.
    exists o. split; [exact Ho |]. split; [exact Hstate |].
    split; [apply Hinv; reflexivity | exact Htype].
Defined.

(** The manifest written after a validation that failed. *)
Example manifest_after_failed_validation :
  Manifest.objects
    (Manifest.handler repr_plain (manifest_env None None)
       event_after_failed_validation world_with_job_1).2
    !! ("bkt", "proj1/_manifests/job-1.json")
  = Some {| Manifest.Body :=
              Py.dict
                [ ("manifest_version", Py.VStr "v1.0")
                ; ("job_id", Py.VStr "job-1")
                ; ("project_code", Py.VStr "proj1")
                ; ("ruleset_version", Py.VStr "v1.0")
                ; ("ingest_folder", Py.VStr "s3://bkt/proj1/2024/")
                ; ("impl", Py.VMap (Py.dict
                    [ ("s3", Py.VMap (Py.dict [ ("bucket", Py.VStr "bkt")
                                              ; ("prefix", Py.VStr "proj1/2024/") ])) ]))
                ; ("state", validated_state)
                ; ("created_at", Py.VStr "2024-05-01T10:00:12Z")
                ; ("validated_at", Py.VStr "2024-05-01T10:00:12Z")
                ; ("inventory", Py.VList [])
                ; ("stats", Py.VMap ∅) ];
            Manifest.ContentType := "application/json" |}.
Proof. vm_compute. reflexivity. Qed.

(* ===================================================================== *)
(** * Part III.  The rest of the handlers                                 *)
(* ===================================================================== *)

(** ** The intake, path by path *)

Lemma code_name_not_conditional (c : Dynamo.fault_code) :
  String.eqb (Dynamo.code_name c) "ConditionalCheckFailedException" = false.
Proof. destruct c; reflexivity. Qed.

(** The handler, once its checks are passed, by what the conditional
    create answers. *)
Lemma handler_accepted unquote_plus repr e event w bucket object_key :
  intake_accepts unquote_plus e event bucket object_key ->
  Intake.handler unquote_plus repr e event w
  = match Intake.put_item_fault e with
    | Some f => (Dynamo.raise_fault f, w)
    | None =>
        match Intake.jobs w !! job_id_of object_key with
        | Some _ =>
            Intake.on_duplicate e (job_id_of object_key) object_key
              (job_item_for repr e bucket object_key) w
        | None =>
            Intake.on_created e bucket (job_id_of object_key) object_key
              (folder_path_of object_key)
              (Py.split_first "/" (folder_path_of object_key))
              (job_item_for repr e bucket object_key)
              {| Intake.jobs :=
                   <[job_id_of object_key := job_item_for repr e bucket object_key]>
                     (Intake.jobs w);
                 Intake.executions := Intake.executions w |}
        end
    end.
Proof.
  intros ((arn & Harn & Hne) & Hex & Hend & Hin).
  unfold Intake.handler.
  rewrite Harn, Hex, Hend, Hin. cbn [negb].
  destruct arn as [|c arn']; [congruence |].
  fold (folder_path_of object_key). fold (job_id_of object_key).
  fold (job_item_for repr e bucket object_key).
  rewrite put_item_sent by reflexivity. unfold Dynamo.put_item_request.
  destruct (Intake.put_item_fault e) as [f|].
  - unfold Dynamo.raise_fault. now rewrite code_name_not_conditional.
  - unfold job_item_for at 1. rewrite job_item_key.
    destruct (Intake.jobs w !! job_id_of object_key); reflexivity.
Qed.

Lemma on_duplicate_world e jid object_key item w :
  (Intake.on_duplicate e jid object_key item w).2 = w
  \/ exists rec',
       (Intake.on_duplicate e jid object_key item w).2
       = {| Intake.jobs := <[jid := rec']> (Intake.jobs w);
            Intake.executions := Intake.executions w |}.
Proof.
  unfold Intake.on_duplicate.
  rewrite update_item_sent by reflexivity. unfold Dynamo.update_item_request.
  destruct (Intake.update_item_fault e); [now left |].
  cbn [Dynamo.apply_sets Dynamo.eval_operand]. right. eexists. reflexivity.
Qed.

Lemma on_created_world e bucket jid object_key folder project item w :
  (Intake.on_created e bucket jid object_key folder project item w).2 = w
  \/ (exists rec',
        (Intake.on_created e bucket jid object_key folder project item w).2
        = {| Intake.jobs := <[jid := rec']> (Intake.jobs w);
             Intake.executions := Intake.executions w |})
  \/ (exists input,
        (Intake.on_created e bucket jid object_key folder project item w).2
        = {| Intake.jobs := Intake.jobs w;
             Intake.executions := Intake.executions w ++ [(jid, input)] |}).
Proof.
  unfold Intake.on_created.
  destruct (Intake.start_execution_outcome e) as [arn | msg | f].
  - right. right. eexists. reflexivity.
  - now left.
  - rewrite update_item_sent by reflexivity. unfold Dynamo.update_item_request.
    destruct (Intake.update_item_fault e); [now left |].
    cbn [Dynamo.apply_sets Dynamo.eval_operand]. right. left.
    eexists. reflexivity.
Qed.

(** An invocation changes nothing, or it has passed the checks and then
    it changes no record but the one of the job of its marker and starts
    at most one execution, named by that job. *)
Theorem intake_touches_one_job unquote_plus repr e event w :
  let w' := (Intake.handler unquote_plus repr e event w).2 in
  w' = w
  \/ exists bucket object_key,
       intake_accepts unquote_plus e event bucket object_key
       /\ (forall k, k ≠ job_id_of object_key ->
             Intake.jobs w' !! k = Intake.jobs w !! k)
       /\ (Intake.executions w' = Intake.executions w
           \/ exists input,
                Intake.executions w'
                = Intake.executions w ++ [(job_id_of object_key, input)]).
Proof.
  cbv zeta.
  destruct (Intake.STATE_MACHINE_ARN e) as [[|c arn]|] eqn:Harn;
    try (left; unfold Intake.handler; now rewrite Harn).
  destruct (Intake.extract unquote_plus event) as [[bucket object_key] | x] eqn:Hex.
  2: { left. unfold Intake.handler. rewrite Harn, Hex. now destruct x. }
  destruct (Py.endswith object_key "_INGEST_DONE") eqn:Hend.
  2: { left. unfold Intake.handler. now rewrite Harn, Hex, Hend. }
  destruct (Py.contains "/" object_key) eqn:Hin.
  2: { left. unfold Intake.handler. now rewrite Harn, Hex, Hend, Hin. }
  assert (Hacc : intake_accepts unquote_plus e event bucket object_key).
  { split; [| now repeat split]. eexists. split; [exact Harn | discriminate]. }
  rewrite (handler_accepted unquote_plus repr e event w bucket object_key Hacc).
  destruct (Intake.put_item_fault e); [now left |].
  set (jid := job_id_of object_key).
  destruct (Intake.jobs w !! jid) eqn:Hrec.
  - destruct (on_duplicate_world e jid object_key
                (job_item_for repr e bucket object_key) w) as [-> | [rec' ->]];
      [now left |].
    right. exists bucket, object_key. split; [exact Hacc |].
    cbn [Intake.jobs Intake.executions]. split; [| now left].
    intros k Hk. now rewrite lookup_insert_ne.
  - right. exists bucket, object_key. split; [exact Hacc |].
    match goal with
    | |- context [Intake.on_created ?e ?b ?j ?k ?f ?p ?i ?w0] =>
        destruct (on_created_world e b j k f p i w0) as [-> | [[rec' ->] | [input ->]]]
    end; cbn [Intake.jobs Intake.executions].
    + split; [| now left]. intros k Hk. now rewrite lookup_insert_ne.
    + split; [| now left]. intros k Hk. now rewrite !lookup_insert_ne.
    + split; [| right; now exists input].
      intros k Hk. now rewrite lookup_insert_ne.
Qed.

Lemma first_marker_created unquote_plus repr e event w bucket object_key arn :
  intake_accepts unquote_plus e event bucket object_key ->
  Intake.put_item_fault e = None ->
  Intake.jobs w !! job_id_of object_key = None ->
  Intake.start_execution_outcome e = Intake.Started arn ->
  let out := Intake.handler unquote_plus repr e event w in
  let item := job_item_for repr e bucket object_key in
  (exists d, out.1 = Py.Ok d
     /\ d !! "status" = Some (Py.VStr "job_created_and_execution_started")
     /\ d !! "job_id" = Some (Py.VStr (job_id_of object_key))
     /\ d !! "execution_arn" = Some arn)
  /\ Intake.jobs out.2 = <[job_id_of object_key := item]> (Intake.jobs w)
  /\ item !! "state" = Some (Py.VStr "CREATED")
  /\ item !! "project_code"
     = Some (Py.VStr (Py.split_first "/" (folder_path_of object_key)))
  /\ item !! "ingest_folder"
     = Some (Py.VStr ("s3://" +:+ Py.format repr bucket +:+ "/"
                      +:+ folder_path_of object_key))
  /\ item !! "created_at" = Some (Py.VStr (Intake.now_iso e 0))
  /\ item !! "last_seen_object_key" = Some (Py.VStr object_key)
  /\ exists input,
       Intake.executions out.2
       = Intake.executions w ++ [(job_id_of object_key, input)]
       /\ input !! "job_id" = Some (Py.VStr (job_id_of object_key))
       /\ input !! "bucket" = Some bucket
       /\ input !! "object_key" = Some (Py.VStr object_key)
       /\ input !! "folder_path" = Some (Py.VStr (folder_path_of object_key)).
Proof.
  intros Hacc Hput Hrec Hstart. cbv zeta.
  rewrite (handler_accepted unquote_plus repr e event w bucket object_key Hacc).
  rewrite Hput, Hrec. unfold Intake.on_created. rewrite Hstart.
  cbn [fst snd Intake.jobs Intake.executions].
  set (jid := job_id_of object_key). clearbody jid.
  split; [eexists; split; [reflexivity |]; repeat split |].
  split; [reflexivity |].
  repeat (split; [reflexivity |]).
  eexists. split; [reflexivity |]. repeat split.
Qed.

(** The first marker of a folder: the record is created in the state
    CREATED with the project, the folder and the marker seen, and one
    execution named by the job id is started on the fields derived. *)
Theorem intake_first_marker unquote_plus repr e event w bucket object_key arn :
  intake_accepts unquote_plus e event bucket object_key ->
  Intake.put_item_fault e = None ->
  Intake.jobs w !! job_id_of object_key = None ->
  Intake.start_execution_outcome e = Intake.Started arn ->
  let out := Intake.handler unquote_plus repr e event w in
  let item := job_item_for repr e bucket object_key in
  (exists d, out.1 = Py.Ok d
     /\ d !! "status" = Some (Py.VStr "job_created_and_execution_started")
     /\ d !! "job_id" = Some (Py.VStr (job_id_of object_key))
     /\ d !! "execution_arn" = Some arn)
  /\ Intake.jobs out.2 = <[job_id_of object_key := item]> (Intake.jobs w)
  /\ item !! "state" = Some (Py.VStr "CREATED")
  /\ item !! "project_code"
     = Some (Py.VStr (Py.split_first "/" (folder_path_of object_key)))
  /\ item !! "ingest_folder"
     = Some (Py.VStr ("s3://" +:+ Py.format repr bucket +:+ "/"
                      +:+ folder_path_of object_key))
  /\ item !! "created_at" = Some (Py.VStr (Intake.now_iso e 0))
  /\ item !! "last_seen_object_key" = Some (Py.VStr object_key)
  /\ exists input,
       Intake.executions out.2
       = Intake.executions w ++ [(job_id_of object_key, input)]
       /\ input !! "job_id" = Some (Py.VStr (job_id_of object_key))
       /\ input !! "bucket" = Some bucket
       /\ input !! "object_key" = Some (Py.VStr object_key)
       /\ input !! "folder_path" = Some (Py.VStr (folder_path_of object_key)).
Proof. apply first_marker_created. Qed.

(** The marker of the scenario on an empty table. *)
Lemma intake_first_marker_witness :
  Intake.jobs
    (Intake.handler unquote_plain repr_plain
       (intake_env_with (Intake.Started (Py.VStr "arn:execution")))
       (notification "bkt" marker_key_2024) fresh_world).2
  = {[ job_id_of marker_key_2024 :=
         job_item_for repr_plain
           (intake_env_with (Intake.Started (Py.VStr "arn:execution")))
           (Py.VStr "bkt") marker_key_2024 ]}.
Proof.
  destruct (intake_first_marker unquote_plain repr_plain
              (intake_env_with (Intake.Started (Py.VStr "arn:execution")))
              (notification "bkt" marker_key_2024) fresh_world
              (Py.VStr "bkt") marker_key_2024 (Py.VStr "arn:execution"))
    as (_ & H & _).
  - split; [eexists; split; [reflexivity | discriminate] |].
    repeat split; reflexivity.
  - reflexivity.
  - reflexivity.
  - reflexivity.
  - exact H.
Defined.

(** A notification without records, with an empty list of records or
    with a record that names no object store is answered with the status
    error, and nothing is written. *)
Theorem intake_malformed_notification unquote_plus repr e
    (m : gmap string Py.value) w :
  (exists arn, Intake.STATE_MACHINE_ARN e = Some arn /\ arn ≠ "") ->
  (m !! "Records" = None
   \/ m !! "Records" = Some (Py.VList [])
   \/ exists (record : gmap string Py.value) rest,
        m !! "Records" = Some (Py.VList (Py.VMap record :: rest))
        /\ record !! "s3" = None) ->
  Intake.handler unquote_plus repr e (Py.VMap m) w
  = (Py.Ok (Py.dict [ ("status", Py.VStr "error")
                    ; ("message", Py.VStr "Invalid event structure") ]), w).
Proof.
  intros (arn & Harn & Hne) H. unfold Intake.handler. rewrite Harn.
  destruct arn as [|c arn']; [congruence |].
  unfold Intake.extract. cbn [Py.getitem].
  destruct H as [-> | [-> | (record & rest & -> & Hs3)]]; cbn [Py.getitem0 Py.getitem];
    [reflexivity | reflexivity |].
  now rewrite Hs3.
Qed.

(** A notification without records. *)
Lemma intake_malformed_notification_witness :
  (Intake.handler unquote_plain repr_plain intake_env (Py.VMap ∅) fresh_world).2
  = fresh_world.
Proof.
  rewrite (intake_malformed_notification unquote_plain repr_plain intake_env ∅
             fresh_world).
  - reflexivity.
  - eexists. split; [reflexivity | discriminate].
  - left. reflexivity.
Defined.

(** ** The intake over repeated deliveries *)

(** Deliveries of a marker whose record exists are all answered as
    duplicates; they start nothing and change two fields of the record. *)
Lemma deliver_duplicates unquote_plus repr event bucket object_key es :
  forall w rec,
    Forall (fun e => intake_accepts unquote_plus e event bucket object_key
                     /\ table_answers e) es ->
    Intake.jobs w !! job_id_of object_key = Some rec ->
    let out := deliver unquote_plus repr es event w in
    Forall (is_duplicate (job_id_of object_key)) out.1
    /\ length out.1 = length es
    /\ Intake.executions out.2 = Intake.executions w
    /\ exists rec',
         Intake.jobs out.2 !! job_id_of object_key = Some rec'
         /\ forall a, a ≠ "last_seen_at" -> a ≠ "last_seen_object_key" ->
              rec' !! a = rec !! a.
Proof.
  induction es as [|e es IH]; intros w rec Hes Hrec; cbv zeta.
  - cbn [deliver fst snd]. split; [constructor |]. split; [reflexivity |].
    split; [reflexivity |]. exists rec. split; [exact Hrec | reflexivity].
  - apply Forall_cons_1 in Hes as [[Hacc [Hput Hupd]] Hes].
    destruct Hacc as ((arn & Harn & Hne) & Hex & Hend & Hin).
    cbn [deliver fst snd].
    rewrite (handler_on_existing unquote_plus repr e event w bucket object_key
               arn rec Harn Hne Hex Hend Hin Hput Hrec).
    rewrite Hupd. cbn [fst snd].
    match goal with
    | |- context [deliver _ _ es event ?w1] =>
        destruct (IH w1 _ Hes (lookup_insert_eq _ _ _))
          as (Hdup & Hlen & Hexec & rec' & Hrec' & Hframe)
    end.
    split.
    { constructor; [| exact Hdup].
      eexists. split; [reflexivity |]. split; reflexivity. }
    split; [cbn [length]; now rewrite Hlen |].
    split; [exact Hexec |].
    exists rec'. split; [exact Hrec' |].
    intros a Ha Hb. rewrite (Hframe a Ha Hb). now rewrite !lookup_insert_ne.
Qed.

(** However often a marker is delivered, the job is started once: the
    first delivery creates the record and starts the execution, every
    later one is answered as a duplicate, and the record stays CREATED
    with the time of its creation. *)
Theorem intake_exactly_once unquote_plus repr event bucket object_key e0 es w arn :
  intake_accepts unquote_plus e0 event bucket object_key ->
  table_answers e0 ->
  Intake.start_execution_outcome e0 = Intake.Started arn ->
  Intake.jobs w !! job_id_of object_key = None ->
  Forall (fun e => intake_accepts unquote_plus e event bucket object_key
                   /\ table_answers e) es ->
  let out := deliver unquote_plus repr (e0 :: es) event w in
  (exists input,
     Intake.executions out.2
     = Intake.executions w ++ [(job_id_of object_key, input)])
  /\ (exists first rest,
        out.1 = first :: rest /\ succeeded first
        /\ Forall (is_duplicate (job_id_of object_key)) rest
        /\ length rest = length es)
  /\ exists rec,
       Intake.jobs out.2 !! job_id_of object_key = Some rec
       /\ rec !! "state" = Some (Py.VStr "CREATED")
       /\ rec !! "created_at" = Some (Py.VStr (Intake.now_iso e0 0)).
Proof.
  intros Hacc [Hput _] Hstart Hrec Hes. cbv zeta.
  destruct (first_marker_created unquote_plus repr e0 event w bucket object_key arn
              Hacc Hput Hrec Hstart)
    as ((d & Hd & _) & Hjobs & Hstate & _ & _ & Hcreated & _ & input & Hexec & _).
  cbn [deliver fst snd].
  assert (Hrec1 : Intake.jobs (Intake.handler unquote_plus repr e0 event w).2
                    !! job_id_of object_key
                  = Some (job_item_for repr e0 bucket object_key)).
  { rewrite Hjobs. apply lookup_insert_eq. }
  destruct (deliver_duplicates unquote_plus repr event bucket object_key es
              _ _ Hes Hrec1) as (Hdup & Hlen & Hexec' & rec' & Hrec' & Hframe).
  split; [exists input; now rewrite Hexec', Hexec |].
  split.
  { eexists _, _. split; [reflexivity |].
    split; [exists d; exact Hd |]. split; assumption. }
  exists rec'. split; [exact Hrec' |].
  rewrite !Hframe by discriminate. split; assumption.
Qed.

(** A concrete environment accepts a concrete notification. *)
Ltac accepted :=
  split; [eexists; split; [reflexivity | discriminate] | repeat split; reflexivity].

(** Two more deliveries after the first. *)
Lemma intake_exactly_once_witness :
  exists input,
    Intake.executions
      (deliver unquote_plain repr_plain
         [ intake_env_with (Intake.Started (Py.VStr "arn:execution"))
         ; intake_env; intake_env ]
         (notification "bkt" marker_key_2024) fresh_world).2
    = [(job_id_of marker_key_2024, input)].
Proof.
  destruct (intake_exactly_once unquote_plain repr_plain
              (notification "bkt" marker_key_2024) (Py.VStr "bkt") marker_key_2024
              (intake_env_with (Intake.Started (Py.VStr "arn:execution")))
              [intake_env; intake_env] fresh_world (Py.VStr "arn:execution"))
    as ([input Hexec] & _).
  - accepted.
  - split; reflexivity.
  - reflexivity.
  - reflexivity.
  - repeat (apply List.Forall_cons; [split; [accepted | split; reflexivity] |]).
    apply List.Forall_nil.
  - exists input. exact Hexec.
Defined.

(** A start that fails leaves the record in the state ERROR_STARTING with
    the error, and raises the error; the marker delivered again is then a
    duplicate: no later delivery starts the job, whatever the orchestrator
    would answer, and the record stays in ERROR_STARTING. *)
Theorem intake_failed_start_not_retried unquote_plus repr event bucket object_key
    e0 es w f :
  intake_accepts unquote_plus e0 event bucket object_key ->
  table_answers e0 ->
  Intake.start_execution_outcome e0 = Intake.StartFault f ->
  Intake.jobs w !! job_id_of object_key = None ->
  Forall (fun e => intake_accepts unquote_plus e event bucket object_key
                   /\ table_answers e) es ->
  let out := deliver unquote_plus repr (e0 :: es) event w in
  Intake.executions out.2 = Intake.executions w
  /\ (exists rest,
        out.1 = Dynamo.raise_fault f :: rest
        /\ Forall (is_duplicate (job_id_of object_key)) rest)
  /\ exists rec,
       Intake.jobs out.2 !! job_id_of object_key = Some rec
       /\ rec !! "state" = Some (Py.VStr "ERROR_STARTING")
       /\ rec !! "start_error"
          = Some (Py.VMap (Py.dict
               [ ("Code", Py.VStr (Dynamo.code_name (Dynamo.fcode f)))
               ; ("Message", Py.VStr (Dynamo.fmessage f)) ])).
Proof.
  intros Hacc [Hput Hupd] Hstart Hrec Hes. cbv zeta.
  cbn [deliver fst snd].
  rewrite (handler_accepted unquote_plus repr e0 event w bucket object_key Hacc).
  rewrite Hput, Hrec. unfold Intake.on_created. rewrite Hstart.
  rewrite update_item_sent by reflexivity.
  unfold Dynamo.update_item_request. rewrite Hupd.
  cbn [Intake.jobs Intake.executions]. rewrite lookup_insert_eq.
  cbn [Dynamo.apply_sets Dynamo.eval_operand fst snd].
  match goal with
  | |- context [deliver _ _ es event ?w1] =>
      destruct (deliver_duplicates unquote_plus repr event bucket object_key es
                  w1 _ Hes (lookup_insert_eq _ _ _))
        as (Hdup & _ & Hexec & rec' & Hrec' & Hframe)
  end.
  split; [exact Hexec |].
  split; [eexists; split; [reflexivity | exact Hdup] |].
  exists rec'. split; [exact Hrec' |].
  rewrite !Hframe by discriminate.
  split.
  - rewrite !lookup_insert_ne by discriminate. apply lookup_insert_eq.
  - rewrite lookup_insert_ne by discriminate. apply lookup_insert_eq.
Qed.

(** A start refused, and the marker delivered again to an orchestrator
    that would start the job. *)
Lemma intake_failed_start_not_retried_witness :
  Intake.executions
    (deliver unquote_plain repr_plain
       [ intake_env_with (Intake.StartFault throttled); intake_env ]
       (notification "bkt" marker_key_2024) fresh_world).2 = [].
Proof.
  destruct (intake_failed_start_not_retried unquote_plain repr_plain
              (notification "bkt" marker_key_2024) (Py.VStr "bkt") marker_key_2024
              (intake_env_with (Intake.StartFault throttled))
              [intake_env] fresh_world throttled) as (Hexec & _).
  - accepted.
  - split; reflexivity.
  - reflexivity.
  - reflexivity.
  - repeat (apply List.Forall_cons; [split; [accepted | split; reflexivity] |]).
    apply List.Forall_nil.
  - exact Hexec.
Defined.

(** ** The folder and the project of a marker *)

Lemma append_nil_r (a : string) : a +:+ "" = a.
Proof.
  induction a as [|x a IH]; [reflexivity |].
  change (String x (a +:+ "") = String x a). now rewrite IH.
Qed.

Lemma before_last_spec (sep : ascii) (s p : string) :
  Py.before_last sep s = Some p ->
  exists name, s = p +:+ String sep name /\ Py.contains sep name = false.
Proof.
  revert p. induction s as [|x s IH]; intros p; cbn [Py.before_last];
    [discriminate |].
  destruct (Py.before_last sep s) as [q|] eqn:Hq.
  - intros H. injection H as <-.
    destruct (IH q eq_refl) as (name & -> & Hname).
    exists name. split; [reflexivity | exact Hname].
  - destruct (Ascii.eqb x sep) eqn:E; [| discriminate].
    intros H. injection H as <-. apply Ascii.eqb_eq in E. subst x.
    exists s. split; [reflexivity |].
    clear IH. induction s as [|y s IHs]; [reflexivity |].
    cbn [Py.before_last] in Hq. cbn [Py.contains].
    destruct (Py.before_last sep s); [discriminate |].
    destruct (Ascii.eqb y sep); [discriminate |]. now apply IHs.
Qed.

Lemma before_last_none (sep : ascii) (s : string) :
  Py.before_last sep s = None <-> Py.contains sep s = false.
Proof.
  induction s as [|x s IH]; cbn [Py.before_last Py.contains]; [tauto |].
  destruct (Py.before_last sep s) as [q|].
  - split; [discriminate |]. intros H.
    apply orb_false_elim in H as [_ H]. apply IH in H. discriminate.
  - destruct IH as [IH _]. rewrite (IH eq_refl).
    destruct (Ascii.eqb x sep); split; (discriminate || reflexivity).
Qed.

Lemma split_first_spec (sep : ascii) (s : string) :
  Py.contains sep s = true ->
  exists rest, s = Py.split_first sep s +:+ String sep rest.
Proof.
  induction s as [|x s IH]; cbn [Py.contains Py.split_first]; [discriminate |].
  destruct (Ascii.eqb x sep) eqn:E.
  - intros _. apply Ascii.eqb_eq in E. subst x. exists s. reflexivity.
  - cbn [orb]. intros H. destruct (IH H) as [rest Hrest].
    exists rest.
    change (String x s = String x (Py.split_first sep s +:+ String sep rest)).
    now rewrite <- Hrest.
Qed.

(** [split(sep)[0]] and [split(sep, 1)[0]] are one string. *)
Lemma split_head_first (sep : ascii) (s : string) :
  CreateJob.split_head sep s = Py.split_first sep s.
Proof.
  unfold CreateJob.split_head.
  induction s as [|x s IH]; cbn [Py.split Py.split_first]; [reflexivity |].
  destruct (Ascii.eqb x sep); [reflexivity |].
  destruct (Py.split sep s); now rewrite <- IH.
Qed.

(** The folder of a marker that lies in a folder is the key without its
    last segment: it ends with the separator, the key is the folder
    followed by a name without separator, and the project code is the
    first segment of the key, followed in the folder by the separator. *)
Theorem intake_folder_of_marker (object_key : string) :
  Py.contains "/" object_key = true ->
  (exists name,
     object_key = folder_path_of object_key +:+ name
     /\ Py.contains "/" name = false)
  /\ (exists parent, folder_path_of object_key = parent +:+ "/")
  /\ Py.split_first "/" (folder_path_of object_key) = Py.split_first "/" object_key
  /\ Py.contains "/" (Py.split_first "/" (folder_path_of object_key)) = false
  /\ exists rest,
       folder_path_of object_key
       = Py.split_first "/" (folder_path_of object_key) +:+ "/" +:+ rest.
Proof.
  intros Hin. unfold folder_path_of, Py.rsplit_first.
  destruct (Py.before_last "/" object_key) as [p|] eqn:Hp.
  2: { apply before_last_none in Hp. congruence. }
  destruct (before_last_spec "/" object_key p Hp) as (name & Hkey & Hname).
  assert (Hfolder : Py.contains "/" (p +:+ "/") = true).
  { clear. induction p as [|x p IH]; simpl; [reflexivity |].
    rewrite IH. apply orb_true_r. }
  assert (Hproject : Py.split_first "/" (p +:+ "/") = Py.split_first "/" object_key).
  { rewrite Hkey. clear.
    induction p as [|x p IH]; simpl; [reflexivity |].
    destruct (Ascii.eqb x "/"); [reflexivity | now f_equal]. }
  split; [exists name; split; [| exact Hname] |].
  { rewrite append_assoc. exact Hkey. }
  split; [now exists p |].
  split; [exact Hproject |].
  split; [apply split_first_no_sep |].
  apply (split_first_spec "/" (p +:+ "/") Hfolder).
Qed.

(** The marker of the scenario. *)
Lemma intake_folder_of_marker_witness :
  exists name, marker_key_2024 = folder_path_of marker_key_2024 +:+ name
               /\ Py.contains "/" name = false.
Proof.
  destruct (intake_folder_of_marker marker_key_2024) as [H _].
  - reflexivity.
  - exact H.
Defined.

(** ** The first intake *)

Lemma create_job_item_key repr bucket folder_path project_code job_id ts :
  CreateJob.job_item_of repr bucket folder_path project_code job_id ts
    !! "job_id" = Some (Py.VStr job_id).
Proof. reflexivity. Qed.

(** The handler on a marker, by what the conditional write finds. *)
Lemma create_job_on_marker repr e event jobs bucket object_key :
  CreateJob.extract event = Py.Ok (bucket, Py.VStr object_key) ->
  Py.endswith object_key "_INGEST_DONE" = true ->
  CreateJob.put_item_fault e = None ->
  CreateJob.handler repr e event jobs
  = match jobs !! job_id_of object_key with
    | Some _ =>
        (Py.Ok (Py.dict [ ("status", Py.VStr "job_already_exists")
                        ; ("job_id", Py.VStr (job_id_of object_key)) ]), jobs)
    | None =>
        (Py.Ok (Py.dict [ ("status", Py.VStr "job_created")
                        ; ("job_id", Py.VStr (job_id_of object_key)) ]),
         <[job_id_of object_key :=
             CreateJob.job_item_of repr bucket (folder_path_of object_key)
               (Py.split_first "/" (folder_path_of object_key))
               (job_id_of object_key)
               (CreateJob.utcnow_isoformat e +:+ "Z")]> jobs)
    end.
Proof.
  intros Hex Hend Hput. unfold CreateJob.handler.
  rewrite Hex, Hend. cbn [negb].
  fold (folder_path_of object_key). rewrite split_head_first.
  change (CreateJob.generate_job_id (Py.split_first "/" (folder_path_of object_key))
            (folder_path_of object_key)) with (job_id_of object_key).
  rewrite put_item_sent by reflexivity.
  unfold Dynamo.put_item_request. rewrite Hput, create_job_item_key.
  destruct (jobs !! job_id_of object_key); reflexivity.
Qed.




(** A key that decoding changes: the id of the key as it is carried is
    not the id of the key decoded. *)
Example encoded_key_other_id :
  job_id_of "proj1/2024+q1/_INGEST_DONE" ≠ job_id_of "proj1/2024 q1/_INGEST_DONE".
Proof. vm_compute. discriminate. Qed.

(** The first intake has no check for a folder: a marker at the root of
    the bucket gets a job whose folder is the key followed by the
    separator and whose project is the key, where the gateway ignores it
    and writes nothing. *)
Theorem create_job_root_marker unquote_plus repr e e' event w bucket object_key :
  CreateJob.extract event = Py.Ok (bucket, Py.VStr object_key) ->
  CreateJob.put_item_fault e = None ->
  (exists arn, Intake.STATE_MACHINE_ARN e' = Some arn /\ arn ≠ "") ->
  Intake.extract unquote_plus event = Py.Ok (bucket, object_key) ->
  Py.endswith object_key "_INGEST_DONE" = true ->
  Py.contains "/" object_key = false ->
  Intake.jobs w !! job_id_of object_key = None ->
  folder_path_of object_key = object_key +:+ "/"
  /\ (exists rec,
        (CreateJob.handler repr e event (Intake.jobs w)).2 !! job_id_of object_key
        = Some rec
        /\ rec !! "project_code" = Some (Py.VStr object_key)
        /\ rec !! "ingest_folder"
           = Some (Py.VStr ("s3://" +:+ Py.format repr bucket +:+ "/"
                            +:+ object_key +:+ "/")))
  /\ Intake.handler unquote_plus repr e' event w
     = (Py.Ok (Py.dict [ ("status", Py.VStr "ignored")
                       ; ("reason", Py.VStr "file_in_root") ]), w).
Proof.
  intros Hex Hput (arn & Harn & Hne) Hex' Hend Hroot Hnone.
  assert (Hfolder : folder_path_of object_key = object_key +:+ "/").
  { unfold folder_path_of, Py.rsplit_first.
    apply before_last_none in Hroot. now rewrite Hroot. }
  assert (Hproject : Py.split_first "/" (object_key +:+ "/") = object_key).
  { rewrite (split_first_app "/" object_key "/" Hroot).
    change (Py.split_first "/" "/") with "". apply append_nil_r. }
  split; [exact Hfolder |]. split.
  - rewrite (create_job_on_marker repr e event _ bucket object_key Hex Hend Hput).
    rewrite Hnone. cbn [snd]. eexists. split; [apply lookup_insert_eq |].
    rewrite Hfolder, Hproject. split; reflexivity.
  - unfold Intake.handler. rewrite Harn, Hex', Hend, Hroot.
    destruct arn; [congruence | reflexivity].
Qed.

(** A marker at the root of the bucket. *)
Lemma create_job_root_marker_witness :
  folder_path_of "_INGEST_DONE" = "_INGEST_DONE/".
Proof.
  destruct (create_job_root_marker unquote_plain repr_plain create_job_env intake_env
              (notification "bkt" "_INGEST_DONE") fresh_world
              (Py.VStr "bkt") "_INGEST_DONE") as [H _].
  - reflexivity.
  - reflexivity.
  - eexists. split; [reflexivity | discriminate].
  - reflexivity.
  - reflexivity.
  - reflexivity.
  - reflexivity.
  - exact H.
Defined.

(** ** The getters of the two payload shapes *)

Lemma get_nested_null (path : list string) :
  Py.get_nested Py.VNull path = Py.VNull.
Proof. destruct path; reflexivity. Qed.

(** A walk along two paths in a row is the walk along the second from
    where the first arrives; a walk that fails arrives at [None], from
    where every walk fails. *)
Theorem get_nested_app (path1 path2 : list string) (v : Py.value) :
  Py.get_nested v (path1 ++ path2)
  = Py.get_nested (Py.get_nested v path1) path2.
Proof.
  revert v. induction path1 as [|p path1 IH]; intros v; [reflexivity |].
  cbn [app Py.get_nested].
  destruct v as [| | | | |m]; try (now rewrite get_nested_null).
  destruct (m !! p); [apply IH | now rewrite get_nested_null].
Qed.

Lemma split_no_sep (sep : ascii) (s : string) :
  Py.contains sep s = false -> Py.split sep s = [s].
Proof.
  induction s as [|x s IH]; cbn [Py.contains Py.split]; [reflexivity |].
  intros H. apply orb_false_elim in H as [Hx Hs].
  now rewrite Hx, (IH Hs).
Qed.

Lemma split_app (sep : ascii) (p rest : string) :
  Py.contains sep p = false ->
  Py.split sep (p +:+ String sep rest) = p :: Py.split sep rest.
Proof.
  induction p as [|x p IH]; intros H.
  - change (Py.split sep (String sep rest) = "" :: Py.split sep rest).
    cbn [Py.split]. now rewrite Ascii.eqb_refl.
  - cbn [Py.contains] in H. apply orb_false_elim in H as [Hx Hp].
    change (Py.split sep (String x (p +:+ String sep rest))
            = String x p :: Py.split sep rest).
    cbn [Py.split]. now rewrite Hx, (IH Hp).
Qed.

(** Splitting a path written with dots gives its segments back. *)
Lemma split_dotted (path : list string) :
  path ≠ [] ->
  Forall (fun p => Py.contains "." p = false) path ->
  Py.split "." (dotted path) = path.
Proof.
  induction path as [|p path IH]; [congruence |].
  intros _ Hall. apply Forall_cons_1 in Hall as [Hp Hall].
  destruct path as [|q path]; [now apply split_no_sep |].
  change (dotted (p :: q :: path)) with (p +:+ String "." (dotted (q :: path))).
  rewrite (split_app "." p _ Hp). f_equal.
  apply IH; [discriminate | exact Hall].
Qed.

(** [get_in] of the manifest writer on a path written with dots is
    [get_nested] of the recorder on the segments, for a path that is not
    empty and whose segments hold no dot. *)
Theorem get_in_dotted (d : gmap string Py.value) (path : list string) :
  path ≠ [] ->
  Forall (fun p => Py.contains "." p = false) path ->
  Py.get_in d (dotted path) = Py.get_nested (Py.VMap d) path.
Proof.
  intros Hne Hall. unfold Py.get_in. now rewrite split_dotted.
Qed.

(** The result of the validation, in the nested shape. *)
Lemma get_in_dotted_witness :
  Py.get_in event_after_failed_validation "validate_result.reason"
  = Py.VStr "FAILED_VALIDATION".
Proof.
  change "validate_result.reason" with (dotted ["validate_result"; "reason"]).
  rewrite get_in_dotted.
  - reflexivity.
  - discriminate.
  - repeat (apply List.Forall_cons; [reflexivity |]). apply List.Forall_nil.
Defined.

(** ** The recorder: what a transition leaves, and how it fails *)

Lemma handler_recorded e event jobs jid :
  succeeded (UpdateState.handler e event jobs).1 ->
  UpdateState.job_id_of event = Py.VStr jid ->
  exists history,
    (UpdateState.handler e event jobs).2
    = <[jid :=
          <["state_history" := Py.VList history]>
            (<["updated_at" := Py.VStr (UpdateState.now_iso e)]>
               (<["state" := UpdateState.new_state_of event]>
                  (match jobs !! jid with
                   | Some r => r
                   | None => {[ "job_id" := Py.VStr jid ]}
                   end)))]> jobs.
Proof.
  intros [d Hd] Hjid. revert Hd.
  unfold UpdateState.handler.
  fold (UpdateState.job_id_of event). fold (UpdateState.new_state_of event).
  destruct (negb (Py.truthy (UpdateState.job_id_of event))
            || negb (Py.truthy (UpdateState.new_state_of event)));
    [discriminate |].
  rewrite Hjid. unfold Dynamo.update_item.
  destruct (Dynamo.request_serializable _ _); [| discriminate].
  unfold Dynamo.update_item_request.
  destruct (UpdateState.update_item_fault e); [discriminate |].
  unfold UpdateState.update_expr.
  cbn [Dynamo.apply_sets Dynamo.eval_operand].
  destruct (_ !! "state_history") as [[| | | | l |]|]; try discriminate;
    intros _; eexists; reflexivity.
Qed.

(** A transition that returns writes state, updated_at and state_history
    and nothing else: every other attribute of the record is as before,
    and a job without record gets one that holds its key. *)
Theorem transition_frame e event jobs jid :
  succeeded (UpdateState.handler e event jobs).1 ->
  UpdateState.job_id_of event = Py.VStr jid ->
  exists rec',
    (UpdateState.handler e event jobs).2 !! jid = Some rec'
    /\ (forall rec a, jobs !! jid = Some rec -> ~ In a transition_fields ->
          rec' !! a = rec !! a)
    /\ (jobs !! jid = None ->
        rec' !! "job_id" = Some (Py.VStr jid)
        /\ forall a, a ≠ "job_id" -> ~ In a transition_fields -> rec' !! a = None).
Proof.
  intros Hok Hjid.
  destruct (handler_recorded e event jobs jid Hok Hjid) as [history ->].
  eexists. split; [apply lookup_insert_eq |].
  assert (Hother : forall a, ~ In a transition_fields ->
            a ≠ "state_history" /\ a ≠ "updated_at" /\ a ≠ "state").
  { unfold transition_fields. cbn [In]. intros a Ha.
    repeat split; intros ->; apply Ha; tauto. }
  split.
  - intros rec a Hrec Ha. destruct (Hother a Ha) as (H1 & H2 & H3).
    rewrite Hrec. now rewrite !lookup_insert_ne.
  - intros Hnone. rewrite Hnone. split; [reflexivity |].
    intros a Hkey Ha. destruct (Hother a Ha) as (H1 & H2 & H3).
    rewrite !lookup_insert_ne by congruence.
    now apply lookup_singleton_ne.
Qed.

(** A transition of a job that holds the pointer to its manifest. *)
Lemma transition_frame_witness :
  exists rec',
    (UpdateState.handler (update_env "2024-05-01T10:00:02Z") flat_event
       {[ "job-1" := Py.dict [ ("job_id", Py.VStr "job-1")
                             ; ("manifest_key", Py.VStr "proj1/_manifests/job-1.json") ] ]}).2
      !! "job-1" = Some rec'
    /\ rec' !! "manifest_key" = Some (Py.VStr "proj1/_manifests/job-1.json").
Proof.
  destruct (transition_frame (update_env "2024-05-01T10:00:02Z") flat_event
              {[ "job-1" := Py.dict [ ("job_id", Py.VStr "job-1")
                                    ; ("manifest_key", Py.VStr "proj1/_manifests/job-1.json") ] ]}
              "job-1") as (rec' & Hrec' & Hframe & _).
  - eexists. reflexivity.
  - reflexivity.
  - exists rec'. split; [exact Hrec' |].
    rewrite (Hframe _ "manifest_key" (lookup_singleton_eq _ _)).
    + reflexivity.
    + unfold transition_fields. cbn [In]. intros [H | [H | [H | []]]]; discriminate.
Defined.

(** The failures of a transition: a [ValueError] exactly when the job id
    or the target state is missing or empty in both shapes, before any
    request; otherwise the failure is the one that the update of the
    table raises, an error of the service or the failure of a value that
    cannot be sent, and it is raised as it is; the table is as before in
    both cases. *)
Theorem transition_failures e event jobs x :
  (UpdateState.handler e event jobs).1 = Py.Raise x ->
  (UpdateState.handler e event jobs).2 = jobs
  /\ ((x = Py.ValueError "job_id and new_state are required."
       /\ (Py.truthy (UpdateState.job_id_of event) = false
           \/ Py.truthy (UpdateState.new_state_of event) = false))
      \/ (Py.truthy (UpdateState.job_id_of event) = true
          /\ Py.truthy (UpdateState.new_state_of event) = true
          /\ Dynamo.update_item (UpdateState.update_item_fault e)
               (UpdateState.job_id_of event)
               (UpdateState.update_expr (UpdateState.new_state_of event)
                  (UpdateState.now_iso e) (UpdateState.history_entry e event))
               jobs
             = Py.Raise x)).
Proof.
  unfold UpdateState.handler.
  fold (UpdateState.job_id_of event). fold (UpdateState.new_state_of event).
  destruct (Py.truthy (UpdateState.job_id_of event)) eqn:Hj; cbn [negb orb].
  2: { intros H. injection H as <-. split; [reflexivity |]. left. tauto. }
  destruct (Py.truthy (UpdateState.new_state_of event)) eqn:Hs; cbn [negb].
  2: { intros H. injection H as <-. split; [reflexivity |]. left. tauto. }
  destruct (Dynamo.update_item _ _ _ _) as [jobs' | y]; [discriminate |].
  intros H. injection H as <-. split; [reflexivity |]. right. tauto.
Qed.

(** A call without target state, a call that the table refuses, and a
    call whose target state is a number of 39 digits. *)
Lemma transition_failures_witness :
  (UpdateState.handler (update_env "2024-05-01T10:00:02Z")
     (Py.dict [ ("job_id", Py.VStr "job-1") ]) ∅).2 = ∅
  /\ Dynamo.update_item None (Py.VStr "job-1")
       (UpdateState.update_expr
          (Py.VInt 123456789012345678901234567890123456789)
          "2024-05-01T10:00:02Z"
          (UpdateState.history_entry (update_env "2024-05-01T10:00:02Z")
             (Py.dict [ ("job_id", Py.VStr "job-1")
                      ; ("new_state",
                         Py.VInt 123456789012345678901234567890123456789) ])))
       ∅
     = Py.Raise Py.DecimalException.
Proof.
  split.
  - destruct (transition_failures (update_env "2024-05-01T10:00:02Z")
                (Py.dict [ ("job_id", Py.VStr "job-1") ]) ∅
                (Py.ValueError "job_id and new_state are required.")) as [H _].
    + reflexivity.
    + exact H.
  - destruct (transition_failures (update_env "2024-05-01T10:00:02Z")
                (Py.dict [ ("job_id", Py.VStr "job-1")
                         ; ("new_state",
                            Py.VInt 123456789012345678901234567890123456789) ])
                ∅ Py.DecimalException) as [_ [[H _] | (_ & _ & H)]].
    + vm_compute. reflexivity.
    + discriminate H.
    + exact H.
Defined.

Lemma history_entry_at e event :
  entry_at (Py.VMap (UpdateState.history_entry e event))
  = Py.VStr (UpdateState.now_iso e).
Proof. reflexivity. Qed.

(** The entries that a sequence of calls appends carry the times of the
    calls, in the order of the calls: the history is as ordered in time as
    the clock of the calls is. *)
Theorem history_timestamps calls jobs jid :
  Forall (fun c => UpdateState.job_id_of c.2 = Py.VStr jid) calls ->
  Forall succeeded (UpdateState.run calls jobs).1 ->
  exists entries,
    UpdateState.state_history (UpdateState.run calls jobs).2 jid
    = UpdateState.state_history jobs jid ++ entries
    /\ map entry_at entries
       = map (fun c => Py.VStr (UpdateState.now_iso c.1)) calls.
Proof.
  intros Hid Hok.
  exists (map (fun c => Py.VMap (UpdateState.history_entry c.1 c.2)) calls).
  split; [now apply run_history |].
  rewrite map_map. apply map_ext. intros c. apply history_entry_at.
Qed.

(** The two calls of the scenario. *)
Lemma history_timestamps_witness :
  map entry_at (UpdateState.state_history (UpdateState.run two_calls ∅).2 "job-1")
  = [ Py.VStr "2024-05-01T10:00:02Z"; Py.VStr "2024-05-01T10:00:09Z" ].
Proof.
  destruct (history_timestamps two_calls ∅ "job-1") as (entries & Hh & Hat).
  - repeat constructor.
  - repeat constructor; eexists; reflexivity.
  - rewrite Hh. cbn [UpdateState.state_history app]. exact Hat.
Defined.

(** ** The validator: the verdict *)

Lemma object_errors_nil allow o :
  Validate.object_errors allow o = [] <-> well_formed allow o = true.
Proof.
  unfold Validate.object_errors, well_formed.
  destruct (Validate.Key o) as [[|c k]|]; cbn [Validate.missing negb andb];
    try (split; discriminate).
  destruct (Validate.Size o) as [n|]; [| split; discriminate].
  destruct allow; cbn [negb andb orb];
    destruct (n =? 0)%Z; cbn [negb andb];
    destruct (Validate.missing (Validate.ETag o)); cbn [negb app];
    split; (reflexivity || discriminate).
Qed.

Lemma flat_map_errors_nil allow payload :
  flat_map (Validate.object_errors allow) payload = []
  <-> forallb (well_formed allow) payload = true.
Proof.
  induction payload as [|o payload IH]; cbn [flat_map forallb]; [tauto |].
  rewrite andb_true_iff, <- IH, <- object_errors_nil.
  split.
  - intros H. apply app_eq_nil in H. exact H.
  - intros [-> ->]. reflexivity.
Qed.

Lemma validate_ok_spec allow objects marker_key :
  (Validate.validate_objects allow objects marker_key).1 = true
  <-> payload_of objects marker_key ≠ []
      /\ forallb (well_formed allow) (payload_of objects marker_key) = true.
Proof.
  destruct (payload_of objects marker_key) as [|o payload] eqn:Hp.
  - unfold Validate.validate_objects. fold (payload_of objects marker_key).
    rewrite Hp. cbn [fst]. split; [discriminate | intros [H _]; congruence].
  - assert (Hne : payload_of objects marker_key ≠ []) by (rewrite Hp; discriminate).
    rewrite (validate_objects_payload allow objects marker_key Hne), Hp. cbn [fst].
    rewrite <- flat_map_errors_nil.
    destruct (flat_map _ _) as [|err errs].
    + split; [intros _; split; [discriminate | reflexivity] | reflexivity].
    + split; [discriminate | intros [_ H]; discriminate H].
Qed.

(** The verdict of [validate_objects] is true exactly when something is
    left of the listing without the marker and every object left has a
    key, a size, not zero unless zero is allowed, and a fingerprint. *)
Theorem validate_ok_iff allow objects marker_key :
  (Validate.validate_objects allow objects marker_key).1 = true
  <-> payload_of objects marker_key ≠ []
      /\ forallb (well_formed allow) (payload_of objects marker_key) = true.
Proof. apply validate_ok_spec. Qed.

(** Zero-byte objects allowed, a folder that passed still passes, and no
    folder is reported with more errors. *)
Theorem zero_byte_tolerance objects marker_key :
  ((Validate.validate_objects false objects marker_key).1 = true ->
   (Validate.validate_objects true objects marker_key).1 = true)
  /\ length (Validate.validate_objects true objects marker_key).2
     <= length (Validate.validate_objects false objects marker_key).2.
Proof.
  split.
  - rewrite !validate_ok_spec. intros [Hne Hall]. split; [exact Hne |].
    rewrite forallb_forall in Hall |- *. intros o Ho.
    specialize (Hall o Ho). unfold well_formed in *.
    apply andb_true_iff in Hall as [Hall Hetag].
    apply andb_true_iff in Hall as [Hkey Hsize].
    rewrite Hkey, Hetag.
    destruct (Validate.Size o); [reflexivity | discriminate Hsize].
  - destruct (payload_of objects marker_key) as [|o payload] eqn:Hp.
    + unfold Validate.validate_objects. fold (payload_of objects marker_key).
      now rewrite Hp.
    + assert (Hne : payload_of objects marker_key ≠ [])
        by (rewrite Hp; discriminate).
      rewrite !(validate_objects_payload _ objects marker_key Hne). cbn [snd].
      rewrite !flat_map_errors_count. unfold total, list_sum.
      generalize (payload_of objects marker_key). intros l.
      induction l as [|x l IH]; cbn [map fold_right]; [lia |].
      assert (defects_reported true x <= defects_reported false x); [| lia].
      unfold defects_reported, size_defect.
      destruct (Validate.missing (Validate.Key x)); [lia |].
      destruct (Validate.Size x) as [n|]; [| lia].
      cbn [negb andb]. destruct (n =? 0)%Z; lia.
Qed.

(** ** The validator: the results of the handler *)

(** The three shapes of a result. *)
Lemma handler_outcomes e event r :
  Validate.handler e event = Py.Ok r ->
  (field_missing event
   /\ Validate.reason r = "INVALID_INPUT" /\ Validate.ok r = false
   /\ Validate.inventory r = None /\ Validate.result_stats r = None)
  \/ exists bucket folder_path,
       Py.get event "bucket" = Py.VStr bucket /\ bucket ≠ ""
       /\ Py.get event "folder_path" = Py.VStr folder_path /\ folder_path ≠ ""
       /\ Py.truthy (Py.get event "object_key") = true
       /\ ((listed e bucket folder_path = []
            /\ Validate.reason r = "FOLDER_NOT_FOUND_OR_EMPTY"
            /\ Validate.ok r = false
            /\ Validate.inventory r = None /\ Validate.result_stats r = None)
           \/ (listed e bucket folder_path ≠ []
               /\ let objects := listed e bucket folder_path in
                  let marker_key := Py.get event "object_key" in
                  let v := Validate.validate_objects
                             (Validate.ALLOW_ZERO_BYTE (Validate.cfg e))
                             objects marker_key in
                  Validate.ok r = v.1
                  /\ Validate.reason r = (if v.1 then "OK" else "FAILED_VALIDATION")
                  /\ Validate.errors r = v.2
                  /\ Validate.inventory r
                     = Some (Validate.build_inventory objects marker_key)
                  /\ Validate.result_stats r
                     = Some {| Validate.object_count_including_marker := length objects;
                               Validate.payload_file_count :=
                                 length (Validate.build_inventory objects marker_key);
                               Validate.max_keys_cap :=
                                 Validate.MAX_KEYS (Validate.cfg e) |})).
Proof.
  intros H.
  destruct (Py.truthy (Py.get event "bucket")) eqn:Tb.
  2: { left. unfold Validate.handler in H. rewrite Tb in H. cbn [negb orb] in H.
       injection H as <-. unfold field_missing. tauto. }
  destruct (Py.truthy (Py.get event "folder_path")) eqn:Tf.
  2: { left. unfold Validate.handler in H. rewrite Tb, Tf in H. cbn [negb orb] in H.
       injection H as <-. unfold field_missing. tauto. }
  destruct (Py.truthy (Py.get event "object_key")) eqn:Tm.
  2: { left. unfold Validate.handler in H. rewrite Tb, Tf, Tm in H.
       cbn [negb orb] in H. injection H as <-. unfold field_missing. tauto. }
  right.
  destruct (Py.get event "folder_path") as [| | | folder_path | |] eqn:Hf;
    try (unfold Validate.handler in H; rewrite Hf in H;
         rewrite Tb, Tf, Tm in H; cbn [negb orb] in H; discriminate H).
  destruct (Py.get event "bucket") as [| | | bucket | |] eqn:Hb;
    try (unfold Validate.handler in H; rewrite Hb, Hf in H;
         rewrite Tb, Tf, Tm in H; cbn [negb orb] in H; discriminate H).
  exists bucket, folder_path.
  assert (Hbne : bucket ≠ "") by (intros ->; discriminate Tb).
  assert (Hfne : folder_path ≠ "") by (intros ->; discriminate Tf).
  rewrite (handler_listed e event bucket folder_path Hb Hbne Hf Hfne Tm) in H.
  repeat (split; [first [assumption | reflexivity] |]).
  destruct (listed e bucket folder_path) as [|o objects].
  - left. injection H as <-. repeat split.
  - right. split; [discriminate |]. cbv zeta in H |- *.
    injection H as <-. repeat split.
Qed.

(** The reason of a result is one of INVALID_INPUT,
    FOLDER_NOT_FOUND_OR_EMPTY, OK and FAILED_VALIDATION; it is INVALID_INPUT
    exactly when a required field is missing or empty, it is OK exactly
    when the verdict is true, and the result has an inventory exactly when
    it is OK or FAILED_VALIDATION. *)
Theorem validate_reasons e event r :
  Validate.handler e event = Py.Ok r ->
  In (Validate.reason r) known_reasons
  /\ (Validate.reason r = "INVALID_INPUT" <-> field_missing event)
  /\ (Validate.reason r = "OK" <-> Validate.ok r = true)
  /\ (is_Some (Validate.inventory r)
      <-> Validate.reason r = "OK" \/ Validate.reason r = "FAILED_VALIDATION").
Proof.
  intros H. unfold known_reasons. cbn [In].
  destruct (handler_outcomes e event r H)
    as [(Hmiss & -> & -> & -> & _)
       | (b & f & Hb & Hbne & Hf & Hfne & Tm &
          [(_ & -> & -> & -> & _) | (_ & Hfull)])].
  - split; [tauto |]. split; [tauto |]. split; [split; discriminate |].
    split; [intros [x Hx]; discriminate | intros [Hr | Hr]; discriminate].
  - assert (Hok : ~ field_missing event).
    { unfold field_missing. rewrite Hb, Hf, Tm. cbn [Py.truthy].
      apply String.eqb_neq in Hbne, Hfne. rewrite Hbne, Hfne. cbn. intuition discriminate. }
    split; [tauto |]. split; [split; [discriminate | tauto] |].
    split; [split; discriminate |].
    split; [intros [x Hx]; discriminate | intros [Hr | Hr]; discriminate].
  - cbv zeta in Hfull. destruct Hfull as (-> & -> & _ & -> & _).
    assert (Hok : ~ field_missing event).
    { unfold field_missing. rewrite Hb, Hf, Tm. cbn [Py.truthy].
      apply String.eqb_neq in Hbne, Hfne. rewrite Hbne, Hfne. cbn. intuition discriminate. }
    destruct (Validate.validate_objects _ _ _).1.
    + split; [tauto |]. split; [split; [discriminate | tauto] |].
      split; [tauto |]. split; [tauto | eauto].
    + split; [tauto |]. split; [split; [discriminate | tauto] |].
      split; [split; discriminate |]. split; [tauto | eauto].
Qed.

(** The folder of the scenario. *)
Lemma validate_reasons_witness : Validate.ok result_2024 = true.
Proof.
  destruct (validate_reasons (validate_env [folder_2024]) validate_event result_2024)
    as (_ & _ & Hok & _).
  - reflexivity.
  - apply Hok. reflexivity.
Defined.

(** When every object left without the marker passes the checks, the
    objects inventoried are the objects checked. *)
Lemma inventoried_payload allow marker_key objects :
  forallb (well_formed allow) (payload_of objects marker_key) = true ->
  List.filter (inventoried marker_key) objects = payload_of objects marker_key.
Proof.
  unfold payload_of, inventoried.
  induction objects as [|o objects IH]; cbn [List.filter]; [reflexivity |].
  destruct (Validate.key_is (Validate.Key o) marker_key) eqn:Hk.
  - rewrite orb_true_r. cbn [negb]. exact IH.
  - rewrite orb_false_r. cbn [negb forallb].
    intros H. apply andb_true_iff in H as [Ho Hall].
    unfold well_formed in Ho. apply andb_true_iff in Ho as [Ho _].
    apply andb_true_iff in Ho as [Ho _].
    rewrite Ho. now rewrite (IH Hall).
Qed.

(** A result with the verdict true has the reason OK and no error, and
    its inventory holds every object of the listing but the marker, each
    once. *)
Theorem valid_folder_inventory e event r :
  Validate.handler e event = Py.Ok r ->
  Validate.ok r = true ->
  Validate.reason r = "OK"
  /\ Validate.errors r = []
  /\ exists bucket folder_path inv,
       Py.get event "bucket" = Py.VStr bucket
       /\ Py.get event "folder_path" = Py.VStr folder_path
       /\ Validate.inventory r = Some inv
       /\ Permutation inv
            (map Validate.inventory_item_of
               (payload_of (listed e bucket folder_path) (Py.get event "object_key")))
       /\ forall st, Validate.result_stats r = Some st ->
            Validate.payload_file_count st
            = length (payload_of (listed e bucket folder_path)
                                 (Py.get event "object_key")).
Proof.
  intros H Hok.
  destruct (handler_outcomes e event r H)
    as [(_ & _ & Hf & _) | (b & f & Hb & _ & Hf & _ & _ &
                            [(_ & _ & Hfalse & _) | (Hne & Hfull)])];
    try congruence.
  cbv zeta in Hfull. destruct Hfull as (Hv & Hreason & Herrors & Hinv & Hstats).
  rewrite Hok in Hv. symmetry in Hv.
  destruct (proj1 (validate_ok_spec _ _ _) Hv) as [Hpne Hall].
  rewrite (validate_objects_payload _ _ _ Hpne) in Herrors, Hreason.
  cbn [fst snd] in Herrors, Hreason.
  apply flat_map_errors_nil in Hall as Hnil. rewrite Hnil in Herrors, Hreason.
  split; [exact Hreason |]. split; [exact Herrors |].
  assert (Hperm : Permutation
            (Validate.build_inventory (listed e b f) (Py.get event "object_key"))
            (map Validate.inventory_item_of
               (payload_of (listed e b f) (Py.get event "object_key")))).
  { unfold Validate.build_inventory.
    rewrite sort_by_key_perm, collect_filter.
    now rewrite (inventoried_payload _ _ _ Hall). }
  exists b, f,
    (Validate.build_inventory (listed e b f) (Py.get event "object_key")).
  split; [exact Hb |]. split; [exact Hf |].
  split; [exact Hinv |]. split; [exact Hperm |].
  intros st Hst. rewrite Hstats in Hst. injection Hst as <-.
  cbn [Validate.payload_file_count].
  rewrite (Permutation_length Hperm). apply length_map.
Qed.

(** The folder of the scenario: three payload objects. *)
Lemma valid_folder_inventory_witness : Validate.reason result_2024 = "OK".
Proof.
  destruct (valid_folder_inventory (validate_env [folder_2024]) validate_event
              result_2024) as [H _].
  - reflexivity.
  - reflexivity.
  - exact H.
Defined.

(** The statistics of a result: the count of the objects listed is not
    zero and, for a cap that is not negative, not above the cap; the count
    of the payload is the length of the inventory and not above the count
    of the objects; and the cap reported is the cap configured. *)
Theorem validate_stats e event r st :
  Validate.handler e event = Py.Ok r ->
  Validate.result_stats r = Some st ->
  0 < Validate.object_count_including_marker st
  /\ ((0 <= Validate.MAX_KEYS (Validate.cfg e))%Z ->
      (Z.of_nat (Validate.object_count_including_marker st)
       <= Validate.MAX_KEYS (Validate.cfg e))%Z)
  /\ Validate.payload_file_count st <= Validate.object_count_including_marker st
  /\ (forall inv, Validate.inventory r = Some inv ->
        Validate.payload_file_count st = length inv)
  /\ Validate.max_keys_cap st = Validate.MAX_KEYS (Validate.cfg e).
Proof.
  intros H Hst.
  destruct (handler_outcomes e event r H)
    as [(_ & _ & _ & _ & Hnone) | (b & f & _ & _ & _ & _ & _ &
                                  [(_ & _ & _ & _ & Hnone) | (Hne & Hfull)])];
    try congruence.
  cbv zeta in Hfull. destruct Hfull as (_ & _ & _ & Hinv & Hstats).
  rewrite Hstats in Hst. injection Hst as <-.
  cbn [Validate.object_count_including_marker Validate.payload_file_count
       Validate.max_keys_cap].
  split; [destruct (listed e b f); [congruence | cbn; lia] |].
  split.
  { intros Hcap. unfold listed.
    rewrite list_all_objects_firstn by exact Hcap. rewrite length_firstn. lia. }
  split.
  { unfold Validate.build_inventory.
    rewrite (Permutation_length (sort_by_key_perm _)), collect_filter, length_map.
    apply List.filter_length_le. }
  split; [| reflexivity].
  intros inv Hinv'. rewrite Hinv in Hinv'. now injection Hinv' as <-.
Qed.

(** The folder of the scenario: four objects, three of them payload. *)
Lemma validate_stats_witness :
  Validate.payload_file_count
    {| Validate.object_count_including_marker := 4;
       Validate.payload_file_count := 3;
       Validate.max_keys_cap := 5000 |}
  <= Validate.object_count_including_marker
       {| Validate.object_count_including_marker := 4;
          Validate.payload_file_count := 3;
          Validate.max_keys_cap := 5000 |}.
Proof.
  destruct (validate_stats (validate_env [folder_2024]) validate_event result_2024
              {| Validate.object_count_including_marker := 4;
                 Validate.payload_file_count := 3;
                 Validate.max_keys_cap := 5000 |}) as (_ & _ & H & _).
  - reflexivity.
  - reflexivity.
  - exact H.
Defined.

(** ** The validator: the sort *)

Lemma string_leb_refl (s : string) : String.leb s s = true.
Proof. destruct (String.leb_total s s) as [H | H]; exact H. Qed.

Lemma insert_by_key_filter k x l :
  List.filter (has_key k) (Validate.insert_by_key x l)
  = List.filter (has_key k) (x :: l).
Proof.
  induction l as [|y l IH]; cbn [Validate.insert_by_key]; [reflexivity |].
  destruct (String.leb (Validate.key x) (Validate.key y)) eqn:E; [reflexivity |].
  cbn [List.filter] in *. rewrite IH.
  destruct (has_key k x) eqn:Hx; [| reflexivity].
  destruct (has_key k y) eqn:Hy; [| reflexivity].
  unfold has_key in Hx, Hy. apply String.eqb_eq in Hx, Hy.
  rewrite Hx, Hy, string_leb_refl in E. discriminate.
Qed.

(** The sort is stable: the items of one key come out in the order they
    came in. *)
Theorem sort_by_key_stable (k : string) (l : list Validate.inventory_item) :
  List.filter (has_key k) (Validate.sort_by_key l) = List.filter (has_key k) l.
Proof.
  unfold Validate.sort_by_key.
  induction l as [|x l IH]; cbn [foldr]; [reflexivity |].
  rewrite insert_by_key_filter. cbn [List.filter]. now rewrite IH.
Qed.

Lemma sort_by_key_sorted_id l :
  Sorted key_le l -> Validate.sort_by_key l = l.
Proof.
  unfold Validate.sort_by_key.
  induction 1 as [|x l Hl IH Hhd]; cbn [foldr]; [reflexivity |].
  rewrite IH. destruct Hhd as [|y l' Hxy]; [reflexivity |].
  cbn [Validate.insert_by_key]. unfold key_le in Hxy. now rewrite Hxy.
Qed.

(** A listing that comes in the order of its keys, as the object store
    serves it, is inventoried in the order it comes in; and sorting an
    inventory again changes nothing. *)
Theorem inventory_of_sorted_listing objects marker_key :
  Sorted key_le (Validate.collect objects marker_key) ->
  Validate.build_inventory objects marker_key
  = map Validate.inventory_item_of (List.filter (inventoried marker_key) objects)
  /\ Validate.sort_by_key (Validate.build_inventory objects marker_key)
     = Validate.build_inventory objects marker_key.
Proof.
  intros Hs. unfold Validate.build_inventory.
  rewrite (sort_by_key_sorted_id _ Hs).
  split; [apply collect_filter | now apply sort_by_key_sorted_id].
Qed.

(** A folder listed in the order of its keys, the marker last. *)
Lemma inventory_of_sorted_listing_witness :
  Validate.build_inventory
    [ object_of "proj1/2024/a.csv" 10; object_of "proj1/2024/b.csv" 20
    ; object_of marker_key_2024 0 ] (Py.VStr marker_key_2024)
  = map Validate.inventory_item_of
      [ object_of "proj1/2024/a.csv" 10; object_of "proj1/2024/b.csv" 20 ].
Proof.
  destruct (inventory_of_sorted_listing
              [ object_of "proj1/2024/a.csv" 10; object_of "proj1/2024/b.csv" 20
              ; object_of marker_key_2024 0 ] (Py.VStr marker_key_2024)) as [H _].
  - repeat constructor.
  - rewrite H. reflexivity.
Defined.

(** ** The prefix and its separator *)

Lemma substring_skip (p s : string) (n : nat) :
  substring (String.length p) n (p +:+ s) = substring 0 n s.
Proof. induction p as [|c p IH]; [reflexivity | exact IH]. Qed.

Lemma substring_all (s : string) : substring 0 (String.length s) s = s.
Proof. induction s as [|c s IH]; [reflexivity |]. cbn. now rewrite IH. Qed.

Lemma endswith_app (p suffix : string) : Py.endswith (p +:+ suffix) suffix = true.
Proof.
  unfold Py.endswith. rewrite length_append.
  replace (String.length p + String.length suffix - String.length suffix)
    with (String.length p) by lia.
  rewrite substring_skip, substring_all, String.eqb_refl.
  rewrite andb_true_r. apply Nat.leb_le. lia.
Qed.

Lemma append_not_empty (a : string) (c : ascii) (b : string) :
  a +:+ String c b ≠ "".
Proof. destruct a; discriminate. Qed.

Lemma get_insert_eq (d : gmap string Py.value) k v :
  Py.get (<[k := v]> d) k = v.
Proof. unfold Py.get. now rewrite lookup_insert_eq. Qed.

(** The validator lists the same prefix for a folder path with and
    without its final separator, and returns the same result. *)
Theorem validate_folder_slash e event folder_path :
  folder_path ≠ "" ->
  Py.endswith folder_path "/" = false ->
  Validate.handler e (<["folder_path" := Py.VStr folder_path]> event)
  = Validate.handler e (<["folder_path" := Py.VStr (folder_path +:+ "/")]> event).
Proof.
  intros Hne Hend. unfold Validate.handler.
  rewrite !get_insert_eq, !get_insert_ne by discriminate.
  cbn [Py.truthy].
  apply String.eqb_neq in Hne. rewrite Hne.
  assert (Hne' : String.eqb (folder_path +:+ "/") "" = false)
    by (apply String.eqb_neq, append_not_empty).
  rewrite Hne', Hend, endswith_app. reflexivity.
Qed.

(** The folder of the scenario, its path without the separator. *)
Lemma validate_folder_slash_witness :
  Validate.handler (validate_env [folder_2024])
    (<["folder_path" := Py.VStr "proj1/2024"]> validate_event)
  = Validate.handler (validate_env [folder_2024])
      (<["folder_path" := Py.VStr "proj1/2024/"]> validate_event).
Proof.
  apply (validate_folder_slash (validate_env [folder_2024]) validate_event "proj1/2024").
  - discriminate.
  - reflexivity.
Defined.

(** ** The manifest writer: the plan *)

(** What the handler has resolved for an input it accepts. *)
Lemma prepare_plan repr e event p :
  Manifest.prepare repr e event = Py.Ok p ->
  exists prefix,
    Py.truthy (Py.get event "job_id") = true
    /\ Py.truthy (Py.get event "project_code") = true
    /\ Py.truthy (source_bucket event) = true
    /\ source_prefix event = Py.VStr prefix
    /\ Manifest.plan_job_id p = Py.get event "job_id"
    /\ Manifest.out_bucket p = destination e event
    /\ Manifest.manifest_key p
       = Py.format repr (Py.get event "project_code") +:+ "/_manifests/"
         +:+ Py.format repr (Py.get event "job_id") +:+ ".json"
    /\ Manifest.manifest_s3_uri p
       = "s3://" +:+ Py.format repr (Manifest.out_bucket p) +:+ "/"
         +:+ Manifest.manifest_key p
    /\ Manifest.created_at p = Manifest.utc_now_iso e
    /\ Manifest.manifest p !! "ingest_folder"
       = Some (Py.VStr ("s3://" +:+ Py.format repr (source_bucket event) +:+ "/"
                        +:+ normalized prefix))
    /\ Py.get_nested (Py.VMap (Manifest.manifest p)) ["impl"; "s3"; "prefix"]
       = Py.VStr (normalized prefix).
Proof.
  unfold Manifest.prepare.
  fold (source_bucket event). fold (source_prefix event).
  destruct (Py.truthy (Py.get event "job_id")); [| discriminate].
  destruct (Py.truthy (Py.get event "project_code")); [| discriminate].
  cbn [negb orb].
  destruct (Py.truthy (source_bucket event));
    [| destruct (source_prefix event); discriminate].
  cbn [negb].
  destruct (source_prefix event) as [| | | prefix | |]; try discriminate.
  fold (normalized prefix). fold (destination e event).
  destruct (Py.por (Py.por (Py.get_in event "validate_result.inventory") _) _);
    try discriminate.
  intros H. injection H as <-. exists prefix. repeat split.
Qed.

(** The prefix of a manifest is empty or ends with the separator, and
    the folder the manifest names is the bucket and that prefix. *)
Theorem manifest_prefix_normalized repr e event p :
  Manifest.prepare repr e event = Py.Ok p ->
  exists prefix,
    Py.get_nested (Py.VMap (Manifest.manifest p)) ["impl"; "s3"; "prefix"]
    = Py.VStr prefix
    /\ (prefix = "" \/ Py.endswith prefix "/" = true)
    /\ Manifest.manifest p !! "ingest_folder"
       = Some (Py.VStr ("s3://" +:+ Py.format repr (source_bucket event) +:+ "/"
                        +:+ prefix)).
Proof.
  intros Hp.
  destruct (prepare_plan repr e event p Hp)
    as (prefix & _ & _ & _ & _ & _ & _ & _ & _ & _ & Hfolder & Hprefix).
  exists (normalized prefix). split; [exact Hprefix |]. split; [| exact Hfolder].
  unfold normalized.
  destruct (String.eqb prefix "") eqn:E; cbn [negb andb].
  - left. now apply String.eqb_eq.
  - right. destruct (Py.endswith prefix "/") eqn:E'; cbn [negb];
      [exact E' | apply endswith_app].
Qed.

(** The folder path of the scenario, without its separator. *)
Lemma manifest_prefix_normalized_witness :
  exists p,
    Manifest.prepare repr_plain (manifest_env None None) event_after_validation
    = Py.Ok p
    /\ Manifest.manifest p !! "ingest_folder" = Some (Py.VStr "s3://bkt/proj1/2024/").
Proof.
  destruct (Manifest.prepare repr_plain (manifest_env None None)
              event_after_validation) as [p | x] eqn:Hp;
    [| vm_compute in Hp; discriminate Hp].
  exists p. split; [reflexivity |].
  destruct (manifest_prefix_normalized repr_plain (manifest_env None None)
              event_after_validation p Hp) as (prefix & Hprefix & _ & Hfolder).
  rewrite Hfolder. vm_compute in Hp. injection Hp as <-.
  vm_compute in Hprefix. injection Hprefix as <-. reflexivity.
Defined.

(** An input that the checks refuse is refused with one of four
    failures, none of them a failure of a collaborator, and nothing is
    written: the object store and the job table are as before. *)
Theorem manifest_rejects_before_writing repr e event w x :
  Manifest.prepare repr e event = Py.Raise x ->
  In x input_failures
  /\ Manifest.handler repr e event w = (Py.Raise x, w).
Proof.
  intros Hp. split; [| unfold Manifest.handler; now rewrite Hp].
  revert Hp. unfold Manifest.prepare, input_failures. cbn [In].
  fold (source_bucket event). fold (source_prefix event).
  destruct (negb (Py.truthy (Py.get event "job_id"))
            || negb (Py.truthy (Py.get event "project_code")));
    [intros H; injection H as <-; tauto |].
  destruct (negb (Py.truthy (source_bucket event)));
    [destruct (source_prefix event); intros H; injection H as <-; tauto |].
  destruct (source_prefix event);
    try (intros H; injection H as <-; tauto).
  destruct (Py.por (Py.por (Py.get_in event "validate_result.inventory") _) _);
    try discriminate; intros H; injection H as <-; tauto.
Qed.

(** An input whose inventory is a text. *)
Lemma manifest_rejects_before_writing_witness :
  Manifest.handler repr_plain (manifest_env None None)
    (<["inventory" := Py.VStr "a.csv"]> event_after_failed_validation)
    world_with_job_1
  = (Py.Raise (Py.ValueError "inventory must be a list"), world_with_job_1).
Proof.
  apply (manifest_rejects_before_writing repr_plain (manifest_env None None)
           (<["inventory" := Py.VStr "a.csv"]> event_after_failed_validation)
           world_with_job_1).
  vm_compute. reflexivity.
Defined.

(** ** The manifest writer: the write and the pointer *)

Lemma handler_stores repr e event w p b :
  Manifest.prepare repr e event = Py.Ok p ->
  Manifest.out_bucket p = Py.VStr b ->
  Manifest.put_object_fault e = None ->
  Manifest.objects (Manifest.handler repr e event w).2
  = <[(b, Manifest.manifest_key p) := Manifest.manifest_object p]>
      (Manifest.objects w).
Proof.
  intros Hp Hb Hput.
  rewrite (handler_cases repr e event w p b Hp Hb), Hput. cbv zeta.
  destruct (Dynamo.update_item _ _ _ _) as [jobs' | x]; [| destruct x];
    reflexivity.
Qed.

(** The write and the update done, the handler returns the pointer, the
    manifest is in the store where the pointer says, and the record of the
    job holds the same pointer and the time of the manifest; the other
    attributes of the record, its state among them, and the other records
    are as before. *)
Theorem manifest_recorded repr e event w p b jid :
  Manifest.prepare repr e event = Py.Ok p ->
  Manifest.out_bucket p = Py.VStr b ->
  Manifest.plan_job_id p = Py.VStr jid ->
  Manifest.put_object_fault e = None ->
  Manifest.update_item_fault e = None ->
  let out := Manifest.handler repr e event w in
  let uri := "s3://" +:+ b +:+ "/" +:+ Manifest.manifest_key p in
  out.1 = Py.Ok (Py.dict [ ("manifest_s3_uri", Py.VStr uri)
                         ; ("manifest_bucket", Py.VStr b)
                         ; ("manifest_key", Py.VStr (Manifest.manifest_key p))
                         ; ("manifest_version", Py.VStr "v1.0") ])
  /\ Manifest.objects out.2 !! (b, Manifest.manifest_key p)
     = Some (Manifest.manifest_object p)
  /\ (exists rec',
        Manifest.jobs out.2 !! jid = Some rec'
        /\ rec' !! "manifest_s3_uri" = Some (Py.VStr uri)
        /\ rec' !! "manifest_bucket" = Some (Py.VStr b)
        /\ rec' !! "manifest_key" = Some (Py.VStr (Manifest.manifest_key p))
        /\ rec' !! "updated_at" = Some (Py.VStr (Manifest.utc_now_iso e))
        /\ forall rec a, Manifest.jobs w !! jid = Some rec ->
             ~ In a pointer_fields -> rec' !! a = rec !! a)
  /\ forall k, k ≠ jid -> Manifest.jobs out.2 !! k = Manifest.jobs w !! k.
Proof.
  intros Hp Hb Hjid Hput Hupd. cbv zeta.
  destruct (prepare_plan repr e event p Hp)
    as (prefix & _ & _ & _ & _ & _ & _ & _ & Huri & Hcreated & _).
  rewrite Hb in Huri. cbn [Py.format] in Huri.
  rewrite (handler_cases repr e event w p b Hp Hb), Hput. cbv zeta.
  unfold Manifest.pointer_update.
  rewrite Hjid, Hb, Huri, Hcreated.
  rewrite update_item_sent by reflexivity.
  unfold Dynamo.update_item_request. rewrite Hupd.
  cbn [Dynamo.apply_sets Dynamo.eval_operand fst snd
       Manifest.objects Manifest.jobs].
  split; [reflexivity |].
  split; [apply lookup_insert_eq |].
  split.
  - eexists. split; [apply lookup_insert_eq |].
    split; [now rewrite !lookup_insert_ne by discriminate; rewrite lookup_insert_eq |].
    split; [now rewrite !lookup_insert_ne by discriminate; rewrite lookup_insert_eq |].
    split; [now rewrite !lookup_insert_ne by discriminate; rewrite lookup_insert_eq |].
    split; [apply lookup_insert_eq |].
    intros rec a Hrec Ha. rewrite Hrec.
    unfold pointer_fields in Ha. cbn [In] in Ha.
    rewrite !lookup_insert_ne; [reflexivity | | | |]; intros <-; apply Ha; tauto.
  - intros k Hk. now rewrite lookup_insert_ne.
Qed.

(** The manifest of the validated folder of the scenario. *)
Lemma manifest_recorded_witness :
  exists rec',
    Manifest.jobs
      (Manifest.handler repr_plain (manifest_env None None)
         event_after_validation world_with_job_1).2 !! "job-1" = Some rec'
    /\ rec' !! "manifest_key" = Some (Py.VStr "proj1/_manifests/job-1.json")
    /\ rec' !! "state" = Some (Py.VStr "VALIDATING").
Proof.
  destruct (Manifest.prepare repr_plain (manifest_env None None)
              event_after_validation) as [p | x] eqn:Hp;
    [| vm_compute in Hp; discriminate Hp].
  destruct (manifest_recorded repr_plain (manifest_env None None)
              event_after_validation world_with_job_1 p "bkt" "job-1" Hp)
    as (_ & _ & (rec' & Hrec' & _ & _ & Hkey & _ & Hframe) & _).
  - vm_compute in Hp. injection Hp as <-. reflexivity.
  - vm_compute in Hp. injection Hp as <-. reflexivity.
  - reflexivity.
  - reflexivity.
  - exists rec'. split; [exact Hrec' |]. split.
    + rewrite Hkey. vm_compute in Hp. injection Hp as <-. reflexivity.
    + rewrite (Hframe _ "state" (lookup_singleton_eq _ _)).
      * reflexivity.
      * unfold pointer_fields. cbn [In].
        intros [H | [H | [H | [H | []]]]]; discriminate.
Defined.

(** The place of a manifest is fixed by the project code and the job id:
    a second run for the same job, whatever its inventory and its clock,
    writes to the key of the first, and the store then holds the second
    manifest there and no trace of the first. *)
Theorem manifest_rewrite_replaces repr e1 e2 event1 event2 w p1 p2 b :
  Manifest.prepare repr e1 event1 = Py.Ok p1 ->
  Manifest.prepare repr e2 event2 = Py.Ok p2 ->
  Py.get event1 "job_id" = Py.get event2 "job_id" ->
  Py.get event1 "project_code" = Py.get event2 "project_code" ->
  Manifest.out_bucket p1 = Py.VStr b ->
  Manifest.out_bucket p2 = Py.VStr b ->
  Manifest.put_object_fault e1 = None ->
  Manifest.put_object_fault e2 = None ->
  Manifest.manifest_key p1 = Manifest.manifest_key p2
  /\ Manifest.objects
       (Manifest.handler repr e2 event2 (Manifest.handler repr e1 event1 w).2).2
     = <[(b, Manifest.manifest_key p2) := Manifest.manifest_object p2]>
         (Manifest.objects w).
Proof.
  intros Hp1 Hp2 Hjid Hproject Hb1 Hb2 Hput1 Hput2.
  destruct (prepare_plan repr e1 event1 p1 Hp1)
    as (_ & _ & _ & _ & _ & _ & _ & Hk1 & _).
  destruct (prepare_plan repr e2 event2 p2 Hp2)
    as (_ & _ & _ & _ & _ & _ & _ & Hk2 & _).
  assert (Hkey : Manifest.manifest_key p1 = Manifest.manifest_key p2)
    by (rewrite Hk1, Hk2, Hjid, Hproject; reflexivity).
  split; [exact Hkey |].
  rewrite (handler_stores repr e2 event2 _ p2 b Hp2 Hb2 Hput2).
  rewrite (handler_stores repr e1 event1 w p1 b Hp1 Hb1 Hput1).
  rewrite Hkey. apply insert_insert_eq.
Qed.

(** A folder validated again after a validation that failed. *)
Lemma manifest_rewrite_replaces_witness :
  exists p,
    Manifest.prepare repr_plain (manifest_env None None) event_after_validation
    = Py.Ok p
    /\ Manifest.objects
         (Manifest.handler repr_plain (manifest_env None None) event_after_validation
            (Manifest.handler repr_plain (manifest_env None None)
               event_after_failed_validation world_with_job_1).2).2
       = {[ ("bkt", Manifest.manifest_key p) := Manifest.manifest_object p ]}.
Proof.
  destruct (Manifest.prepare repr_plain (manifest_env None None)
              event_after_failed_validation) as [p1 | x] eqn:Hp1;
    [| vm_compute in Hp1; discriminate Hp1].
  destruct (Manifest.prepare repr_plain (manifest_env None None)
              event_after_validation) as [p2 | x] eqn:Hp2;
    [| vm_compute in Hp2; discriminate Hp2].
  exists p2. split; [reflexivity |].
  destruct (manifest_rewrite_replaces repr_plain (manifest_env None None)
              (manifest_env None None) event_after_failed_validation
              event_after_validation world_with_job_1 p1 p2 "bkt" Hp1 Hp2)
    as [_ H].
  - reflexivity.
  - reflexivity.
  - vm_compute in Hp1. injection Hp1 as <-. reflexivity.
  - vm_compute in Hp2. injection Hp2 as <-. reflexivity.
  - reflexivity.
  - reflexivity.
  - rewrite H. reflexivity.
Defined.

(** ** Witnesses of properties of Part II *)

(** Two folders of one project. *)
Lemma intake_ids_distinct_witness :
  Intake.generate_job_id (Py.split_first "/" "proj1/2024/") "proj1/2024/"
  ≠ Intake.generate_job_id (Py.split_first "/" "proj1/2025/") "proj1/2025/"
  \/ SHA256.collision
       (Py.encode_utf8 (Py.split_first "/" "proj1/2024/" +:+ ":" +:+ "proj1/2024/"))
       (Py.encode_utf8 (Py.split_first "/" "proj1/2025/" +:+ ":" +:+ "proj1/2025/")).
Proof.
  apply (intake_ids_distinct "proj1/2024/" "proj1/2025/").
  - discriminate.
  - discriminate.
Defined.

(** The folder of the scenario, listed in two orders. *)
Lemma build_inventory_order_free_witness :
  Validate.build_inventory folder_2024 (Py.VStr marker_key_2024)
  = Validate.build_inventory (rev folder_2024) (Py.VStr marker_key_2024).
Proof.
  apply (build_inventory_order_free folder_2024 (rev folder_2024)).
  - apply Permutation_rev.
  - repeat constructor; cbn; intuition discriminate.
Defined.
